(** * Match rating and consistency engine of the match reporter

    A shallow embedding of [app/services/match_service.py] (class
    [MatchService]) together with the pydantic models of
    [app/models/db_models.py], and the properties of the service that the
    specification states: the substitution aware rating update, idempotent
    ingestion, the mutation operations on pending matches and the approval
    transaction.

    Conventions.
    - Python [str] and [bytes] are [string]; [int] is [Z]; [Optional[T]] is
      [option T], [None] being Python's [None].
    - A raised exception is [Err e]; every service method is a function of
      the database state that returns its result together with the new
      state ([M]).
    - What the service imports from outside the repository's sources
      (TrueSkill, SHA-256, the save parsers, [bson], Python's [int] and
      [round], the configured constants) is an [Externals] interface.
    - The database driver is taken to answer every read, and every write
      outside the approval transaction; a ranking query whose [_id] does not
      fit 64 bits raises [OverflowError] ([int64_key]), and inside the
      transaction any write may fail ([tx_write]). *)

From Stdlib Require Import ZArith String Ascii List Bool Lia DecimalString.
From stdpp Require Import base option list gmap strings.

Local Open Scope string_scope.
Local Open Scope list_scope.
Local Open Scope Z_scope.

(** ** Exceptions *)

(** The exception classes of the service ([InvalidIDError], [ParseError] and
    [NotFoundError] all derive from [MatchServiceError]; a bare
    [MatchServiceError] is what the routes report as a validation error) and
    the Python built-in exceptions that can escape a method, by class name. *)
Inductive exn : Type :=
  | InvalidIDError
  | ParseError
  | NotFoundError
  | MatchServiceError (msg : string)
  | PyException (cls : string).

Inductive Result (A : Type) : Type :=
  | Ok (a : A)
  | Err (e : exn).
Arguments Ok {A} a.
Arguments Err {A} e.

Definition rbind {A B} (r : Result A) (k : A -> Result B) : Result B :=
  match r with
  | Ok a => k a
  | Err e => Err e
  end.

Notation "'let+' x ':=' r 'in' k" := (rbind r (fun x => k))
  (at level 10, x pattern, r at level 100, k at level 200).

Definition is_ok {A} (r : Result A) : bool :=
  match r with Ok _ => true | Err _ => false end.

(** [o] or raise [e]. *)
Definition or_raise {A} (e : exn) (o : option A) : Result A :=
  match o with
  | Some a => Ok a
  | None => Err e
  end.

Fixpoint mapR {A B} (f : A -> Result B) (l : list A) : Result (list B) :=
  match l with
  | [] => Ok []
  | x :: xs =>
      let+ y := f x in
      let+ ys := mapR f xs in
      Ok (y :: ys)
  end.

Fixpoint foldR {A S} (f : S -> A -> Result S) (l : list A) (s : S) : Result S :=
  match l with
  | [] => Ok s
  | x :: xs =>
      let+ s' := f s x in
      foldR f xs s'
  end.

(** [enumerate(l)], counting from [n]. *)
Fixpoint enumerate_from {A} (n : nat) (l : list A) : list (nat * A) :=
  match l with
  | [] => []
  | x :: xs => (n, x) :: enumerate_from (S n) xs
  end.

Definition enumerate {A} (l : list A) : list (nat * A) := enumerate_from 0 l.

(** [l[i]] for a Python list and a natural index. *)
Definition py_get {A} (l : list A) (i : nat) : Result A :=
  or_raise (PyException "IndexError") (l !! i).

(** [l[i]] for a Python list and an [int]: negative indices count from the
    end. *)
Definition py_index {A} (l : list A) (i : Z) : Result A :=
  if (0 <=? i) then py_get l (Z.to_nat i)
  else if (- Z.of_nat (length l) <=? i) then py_get l (Z.to_nat (Z.of_nat (length l) + i))
  else Err (PyException "IndexError").

(** [str(n)] for a natural number [n], as an f-string formats it. *)
Definition py_str (n : nat) : string := NilZero.string_of_uint (Nat.to_uint n).

(** ** Data model ([app/models/db_models.py]) *)

Definition datetime := Z.

Record PlayerModel : Type := mkPlayer {
  steam_id : option string;
  user_name : option string;
  civ : string;
  team : Z;
  leader : option string;
  player_alive : option bool;
  discord_id : option string;
  placement : option Z;
  quit : bool;
  delta : Z;
  season_delta : option Z;
  combined_delta : option Z;
  is_sub : bool;
  subbed_out : bool;
}.

#[global] Instance PlayerModel_eq_dec : EqDecision PlayerModel.
Proof. solve_decision. Defined.

Record MatchModel : Type := mkMatch {
  game : string;
  turn : Z;
  age : option string;
  map_type : string;
  game_mode : string;
  is_cloud : bool;
  players : list PlayerModel;
  parser_version : string;
  discord_messages_id_list : list string;
  created_at : datetime;
  approved_at : option datetime;
  approver_discord_id : option string;
  flagged : bool;
  flagged_by : option string;
  save_file_hash : string;
  reporter_discord_id : string;
}.

#[global] Instance MatchModel_eq_dec : EqDecision MatchModel.
Proof. solve_decision. Defined.

(** The three per-player delta attributes that [update_player_stats] is
    called with ([delta_value_name]). *)
Inductive DeltaField : Type := Fdelta | Fseason_delta | Fcombined_delta.

(** [getattr(p, delta_value_name)]. *)
Definition get_delta (f : DeltaField) (p : PlayerModel) : option Z :=
  match f with
  | Fdelta => Some (delta p)
  | Fseason_delta => season_delta p
  | Fcombined_delta => combined_delta p
  end.

(** [p.__setattr__(delta_value_name, v)]. *)
Definition set_delta (f : DeltaField) (v : Z) (p : PlayerModel) : PlayerModel :=
  match f with
  | Fdelta =>
      mkPlayer (steam_id p) (user_name p) (civ p) (team p) (leader p) (player_alive p)
        (discord_id p) (placement p) (quit p) v (season_delta p) (combined_delta p)
        (is_sub p) (subbed_out p)
  | Fseason_delta =>
      mkPlayer (steam_id p) (user_name p) (civ p) (team p) (leader p) (player_alive p)
        (discord_id p) (placement p) (quit p) (delta p) (Some v) (combined_delta p)
        (is_sub p) (subbed_out p)
  | Fcombined_delta =>
      mkPlayer (steam_id p) (user_name p) (civ p) (team p) (leader p) (player_alive p)
        (discord_id p) (placement p) (quit p) (delta p) (season_delta p) (Some v)
        (is_sub p) (subbed_out p)
  end.

Definition set_season_delta (v : option Z) (p : PlayerModel) : PlayerModel :=
  mkPlayer (steam_id p) (user_name p) (civ p) (team p) (leader p) (player_alive p)
    (discord_id p) (placement p) (quit p) (delta p) v (combined_delta p)
    (is_sub p) (subbed_out p).

Definition set_combined_delta (v : option Z) (p : PlayerModel) : PlayerModel :=
  mkPlayer (steam_id p) (user_name p) (civ p) (team p) (leader p) (player_alive p)
    (discord_id p) (placement p) (quit p) (delta p) (season_delta p) v
    (is_sub p) (subbed_out p).

Definition set_is_sub (b : bool) (p : PlayerModel) : PlayerModel :=
  mkPlayer (steam_id p) (user_name p) (civ p) (team p) (leader p) (player_alive p)
    (discord_id p) (placement p) (quit p) (delta p) (season_delta p) (combined_delta p)
    b (subbed_out p).

Definition set_placement (v : option Z) (p : PlayerModel) : PlayerModel :=
  mkPlayer (steam_id p) (user_name p) (civ p) (team p) (leader p) (player_alive p)
    (discord_id p) v (quit p) (delta p) (season_delta p) (combined_delta p)
    (is_sub p) (subbed_out p).

Definition set_quit (b : bool) (p : PlayerModel) : PlayerModel :=
  mkPlayer (steam_id p) (user_name p) (civ p) (team p) (leader p) (player_alive p)
    (discord_id p) (placement p) b (delta p) (season_delta p) (combined_delta p)
    (is_sub p) (subbed_out p).

Definition set_discord_id (v : option string) (p : PlayerModel) : PlayerModel :=
  mkPlayer (steam_id p) (user_name p) (civ p) (team p) (leader p) (player_alive p)
    v (placement p) (quit p) (delta p) (season_delta p) (combined_delta p)
    (is_sub p) (subbed_out p).

Definition set_steam_id (v : option string) (p : PlayerModel) : PlayerModel :=
  mkPlayer v (user_name p) (civ p) (team p) (leader p) (player_alive p)
    (discord_id p) (placement p) (quit p) (delta p) (season_delta p) (combined_delta p)
    (is_sub p) (subbed_out p).

Definition set_players (ps : list PlayerModel) (m : MatchModel) : MatchModel :=
  mkMatch (game m) (turn m) (age m) (map_type m) (game_mode m) (is_cloud m) ps
    (parser_version m) (discord_messages_id_list m) (created_at m) (approved_at m)
    (approver_discord_id m) (flagged m) (flagged_by m) (save_file_hash m)
    (reporter_discord_id m).

Definition set_discord_messages_id_list (l : list string) (m : MatchModel) : MatchModel :=
  mkMatch (game m) (turn m) (age m) (map_type m) (game_mode m) (is_cloud m) (players m)
    (parser_version m) l (created_at m) (approved_at m)
    (approver_discord_id m) (flagged m) (flagged_by m) (save_file_hash m)
    (reporter_discord_id m).

Definition set_approval (t : datetime) (who : string) (m : MatchModel) : MatchModel :=
  mkMatch (game m) (turn m) (age m) (map_type m) (game_mode m) (is_cloud m) (players m)
    (parser_version m) (discord_messages_id_list m) (created_at m) (Some t)
    (Some who) (flagged m) (flagged_by m) (save_file_hash m)
    (reporter_discord_id m).

(** ** What the parsers return *)

(** Modelled from the spec: the save parsers ([app.parsers], outside the
    sources) return "structured match fields"; these are the keys that
    [create_from_save] reads and that the [MatchModel] constructor requires.  A
    player's [leader] key may be absent ([None] here); the remaining player
    attributes take the defaults of [PlayerModel]. *)
Record ParsedPlayer : Type := mkParsedPlayer {
  pp_steam_id : option string;
  pp_user_name : option string;
  pp_civ : string;
  pp_team : Z;
  pp_leader : option string;
  pp_player_alive : option bool;
  pp_placement : option Z;
}.

Record Parsed : Type := mkParsed {
  p_game : string;
  p_turn : Z;
  p_age : option string;
  p_map_type : string;
  p_game_mode : string;
  p_players : list ParsedPlayer;
  p_parser_version : string;
}.

(** ** External collaborators *)

(** Everything the service calls that is not part of its own sources.
    - [pyfloat] with [fsub], [fadd_int], [py_round]: Python's [float], its
      subtraction, the addition of an [int], and the built-in [round] ([None]
      where [round] raises, and then [py_round_raises] is the class of the
      exception: [OverflowError] on an infinity, [ValueError] on a NaN);
    - [py_int]: the built-in [int] on a [str], also [bson.int64.Int64]
      ([None] where it raises [ValueError]);
    - [ts_mu], [ts_sigma], [min_points_for_subs]: [app.config.settings];
    - [ts_rate]: [make_ts_env().rate(groups, ranks=...)] of TrueSkill, from
      the [(mu, sigma)] of every rating to the [(mu, sigma)] of every
      posterior ([None] where it raises, and then [ts_rate_raises] is the
      class of the exception: [ValueError] for fewer than two groups,
      [TypeError] for a rank that is [None], and so on);
    - [str_of_exception]: [str(e)] for an exception that a write inside the
      approval transaction raises;
    - [sha256_hexdigest]: [hashlib.sha256(s.encode('utf-8')).hexdigest()];
    - [parse_civ6_save], [parse_civ7_save]: the save parsers at the
      configured parser version ([None] where they raise);
    - [get_cpl_name]: [app.utils.get_cpl_name];
    - [ObjectId_of_str], [str_of_ObjectId]: [bson.ObjectId(s)] ([None] where
      it raises) and [str(oid)]. *)
Class Externals : Type := {
  pyfloat : Type;
  fsub : pyfloat -> pyfloat -> pyfloat;
  fadd_int : pyfloat -> Z -> pyfloat;
  py_round : pyfloat -> option Z;
  py_round_raises : pyfloat -> string;
  py_int : string -> option Z;
  ts_mu : pyfloat;
  ts_sigma : pyfloat;
  min_points_for_subs : Z;
  ts_rate : list (list (pyfloat * pyfloat)) -> list (option Z) ->
            option (list (list (pyfloat * pyfloat)));
  ts_rate_raises : list (list (pyfloat * pyfloat)) -> list (option Z) -> string;
  str_of_exception : exn -> string;
  sha256_hexdigest : string -> string;
  parse_civ6_save : string -> option Parsed;
  parse_civ7_save : string -> option Parsed;
  get_cpl_name : string -> string -> option string -> string;
  ObjectId_of_str : string -> option nat;
  str_of_ObjectId : nat -> string;
}.

Section Service.

Context {E : Externals}.

(** [StatModel] of [db_models.py].  Its [lastModified] attribute is never
    read by the service and is left out; [index] and [id] are [st_index] and
    [st_id]. *)
Record StatModel : Type := mkStat {
  st_index : nat;
  st_id : Z;
  mu : pyfloat;
  sigma : pyfloat;
  games : Z;
  wins : Z;
  first : Z;
  subbedIn : Z;
  subbedOut : Z;
  civs : option (gmap string Z);
}.

Definition set_mu (v : pyfloat) (s : StatModel) : StatModel :=
  mkStat (st_index s) (st_id s) v (sigma s) (games s) (wins s) (first s)
    (subbedIn s) (subbedOut s) (civs s).

(** ** The rating update ([update_player_stats]) *)

(** A [defaultdict(list)] from team to its [(i, p)] members, in insertion
    order of the teams. *)
Definition Groups : Type := list (Z * list (nat * PlayerModel)).

(** [d[t].append(x)]. *)
Fixpoint group_append (t : Z) (x : nat * PlayerModel) (d : Groups) : Groups :=
  match d with
  | [] => [(t, [x])]
  | (t', xs) :: d' =>
      if Z.eqb t' t then (t', xs ++ [x]) :: d' else (t', xs) :: group_append t x d'
  end.

(** One iteration of the partition loop (lines 156-163): a substitute-in row
    joins only [teams_with_sub_ins], a substituted-out row only
    [teams_wo_subs], any other row both. *)
Definition partition_step (acc : Groups * Groups) (ip : nat * PlayerModel)
  : Groups * Groups :=
  let '(teams_wo_subs, teams_with_sub_ins) := acc in
  let p := snd ip in
  if is_sub p then (teams_wo_subs, group_append (team p) ip teams_with_sub_ins)
  else if subbed_out p then (group_append (team p) ip teams_wo_subs, teams_with_sub_ins)
  else (group_append (team p) ip teams_wo_subs,
        group_append (team p) ip teams_with_sub_ins).

Definition partition_teams (ps : list PlayerModel) : Groups * Groups :=
  fold_left partition_step (enumerate ps) ([], []).

(** [[players_ranking[i] for (i, _) in d[team]] for team in d]. *)
Definition team_states (players_ranking : list StatModel) (d : Groups)
  : Result (list (list StatModel)) :=
  mapR (fun g => mapR (fun ip => py_get players_ranking (fst ip)) (snd g)) d.

(** [[d[team][0][1].placement for team in d]]. *)
Definition team_placements (d : Groups) : Result (list (option Z)) :=
  mapR (fun g => match snd g with
                 | ip :: _ => Ok (placement (snd ip))
                 | [] => Err (PyException "IndexError")
                 end) d.

Definition ratings_of (states : list (list StatModel)) : list (list (pyfloat * pyfloat)) :=
  map (map (fun p => (mu p, sigma p))) states.

(** [len(set([p.team for p in match.players]))]. *)
Definition num_teams (m : MatchModel) : nat :=
  length (remove_dups (map team (players m))).

(** The [StatModel] built from a prior and a TrueSkill posterior. *)
Definition posterior_stat (player : StatModel) (r : pyfloat * pyfloat) : StatModel :=
  mkStat (st_index player) (st_id player) (fst r) (snd r) (games player) (wins player)
    (first player) (subbedIn player) (subbedOut player) (civs player).

(** [post[i] = x]. *)
Definition py_set {A} (l : list A) (i : nat) (x : A) : Result (list A) :=
  if decide (i < length l)%nat then Ok (<[i := x]> l)
  else Err (PyException "IndexError").

(** Body of the first merge loop (lines 186-200). *)
Definition merge_wo_subs (m : MatchModel) (new_ts : list (list (pyfloat * pyfloat)))
    (team_idx : nat) (post : list (option StatModel)) (ip : nat * StatModel)
  : Result (list (option StatModel)) :=
  let '(player_index, player) := ip in
  let+ mp := py_get (players m) (st_index player) in
  if is_sub mp then Err (PyException "ValueError")
  else
    let+ row := py_get new_ts team_idx in
    let+ r := py_get row player_index in
    py_set post (st_index player) (Some (posterior_stat player r)).

(** Body of the second merge loop (lines 203-216). *)
Definition merge_with_sub_ins (m : MatchModel) (new_ts : list (list (pyfloat * pyfloat)))
    (team_idx : nat) (post : list (option StatModel)) (ip : nat * StatModel)
  : Result (list (option StatModel)) :=
  let '(player_index, player) := ip in
  let+ mp := py_get (players m) (st_index player) in
  if is_sub mp then
    let+ row := py_get new_ts team_idx in
    let+ r := py_get row player_index in
    py_set post (st_index player) (Some (posterior_stat player r))
  else Ok post.

Definition merge_teams
    (body : nat -> list (option StatModel) -> nat * StatModel -> Result (list (option StatModel)))
    (states : list (list StatModel)) (post : list (option StatModel))
  : Result (list (option StatModel)) :=
  foldR (fun post it => foldR (body (fst it)) (enumerate (snd it)) post)
        (enumerate states) post.

(** Lines 154-216: the two TrueSkill runs and their merge onto the player
    index.  [post] starts as [list(range(len(match.players)))], whose
    entries are not [StatModel]s ([None] here). *)
Definition posteriors (m : MatchModel) (players_ranking : list StatModel)
  : Result (list (option StatModel)) :=
  let '(teams_wo_subs, teams_with_sub_ins) := partition_teams (players m) in
  let+ team_wo_subs_states := team_states players_ranking teams_wo_subs in
  let+ team_with_sub_ins_states := team_states players_ranking teams_with_sub_ins in
  let ts_teams_wo_subs := ratings_of team_wo_subs_states in
  let ts_teams_with_sub_ins := ratings_of team_with_sub_ins_states in
  let+ placements_wo_subs := team_placements teams_wo_subs in
  let+ placements_with_sub_ins := team_placements teams_with_sub_ins in
  let+ new_ts_wo_subs :=
    or_raise (PyException (ts_rate_raises ts_teams_wo_subs placements_wo_subs))
      (ts_rate ts_teams_wo_subs placements_wo_subs) in
  let+ new_ts_with_sub_ins :=
    or_raise (PyException (ts_rate_raises ts_teams_with_sub_ins placements_with_sub_ins))
      (ts_rate ts_teams_with_sub_ins placements_with_sub_ins) in
  let post := map (fun _ => None) (players m) in
  let+ post := merge_teams (merge_wo_subs m new_ts_wo_subs) team_wo_subs_states post in
  merge_teams (merge_with_sub_ins m new_ts_with_sub_ins) team_with_sub_ins_states post.

(** [post[i].mu]-style access to an entry of [post]: an entry that is still
    an [int] has no attributes. *)
Definition post_get (post : list (option StatModel)) (i : nat) : Result StatModel :=
  let+ o := py_get post i in
  or_raise (PyException "AttributeError") o.

(** [delta = round(post[i].mu - p_current_ranking.mu) if p.discord_id != None
    else 0] (line 219). *)
Definition computed_delta (p : PlayerModel) (post : list (option StatModel)) (i : nat)
    (p_current_ranking : StatModel) : Result Z :=
  match discord_id p with
  | Some _ =>
      let+ post_i := post_get post i in
      let difference := fsub (mu post_i) (mu p_current_ranking) in
      or_raise (PyException (py_round_raises difference)) (py_round difference)
  | None => Ok 0
  end.

(** The value stored by lines 220-228 for a computed [delta]. *)
Definition stored_delta (p : PlayerModel) (delta : Z) : Z :=
  if is_sub p then Z.max min_points_for_subs delta
  else if subbed_out p then (if delta <? 0 then delta else 0)
  else delta.

(** One iteration of the last loop (lines 217-229), which touches only
    [match.players[i]] and [post[i]]. *)
Definition apply_delta (players_ranking : list StatModel) (post : list (option StatModel))
    (delta_value_name : DeltaField) (ip : nat * PlayerModel)
  : Result (PlayerModel * StatModel) :=
  let '(i, p) := ip in
  let+ p_current_ranking := py_get players_ranking i in
  let+ delta := computed_delta p post i p_current_ranking in
  let p' := set_delta delta_value_name (stored_delta p delta) p in
  let+ post_i := post_get post i in
  Ok (p', set_mu (fadd_int (mu p_current_ranking) (stored_delta p delta)) post_i).

(** [match.validation_msg_id], which the message of line 152 formats:
    [MatchModel] declares no such field, and a pydantic model raises
    [AttributeError] for an attribute that is not one of its fields. *)
Definition validation_msg_id (m : MatchModel) : Result string :=
  Err (PyException "AttributeError").

(** [update_player_stats(match, players_ranking, delta_value_name)].  The
    callers pass on whatever the previous call returned, so [match] may be
    [None]; the result is the pair [(match, post)].  For a match with fewer
    than two teams the function is to report it and return [(None, None)]
    (lines 151-153); building the report raises before the [return]. *)
Definition update_player_stats (match_ : option MatchModel)
    (players_ranking : list StatModel) (delta_value_name : DeltaField)
  : Result (option MatchModel * option (list StatModel)) :=
  match match_ with
  | None => Err (PyException "AttributeError")
  | Some m =>
      if (num_teams m <=? 1)%nat then
        let+ _ := validation_msg_id m in
        Ok (None, None)
      else
        let+ post := posteriors m players_ranking in
        let+ out := mapR (apply_delta players_ranking post delta_value_name)
                         (enumerate (players m)) in
        Ok (Some (set_players (map fst out) m), Some (map snd out))
  end.

(** ** The stores *)

(** A document of [server_members.users]. *)
Record UserDoc : Type := mkUser {
  u_discord_id : option string;
  u_steam_id : option string;
}.

(** A row of an aggregate-stats collection, as [get_player_stats_db] writes
    it; its [_id] is the key it is stored under.  The [civs] key is written
    only for a player with a civilization. *)
Record StatDoc : Type := mkStatDoc {
  d_mu : pyfloat;
  d_sigma : pyfloat;
  d_games : Z;
  d_wins : Z;
  d_first : Z;
  d_subbedIn : Z;
  d_subbedOut : Z;
  d_lastModified : datetime;
  d_civs : option (gmap string Z);
}.

(** The databases of [MatchService.__init__].  A collection of matches is
    the list of its documents with their [_id], in natural order; an
    aggregate-stats collection is named by the database it lives in
    (seasonal or lifetime, civ6 or civ7) and its collection name; [next_oid]
    is the [ObjectId] the driver gives the next inserted document. *)
Record DB : Type := mkDB {
  pending_matches : list (nat * MatchModel);
  validated_matches : list (nat * MatchModel);
  users : list UserDoc;
  subs_table : gmap string Z;
  stats : gmap (bool * bool * string) (gmap Z StatDoc);
  next_oid : nat;
}.

Definition set_pending (c : list (nat * MatchModel)) (db : DB) : DB :=
  mkDB c (validated_matches db) (users db) (subs_table db) (stats db) (next_oid db).

(** [find_one({"_id": oid})]. *)
Definition find_by_id (c : list (nat * MatchModel)) (oid : nat) : option MatchModel :=
  snd <$> List.find (fun d => Nat.eqb (fst d) oid) c.

(** [find_one({"save_file_hash": h})]. *)
Definition find_by_hash (c : list (nat * MatchModel)) (h : string)
  : option (nat * MatchModel) :=
  List.find (fun d => String.eqb (save_file_hash (snd d)) h) c.

(** The first document with [_id = oid] replaced by [f] of itself:
    [update_one] with a [$set], and [replace_one]. *)
Fixpoint modify_by_id (f : MatchModel -> MatchModel) (oid : nat)
    (c : list (nat * MatchModel)) : list (nat * MatchModel) :=
  match c with
  | [] => []
  | d :: c' =>
      if Nat.eqb (fst d) oid then (fst d, f (snd d)) :: c'
      else d :: modify_by_id f oid c'
  end.

(** [delete_one({"_id": oid})]. *)
Fixpoint delete_by_id (oid : nat) (c : list (nat * MatchModel))
  : list (nat * MatchModel) :=
  match c with
  | [] => []
  | d :: c' => if Nat.eqb (fst d) oid then c' else d :: delete_by_id oid c'
  end.

(** [insert_one(doc)] into the pending collection; the new [_id]. *)
Definition insert_pending (m : MatchModel) (db : DB) : nat * DB :=
  (next_oid db,
   mkDB (pending_matches db ++ [(next_oid db, m)]) (validated_matches db) (users db)
     (subs_table db) (stats db) (S (next_oid db))).

Definition insert_validated (m : MatchModel) (db : DB) : nat * DB :=
  (next_oid db,
   mkDB (pending_matches db) (validated_matches db ++ [(next_oid db, m)]) (users db)
     (subs_table db) (stats db) (S (next_oid db))).

(** [table.replace_one({"_id": k}, doc, upsert=True)]. *)
Definition upsert_stat (table : bool * bool * string) (k : Z) (doc : StatDoc) (db : DB)
  : DB :=
  mkDB (pending_matches db) (validated_matches db) (users db) (subs_table db)
    (<[table := <[k := doc]> (default ∅ (stats db !! table))]> (stats db))
    (next_oid db).

(** [subs_table.update_one({"_id": d}, {"$inc": {"subs_in": 1}}, upsert=True)]. *)
Definition inc_subs_in (d : string) (db : DB) : DB :=
  mkDB (pending_matches db) (validated_matches db) (users db)
    (<[d := default 0 (subs_table db !! d) + 1]> (subs_table db))
    (stats db) (next_oid db).

(** ** Stateful computations *)

(** A computation over a state [S] that may raise; the state it leaves is
    the one at the point of the exception. *)
Definition St (S A : Type) : Type := S -> Result A * S.

Definition sret {S A} (a : A) : St S A := fun s => (Ok a, s).

Definition sbind {S A B} (m : St S A) (k : A -> St S B) : St S B :=
  fun s => match m s with
           | (Ok a, s') => k a s'
           | (Err e, s') => (Err e, s')
           end.

Definition raise {S A} (e : exn) : St S A := fun s => (Err e, s).

(** A computation that does not touch the state. *)
Definition lift {S A} (r : Result A) : St S A := fun s => (r, s).

(** A computation that only reads the state. *)
Definition read {S A} (f : S -> Result A) : St S A := fun s => (f s, s).

(** A write that cannot fail. *)
Definition write {S} (f : S -> S) : St S unit := fun s => (Ok tt, f s).

Notation "'let*' x ':=' m 'in' k" := (sbind m (fun x => k))
  (at level 10, x pattern, m at level 100, k at level 200).

Fixpoint sfor {S A} (l : list A) (body : A -> St S unit) : St S unit :=
  match l with
  | [] => sret tt
  | x :: xs => let* _ := body x in sfor xs body
  end.

Definition M (A : Type) : Type := St DB A.

(** ** Lookups *)

(** [_to_oid]. *)
Definition _to_oid (match_id : string) : Result nat :=
  or_raise InvalidIDError (ObjectId_of_str match_id).

(** [_parse_save]. *)
Definition _parse_save (file_bytes : string) : Result Parsed :=
  if String.prefix "CIV6" file_bytes then or_raise ParseError (parse_civ6_save file_bytes)
  else if String.prefix "CIV7" file_bytes then or_raise ParseError (parse_civ7_save file_bytes)
  else Err ParseError.

(** [discord_to_steam_id]. *)
Definition discord_to_steam_id (db : DB) (discord_id : string) : option string :=
  match List.find (fun u => bool_decide (u_discord_id u = Some discord_id)) (users db) with
  | Some player => u_steam_id player
  | None => None
  end.

(** [steam_to_discord_id]. *)
Definition steam_to_discord_id (db : DB) (steam_id : string) : option string :=
  match List.find (fun u => bool_decide (u_steam_id u = Some steam_id)) (users db) with
  | Some player => u_discord_id player
  | None => None
  end.

(** [match_id_to_discord]. *)
Definition match_id_to_discord (db : DB) (m : MatchModel) : MatchModel :=
  set_players
    (map (fun player =>
            match steam_id player with
            | Some s =>
                if negb (String.eqb s "") && negb (String.eqb s "-1")
                then set_discord_id (steam_to_discord_id db s) player
                else player
            | None => player
            end) (players m)) m.

(** [get_stat_table]: the database (seasonal, civ6) and the collection name. *)
Definition get_stat_table (is_cloud : bool) (match_type civ_version : string)
    (is_seasonal is_combined : bool) : bool * bool * string :=
  (is_seasonal, String.eqb civ_version "civ6",
   String.append (if is_cloud then "pbc_" else "rt_")
                 (if is_combined then "combined" else match_type)).

Definition default_stat (player_index : nat) (id : Z) : StatModel :=
  mkStat player_index id ts_mu ts_sigma 0 0 0 0 0 (Some ∅).

(** The integers that BSON encodes: those of 64 bits. *)
Definition fits_int64 (k : Z) : bool := (- 2 ^ 63 <=? k) && (k <? 2 ^ 63).

(** The key of a filter [{"_id": Int64(discord_id)}] (lines 123, 475-477),
    as the driver sends it.  [Int64] is a subclass of [int] that checks no
    range: it raises [ValueError] on a string that is not an integer, and
    the driver raises [OverflowError] when it encodes an integer that does
    not fit 64 bits. *)
Definition int64_key (discord_id : string) : Result Z :=
  let+ k := or_raise (PyException "ValueError") (py_int discord_id) in
  if fits_int64 k then Ok k else Err (PyException "OverflowError").

(** [get_player_ranking]. *)
Definition get_player_ranking (db : DB) (m : MatchModel) (discord_id : option string)
    (player_index : nat) (is_seasonal is_combined : bool) : Result StatModel :=
  match discord_id with
  | None => Ok (default_stat player_index 0)
  | Some d =>
      let stat_table :=
        get_stat_table (is_cloud m) (game_mode m) (game m) is_seasonal is_combined in
      let+ k := int64_key d in
      match default ∅ (stats db !! stat_table) !! k with
      | Some player =>
          Ok (mkStat player_index k (d_mu player) (d_sigma player) (d_games player)
                (d_wins player) (d_first player) (d_subbedIn player) (d_subbedOut player)
                (d_civs player))
      | None => Ok (default_stat player_index k)
      end
  end.

(** [get_players_ranking]. *)
Definition get_players_ranking (db : DB) (m : MatchModel) (is_seasonal is_combined : bool)
  : Result (list StatModel) :=
  mapR (fun ip => get_player_ranking db m (discord_id (snd ip)) (fst ip)
                    is_seasonal is_combined)
       (enumerate (players m)).

(** The six lines that every rating operation repeats (256-261, 309-314,
    365-371, 409-414, 432-437, 456-461): the three rankings are read, then
    the three updates run, each on the match the previous one returned. *)
Definition recompute_ratings (db : DB) (m : MatchModel)
  : Result (option MatchModel * option (list StatModel) * option (list StatModel)
            * option (list StatModel)) :=
  let+ players_ranking := get_players_ranking db m false false in
  let+ players_season_ranking := get_players_ranking db m true false in
  let+ players_combined_ranking := get_players_ranking db m false true in
  let+ r1 := update_player_stats (Some m) players_ranking Fdelta in
  let+ r2 := update_player_stats (fst r1) players_season_ranking Fseason_delta in
  let+ r3 := update_player_stats (fst r2) players_combined_ranking Fcombined_delta in
  Ok (fst r3, snd r1, snd r2, snd r3).

(** An attribute access on the [match] that a rating update handed back,
    which is [None] on the branch of lines 151-153. *)
Definition attr_of {A} (o : option A) : Result A :=
  or_raise (PyException "AttributeError") o.

(** ** The service methods *)

(** What a method returns: the stored document with its [_id] turned into
    [match_id], and the [repeated] mark that only [create_from_save] adds. *)
Record Response : Type := mkResponse {
  r_match_id : string;
  r_match : MatchModel;
  r_repeated : option bool;
}.

Definition find_pending (oid : nat) : M MatchModel :=
  read (fun db => or_raise NotFoundError (find_by_id (pending_matches db) oid)).

(** [updated = find_one({"_id": oid}); updated["match_id"] =
    str(updated.pop("_id")); return updated]. *)
Definition fetch_updated (oid : nat) : M Response :=
  read (fun db =>
          let+ updated := or_raise (PyException "TypeError")
                            (find_by_id (pending_matches db) oid) in
          Ok (mkResponse (str_of_ObjectId oid) updated None)).

(** [update_one({"_id": oid}, {"$set": changes})] and [replace_one], the
    changes as a function of the stored document. *)
Definition update_pending (oid : nat) (changes : MatchModel -> MatchModel) : M unit :=
  write (fun db => set_pending (modify_by_id changes oid (pending_matches db)) db).

(** The [players.{i}.<field>] entries of a [$set]: the stored row [i] takes
    the fields that [f] copies from the computed row [i].  Both lists come
    from the same read of the document. *)
Fixpoint patch_players (f : PlayerModel -> PlayerModel -> PlayerModel)
    (computed stored : list PlayerModel) : list PlayerModel :=
  match computed, stored with
  | c :: cs, s :: ss => f c s :: patch_players f cs ss
  | _, _ => stored
  end.

(** [s.split(' ')]. *)
Fixpoint split_space (s : string) : list string :=
  match s with
  | EmptyString => [""]
  | String c s' =>
      if Ascii.eqb c " " then "" :: split_space s'
      else match split_space s' with
           | w :: ws => String c w :: ws
           | [] => [String c ""]
           end
  end.

(** The unique-data string of [create_from_save] (lines 235-239). *)
Definition unique_data (parsed : Parsed) : string :=
  String.concat ","
    ([p_game parsed] ++ [p_map_type parsed] ++
     map (fun p => String.append (pp_civ p) (default "" (pp_leader p)))
         (p_players parsed)).

Definition fingerprint (parsed : Parsed) : string :=
  sha256_hexdigest (unique_data parsed).

(** The [PlayerModel] that pydantic builds from a parsed player. *)
Definition player_of_parsed (p : ParsedPlayer) : PlayerModel :=
  mkPlayer (pp_steam_id p) (pp_user_name p) (pp_civ p) (pp_team p) (pp_leader p)
    (pp_player_alive p) None (pp_placement p) false 0 None None false false.

(** The [MatchModel] of line 254; [now] is what [datetime.utcnow] returns
    when the model is built. *)
Definition new_match (now : datetime) (parsed : Parsed) (save_file_hash
    reporter_discord_id : string) (is_cloud : bool) (discord_message_id : string)
  : MatchModel :=
  mkMatch (p_game parsed) (p_turn parsed) (p_age parsed) (p_map_type parsed)
    (p_game_mode parsed) is_cloud (map player_of_parsed (p_players parsed))
    (p_parser_version parsed) [discord_message_id] now None None false None
    save_file_hash reporter_discord_id.

(** [create_from_save]. *)
Definition create_from_save (now : datetime) (file_bytes reporter_discord_id : string)
    (is_cloud : bool) (discord_message_id : string) : M Response :=
  let* parsed := lift (_parse_save file_bytes) in
  let save_file_hash := fingerprint parsed in
  let* res := read (fun db => Ok (find_by_hash (pending_matches db) save_file_hash)) in
  match res with
  | Some res => sret (mkResponse (str_of_ObjectId (fst res)) (snd res) (Some true))
  | None =>
      let match_ :=
        new_match now parsed save_file_hash reporter_discord_id is_cloud
          discord_message_id in
      let* match_ := read (fun db => Ok (match_id_to_discord db match_)) in
      let* r := read (fun db => recompute_ratings db match_) in
      let* match_ := lift (attr_of (fst (fst (fst r)))) in
      fun db =>
        let '(oid, db') := insert_pending match_ db in
        (Ok (mkResponse (str_of_ObjectId oid) match_ None), db')
  end.

(** [append_discord_message_id_list]. *)
Definition append_discord_message_id_list (match_id : string)
    (discord_message_id_list : list string) : M Response :=
  let* oid := lift (_to_oid match_id) in
  let* res := find_pending oid in
  let updated_list := discord_messages_id_list res ++ discord_message_id_list in
  let* _ := update_pending oid (set_discord_messages_id_list updated_list) in
  fetch_updated oid.

(** [get]. *)
Definition get (match_id : string) : M Response :=
  let* oid := lift (_to_oid match_id) in
  let* doc := find_pending oid in
  sret (mkResponse (str_of_ObjectId oid) doc None).

(** [player.placement = int(new_order_list[player.team]) - 1] (line 308). *)
Definition place_player (new_order_list : list string) (player : PlayerModel)
  : Result PlayerModel :=
  let+ token := py_index new_order_list (team player) in
  let+ n := or_raise (PyException "ValueError") (py_int token) in
  Ok (set_placement (Some (n - 1)) player).

(** The [changes] of [change_order] (lines 315-321), as the effect of the
    [$set] on the stored document. *)
Definition change_order_changes (res : MatchModel) (discord_message_id : string)
    (computed : MatchModel) (stored : MatchModel) : MatchModel :=
  set_discord_messages_id_list (discord_messages_id_list res ++ [discord_message_id])
    (set_players
       (patch_players
          (fun c s => set_combined_delta (combined_delta c)
                        (set_season_delta (season_delta c)
                           (set_delta Fdelta (delta c)
                              (set_placement (placement c) s))))
          (players computed) (players stored))
       stored).

(** [change_order]. *)
Definition change_order (match_id new_order discord_message_id : string) : M Response :=
  let* oid := lift (_to_oid match_id) in
  let* res := find_pending oid in
  let match_ := res in
  let new_order_list := split_space new_order in
  if negb (length new_order_list =? num_teams match_)%nat
  then raise (MatchServiceError
                ("New order length does not match number of players/teams ("
                 +:+ py_str (num_teams match_) +:+ ")"))
  else
    let* placed := lift (mapR (place_player new_order_list) (players match_)) in
    let match_ := set_players placed match_ in
    let* r := read (fun db => recompute_ratings db match_) in
    let* match_ := lift (attr_of (fst (fst (fst r)))) in
    let* _ := update_pending oid (change_order_changes res discord_message_id match_) in
    fetch_updated oid.

(** [delete_pending_match]. *)
Definition delete_pending_match (match_id : string) : M Response :=
  let* oid := lift (_to_oid match_id) in
  let* res := find_pending oid in
  let* _ := write (fun db => set_pending (delete_by_id oid (pending_matches db)) db) in
  sret (mkResponse (str_of_ObjectId oid) res None).

(** The loop of [trigger_quit]: the first row of the identity has its
    [quit] flipped. *)
Fixpoint toggle_first_quit (quitter_discord_id : string) (ps : list PlayerModel)
  : list PlayerModel :=
  match ps with
  | [] => []
  | player :: ps' =>
      if bool_decide (discord_id player = Some quitter_discord_id)
      then set_quit (negb (quit player)) player :: ps'
      else player :: toggle_first_quit quitter_discord_id ps'
  end.

(** [trigger_quit]. *)
Definition trigger_quit (match_id quitter_discord_id discord_message_id : string)
  : M Response :=
  let* oid := lift (_to_oid match_id) in
  let* res := find_pending oid in
  let changes stored :=
    set_discord_messages_id_list (discord_messages_id_list res ++ [discord_message_id])
      (set_players
         (patch_players (fun c s => set_quit (quit c) s)
            (toggle_first_quit quitter_discord_id (players res)) (players stored))
         stored) in
  let* _ := update_pending oid changes in
  fetch_updated oid.

(** The [changes] of [assign_discord_id] (lines 372-378), as the effect of
    the [$set] on the stored document: the identity and the account of slot
    [i], and [delta] and [season_delta] of every row. *)
Definition assign_discord_id_changes (res : MatchModel) (discord_message_id : string)
    (i : nat) (player_discord_id : string) (steam : option string)
    (computed : MatchModel) (stored : MatchModel) : MatchModel :=
  set_discord_messages_id_list (discord_messages_id_list res ++ [discord_message_id])
    (set_players
       (patch_players
          (fun c s => set_season_delta (season_delta c) (set_delta Fdelta (delta c) s))
          (players computed)
          (alter (fun s => set_steam_id steam (set_discord_id (Some player_discord_id) s))
                 i (players stored)))
       stored).

(** [assign_discord_id]. *)
Definition assign_discord_id (match_id player_id player_discord_id
    discord_message_id : string) : M Response :=
  let* oid := lift (_to_oid match_id) in
  let* res := find_pending oid in
  let match_ := res in
  let* pid := lift (or_raise (PyException "ValueError") (py_int player_id)) in
  if (pid <? 1) || (pid >? Z.of_nat (length (players match_)))
  then raise (MatchServiceError
                "Player ID out of range. Must be between 1 and number of players")
  else
    let i := Z.to_nat (pid - 1) in
    let* steam := read (fun db => Ok (discord_to_steam_id db player_discord_id)) in
    let match_ :=
      set_players
        (alter (fun p => set_steam_id steam (set_discord_id (Some player_discord_id) p))
               i (players match_)) match_ in
    let* r := read (fun db => recompute_ratings db match_) in
    let* match_ := lift (attr_of (fst (fst (fst r)))) in
    let* bound := lift (py_get (players match_) i) in
    let* _ := update_pending oid
                (assign_discord_id_changes res discord_message_id i player_discord_id
                   (steam_id bound) match_) in
    fetch_updated oid.

(** [match.players.insert(i, x)] for [0 <= i]. *)
Definition py_insert {A} (i : nat) (x : A) (l : list A) : list A :=
  take i l ++ x :: drop i l.

(** The [PlayerModel(...)] of lines 395-408: the row of the player who is
    substituted out, built from the slot [origin] that the substitute takes. *)
Definition sub_out_row (sub_out_player_steam_id : option string)
    (sub_out_discord_id : string) (origin : PlayerModel) : PlayerModel :=
  mkPlayer sub_out_player_steam_id None (civ origin) (team origin) (leader origin)
    (player_alive origin) (Some sub_out_discord_id) (placement origin) false 0
    None None false true.

(** [assign_sub]. *)
Definition assign_sub (match_id sub_in_id sub_out_discord_id discord_message_id : string)
  : M Response :=
  let* oid := lift (_to_oid match_id) in
  let* res := find_pending oid in
  let match_ := res in
  let* sid := lift (or_raise (PyException "ValueError") (py_int sub_in_id)) in
  if (sid <? 0) || (sid >=? Z.of_nat (length (players match_)))
  then raise (MatchServiceError
                "Sub in Player ID out of range. Must be between 0 and number of players - 1")
  else
    let i := Z.to_nat sid in
    let marked := alter (set_is_sub true) i (players match_) in
    let* sub_out_player_steam_id :=
      read (fun db => Ok (discord_to_steam_id db sub_out_discord_id)) in
    let* origin := lift (py_get marked i) in
    let row := sub_out_row sub_out_player_steam_id sub_out_discord_id origin in
    let match_ := set_players (py_insert (S i) row marked) match_ in
    let* r := read (fun db => recompute_ratings db match_) in
    let* match_ := lift (attr_of (fst (fst (fst r)))) in
    let match_ :=
      set_discord_messages_id_list (discord_messages_id_list res ++ [discord_message_id])
        match_ in
    let* _ := update_pending oid (fun _ => match_) in
    fetch_updated oid.

(** [remove_sub]. *)
Definition remove_sub (match_id sub_out_id discord_message_id : string) : M Response :=
  let* oid := lift (_to_oid match_id) in
  let* res := find_pending oid in
  let match_ := res in
  let* sid := lift (or_raise (PyException "ValueError") (py_int sub_out_id)) in
  if (sid <? 1) || (sid >=? Z.of_nat (length (players match_)))
     || negb (from_option subbed_out false (players match_ !! Z.to_nat sid))
  then raise (MatchServiceError
                "Sub in Player ID out of range. Must be between 1 and number of players - 1")
  else
    let j := Z.to_nat sid in
    let cleared := alter (set_is_sub false) (j - 1)%nat (players match_) in
    let match_ := set_players (delete j cleared) match_ in
    let* r := read (fun db => recompute_ratings db match_) in
    let* match_ := lift (attr_of (fst (fst (fst r)))) in
    let match_ :=
      set_discord_messages_id_list (discord_messages_id_list res ++ [discord_message_id])
        match_ in
    let* _ := update_pending oid (fun _ => match_) in
    fetch_updated oid.

(** ** The approval transaction *)

(** A driver session with an open transaction: the state the writes of the
    session have produced so far, and how many writes it has performed. *)
Record Session : Type := mkSession {
  s_db : DB;
  s_writes : nat;
}.

(** A write with [session=session].  The persistence layer may fail any
    write; [fault k] says that the [k]-th write of the session raises. *)
Definition tx_write {A} (fault : nat -> bool) (f : DB -> A * DB) : St Session A :=
  fun s =>
    if fault (s_writes s) then (Err (PyException "OperationFailure"), s)
    else let '(a, db') := f (s_db s) in (Ok a, mkSession db' (S (s_writes s))).

(** Lines 467-493: the body runs in a transaction of a fresh session.  When
    it returns, [commit_transaction], which is taken to succeed, makes the
    writes of the session the state of the database; when it raises, the
    handler calls [abort_transaction], which discards them, and raises
    [MatchServiceError]. *)
Definition in_transaction {A} (body : St Session A) : M A :=
  fun db =>
    match body (mkSession db 0) with
    | (Ok a, s) => (Ok a, s_db s)
    | (Err e, _) =>
        (Err (MatchServiceError
                ("An error occured during writing to DB: " +:+ str_of_exception e)), db)
    end.

(** [get_player_stats_db]; [now] is the clock reading. *)
Definition get_player_stats_db (now : datetime) (m : MatchModel) (player : PlayerModel)
    (player_new_stats : StatModel) (delta_value_name : DeltaField) : Result StatDoc :=
  let+ d := or_raise (PyException "TypeError") (get_delta delta_value_name player) in
  let+ civs' :=
    if negb (String.eqb (civ player) "") then
      let+ civs := attr_of (civs player_new_stats) in
      let player_civ_leader := get_cpl_name (game m) (civ player) (leader player) in
      Ok (Some (<[player_civ_leader := default 0 (civs !! player_civ_leader) + 1]> civs))
    else Ok None in
  Ok (mkStatDoc (mu player_new_stats) (sigma player_new_stats)
        (games player_new_stats + 1)
        (wins player_new_stats + (if 0 <? d then 1 else 0))
        (first player_new_stats + (if bool_decide (placement player = Some 0) then 1 else 0))
        (subbedIn player_new_stats + (if is_sub player then 1 else 0))
        (subbedOut player_new_stats + (if subbed_out player then 1 else 0))
        now civs').

(** [post[i]] where [post] is what a rating update returned. *)
Definition post_at (post : option (list StatModel)) (i : nat) : Result StatModel :=
  let+ l := or_raise (PyException "TypeError") post in
  py_get l i.

(** The body of the loop of lines 471-484 for one player. *)
Definition approve_player (fault : nat -> bool) (now : datetime) (m : MatchModel)
    (post season_post combined_post : option (list StatModel))
    (stats_table season_stats_table combined_stats_table : bool * bool * string)
    (ip : nat * PlayerModel) : St Session unit :=
  let '(i, player) := ip in
  let* post_i := lift (post_at post i) in
  let* player_stats_db := lift (get_player_stats_db now m player post_i Fdelta) in
  let* season_post_i := lift (post_at season_post i) in
  let* player_season_stats_db :=
    lift (get_player_stats_db now m player season_post_i Fseason_delta) in
  let* combined_post_i := lift (post_at combined_post i) in
  let* player_combined_stats_db :=
    lift (get_player_stats_db now m player combined_post_i Fcombined_delta) in
  let* d := lift (or_raise (PyException "TypeError") (discord_id player)) in
  let* k := lift (int64_key d) in
  let* _ := tx_write fault (fun db => (tt, upsert_stat stats_table k player_stats_db db)) in
  let* _ := tx_write fault
              (fun db => (tt, upsert_stat season_stats_table k player_season_stats_db db)) in
  let* _ := tx_write fault
              (fun db => (tt, upsert_stat combined_stats_table k
                                player_combined_stats_db db)) in
  if is_sub player then tx_write fault (fun db => (tt, inc_subs_in d db))
  else sret tt.

(** The precondition loop of lines 453-455. *)
Definition require_discord_ids (ps : list PlayerModel) : Result unit :=
  foldR (fun _ player =>
           match discord_id player with
           | None =>
               Err (MatchServiceError
                      ("Player " +:+ default "None" (user_name player)
                       +:+ " has no linked Discord ID"))
           | Some _ => Ok tt
           end) ps tt.

(** The writes of the transaction (lines 471-486); the result is the [_id]
    of the validated match. *)
Definition approve_writes (fault : nat -> bool) (now : datetime) (oid : nat)
    (m : MatchModel) (post season_post combined_post : option (list StatModel))
  : St Session nat :=
  let stats_table := get_stat_table (is_cloud m) (game_mode m) (game m) false false in
  let season_stats_table := get_stat_table (is_cloud m) (game_mode m) (game m) true false in
  let combined_stats_table :=
    get_stat_table (is_cloud m) (game_mode m) (game m) false true in
  let* _ := sfor (enumerate (players m))
              (approve_player fault now m post season_post combined_post
                 stats_table season_stats_table combined_stats_table) in
  let* validated := tx_write fault (insert_validated m) in
  let* _ := tx_write fault
              (fun db => (tt, set_pending (delete_by_id oid (pending_matches db)) db)) in
  sret validated.

(** [approve_match].  The lock admits one approval at a time, which is how
    a function of the state runs anyway; [now] stands for every reading of
    the clock during the call. *)
Definition approve_match (fault : nat -> bool) (now : datetime)
    (match_id approver_discord_id : string) : M Response :=
  let* oid := lift (_to_oid match_id) in
  let* res := find_pending oid in
  let match_ := res in
  let* _ := lift (require_discord_ids (players match_)) in
  let* r := read (fun db => recompute_ratings db match_) in
  let '(updated, post, season_post, combined_post) := r in
  let* match_ := lift (attr_of updated) in
  let match_ := set_approval now approver_discord_id match_ in
  let* validated :=
    in_transaction (approve_writes fault now oid match_ post season_post combined_post) in
  sret (mkResponse (str_of_ObjectId validated) match_ None).

End Service.

(** ** Vocabulary of the statements *)

(** A row with its three delta attributes reset: what a rating update
    leaves untouched. *)
Definition erase_deltas (p : PlayerModel) : PlayerModel :=
  set_combined_delta None (set_season_delta None (set_delta Fdelta 0 p)).

(** A match without its rows: what no operation on rows touches. *)
Definition erase_players (m : MatchModel) : MatchModel := set_players [] m.

(** The number of writes that the approval of these rows performs in its
    transaction: three upserts per row, one more for every substitute-in
    row, the insertion of the validated match and the deletion of the
    pending one. *)
Definition approval_writes (ps : list PlayerModel) : nat :=
  (3 * length ps + length (List.filter is_sub ps) + 2)%nat.

(** Every row of [ps] plays for the team of some row of [qs]. *)
Definition teams_within (ps qs : list PlayerModel) : Prop :=
  forall p, p ∈ ps -> exists q, q ∈ qs /\ team p = team q.

(** At most one of [is_sub] and [subbed_out] is set. *)
Definition flags_ok (p : PlayerModel) : bool := negb (is_sub p && subbed_out p).

Definition match_flags_ok (m : MatchModel) : Prop :=
  Forall (fun p => flags_ok p = true) (players m).

Definition pending_flags_ok (c : list (nat * MatchModel)) : Prop :=
  Forall (fun d => match_flags_ok (snd d)) c.

(** ** Sequences of operations *)

Section Calls.

Context {E : Externals}.

(** A computation that performed [n] writes, none of which was failed. *)
Definition wrote {A} (fault : nat -> bool) (n : nat) (c : St Session A) : Prop :=
  forall s s' a, c s = (Ok a, s') ->
    s_writes s' = (s_writes s + n)%nat
    /\ forall k, (s_writes s <= k < s_writes s')%nat -> fault k = false.

(** A call of ingestion or of one of the mutation operations. *)
Inductive Call : Type :=
  | CreateFromSave (now : datetime) (file_bytes reporter_discord_id : string)
      (is_cloud : bool) (discord_message_id : string)
  | ChangeOrder (match_id new_order discord_message_id : string)
  | TriggerQuit (match_id quitter_discord_id discord_message_id : string)
  | AssignDiscordId (match_id player_id player_discord_id discord_message_id : string)
  | AssignSub (match_id sub_in_id sub_out_discord_id discord_message_id : string)
  | RemoveSub (match_id sub_out_id discord_message_id : string)
  | AppendDiscordMessageIdList (match_id : string) (discord_message_id_list : list string).

Definition run (c : Call) : M Response :=
  match c with
  | CreateFromSave now file_bytes reporter is_cloud msg =>
      create_from_save now file_bytes reporter is_cloud msg
  | ChangeOrder match_id new_order msg => change_order match_id new_order msg
  | TriggerQuit match_id quitter msg => trigger_quit match_id quitter msg
  | AssignDiscordId match_id player_id player_discord_id msg =>
      assign_discord_id match_id player_id player_discord_id msg
  | AssignSub match_id sub_in_id sub_out_discord_id msg =>
      assign_sub match_id sub_in_id sub_out_discord_id msg
  | RemoveSub match_id sub_out_id msg => remove_sub match_id sub_out_id msg
  | AppendDiscordMessageIdList match_id ids => append_discord_message_id_list match_id ids
  end.

(** The states that a sequence of calls reaches from [init]. *)
Inductive reachable (init : DB) : DB -> Prop :=
  | reachable_init : reachable init init
  | reachable_call (db : DB) (c : Call) :
      reachable init db -> reachable init (snd (run c db)).

(** The call inserts a substitute at a slot that holds a substituted-out
    row. *)
Definition subs_a_sub_out (c : Call) (db : DB) : bool :=
  match c with
  | AssignSub match_id sub_in_id _ _ =>
      match ObjectId_of_str match_id, py_int sub_in_id with
      | Some oid, Some i =>
          match find_by_id (pending_matches db) oid with
          | Some m => (0 <=? i) && from_option subbed_out false (players m !! Z.to_nat i)
          | None => false
          end
      | _, _ => false
      end
  | _ => false
  end.

(** The states reached by calls none of which substitutes a substituted-out
    row. *)
Inductive reachable_plain (init : DB) : DB -> Prop :=
  | reachable_plain_init : reachable_plain init init
  | reachable_plain_call (db : DB) (c : Call) :
      reachable_plain init db -> subs_a_sub_out c db = false ->
      reachable_plain init (snd (run c db)).

End Calls.

(** ** More vocabulary *)

(** The row [y = (i, p)] is a member of some team of the grouping. *)
Definition member_of (d : Groups) (y : nat * PlayerModel) : Prop :=
  exists g, g ∈ d /\ y ∈ snd g.

(** A grouping has one entry per team, no empty team, and the rows of an
    entry play for its team. *)
Definition well_grouped (d : Groups) : Prop :=
  NoDup (map fst d)
  /\ forall g, g ∈ d -> snd g <> [] /\ forall y, y ∈ snd g -> team (snd y) = fst g.

(** The row [y] is member [k] of entry [t] of the grouping. *)
Definition at_position (d : Groups) (t k : nat) (y : nat * PlayerModel) : Prop :=
  exists g, d !! t = Some g /\ snd g !! k = Some y.

(** [post'] is [post] with some entries overwritten, an entry [i] only by a
    value that [S i] allows. *)
Definition keeps {X} (S : nat -> X -> Prop) (post post' : list X) : Prop :=
  length post' = length post
  /\ forall i, post' !! i = post !! i \/ exists x, S i x /\ post' !! i = Some x.

(** A match without its rows and its correlation ids: the part of a
    pending match that no mutation operation is to change. *)
Definition header (m : MatchModel) : MatchModel :=
  set_discord_messages_id_list [] (set_players [] m).

(** The stored document [d'] is the document [d] with its rows possibly
    changed and correlation ids possibly appended. *)
Definition same_match (d d' : nat * MatchModel) : Prop :=
  fst d' = fst d /\ header (snd d') = header (snd d)
  /\ exists added,
       discord_messages_id_list (snd d') = discord_messages_id_list (snd d) ++ added.

(** The number of spaces of a string. *)
Fixpoint spaces (s : string) : nat :=
  match s with
  | EmptyString => 0
  | String c s' => (if Ascii.eqb c " " then 1 else 0) + spaces s'
  end.


(** The number of commas of a string. *)
Fixpoint commas (s : string) : nat :=
  match s with
  | EmptyString => 0
  | String c s' => (if Ascii.eqb c "," then 1 else 0) + commas s'
  end.

(** The computation raises nothing but Python built-in exceptions: none of
    the service's own error classes. *)
Definition py_only {A} (r : Result A) : Prop :=
  forall e, r = Err e -> exists cls, e = PyException cls.

Section MoreVocabulary.

Context {E : Externals}.

(** [r] is the rating of member [k] of group [t] in what the rating step
    returned. *)
Definition rating_at (new_ts : list (list (pyfloat * pyfloat))) (t k : nat)
    (r : pyfloat * pyfloat) : Prop :=
  exists row, new_ts !! t = Some row /\ row !! k = Some r.

(** The rankings are those of the rows, in order: entry [i] carries the
    index [i]. *)
Definition indexed (pr : list StatModel) : Prop :=
  forall i s, pr !! i = Some s -> st_index s = i.

(** What the policy of lines 219-228 guarantees about the delta [v] stored
    on a row [p], whatever the rating step computed. *)
Definition within_policy (p : PlayerModel) (v : Z) : Prop :=
  (is_sub p = true -> min_points_for_subs <= v)
  /\ (is_sub p = false -> subbed_out p = true -> v <= 0)
  /\ (discord_id p = None -> is_sub p = false -> v = 0)
  /\ (discord_id p = None -> is_sub p = true -> v = Z.max min_points_for_subs 0).

(** The values that the merge of one run may write at entry [i]: the
    posterior of a member with index [i] whose row has the given [is_sub]. *)
Definition merged_from (m : MatchModel) (new_ts : list (list (pyfloat * pyfloat)))
    (states : list (list StatModel)) (sub : bool) (i : nat) (x : option StatModel)
  : Prop :=
  exists t k team player mp r,
    states !! t = Some team /\ team !! k = Some player /\ st_index player = i
    /\ players m !! i = Some mp /\ is_sub mp = sub
    /\ rating_at new_ts t k r /\ x = Some (posterior_stat player r).

(** The match that a call names, if it names one. *)
Definition target (c : Call) : option string :=
  match c with
  | CreateFromSave _ _ _ _ _ => None
  | ChangeOrder match_id _ _ | TriggerQuit match_id _ _
  | AssignDiscordId match_id _ _ _ | AssignSub match_id _ _ _
  | RemoveSub match_id _ _ | AppendDiscordMessageIdList match_id _ => Some match_id
  end.

(** The outcomes of a call.  Nothing is written, and then a call that names
    a match has raised.  Or the call names a pending match, which is replaced
    by the answer: same header, correlation ids appended, and at least two
    teams if it had as many.  Or the call names no match and the answer, a
    match with at least two teams, is inserted as a new pending match. *)
Inductive outcome (c : Call) (db : DB) (r : Result Response) (db' : DB) : Prop :=
  | outcome_unchanged :
      db' = db -> (is_ok r = true -> target c = None) -> outcome c db r db'
  | outcome_replaced (match_id : string) (oid : nat) (m m' : MatchModel) :
      target c = Some match_id -> ObjectId_of_str match_id = Some oid ->
      find_by_id (pending_matches db) oid = Some m ->
      r = Ok (mkResponse (str_of_ObjectId oid) m' None) ->
      db' = set_pending (modify_by_id (fun _ => m') oid (pending_matches db)) db ->
      header m' = header m ->
      (exists added, discord_messages_id_list m'
                     = discord_messages_id_list m ++ added) ->
      ((1 < num_teams m)%nat -> (1 < num_teams m')%nat) ->
      outcome c db r db'
  | outcome_inserted (m' : MatchModel) :
      target c = None ->
      r = Ok (mkResponse (str_of_ObjectId (next_oid db)) m' None) ->
      db' = snd (insert_pending m' db) -> (1 < num_teams m')%nat ->
      outcome c db r db'.

(** A computation in a session whose successful runs take the database
    from [db] to a [db'] with [R db db']. *)
Definition changes {A} (R : DB -> DB -> Prop) (c : St Session A) : Prop :=
  forall s s' a, c s = (Ok a, s') -> R (s_db s) (s_db s').

(** [db'] is [db] but for the rating rows with a key in [K] and the
    substitution counters of the identities in [D]. *)
Definition frame (K : bool * bool * string -> Z -> Prop) (D : string -> Prop)
    (db db' : DB) : Prop :=
  pending_matches db' = pending_matches db
  /\ validated_matches db' = validated_matches db
  /\ users db' = users db /\ next_oid db' = next_oid db
  /\ (forall d, ~ D d -> subs_table db' !! d = subs_table db !! d)
  /\ (forall t k, ~ K t k ->
        default ∅ (stats db' !! t) !! k = default ∅ (stats db !! t) !! k).

(** The lifetime, seasonal and combined rating tables of a match. *)
Definition rating_tables (m : MatchModel) : list (bool * bool * string) :=
  [get_stat_table (is_cloud m) (game_mode m) (game m) false false;
   get_stat_table (is_cloud m) (game_mode m) (game m) true false;
   get_stat_table (is_cloud m) (game_mode m) (game m) false true].

(** [k] is the integer identity of one of the rows. *)
Definition identity_of (ps : list PlayerModel) (k : Z) : Prop :=
  exists p d, p ∈ ps /\ discord_id p = Some d /\ py_int d = Some k.

(** [d] is the identity of a substitute-in among the rows. *)
Definition sub_in_of (ps : list PlayerModel) (d : string) : Prop :=
  exists p, p ∈ ps /\ is_sub p = true /\ discord_id p = Some d.

(** The writes of the approval for one row, once its three documents are
    built (lines 475-484). *)
Definition record_player (t1 t2 t3 : bool * bool * string) (k : Z) (d : string)
    (sub : bool) (doc1 doc2 doc3 : StatDoc) (db : DB) : DB :=
  let db := upsert_stat t3 k doc3 (upsert_stat t2 k doc2 (upsert_stat t1 k doc1 db)) in
  if sub then inc_subs_in d db else db.

(** The statistics [b] have the identity and the counters of [a]: a rating
    step changes the rating only. *)
Definition same_counters (a b : StatModel) : Prop :=
  st_id b = st_id a /\ games b = games a /\ wins b = wins a /\ first b = first a
  /\ subbedIn b = subbedIn a /\ subbedOut b = subbedOut a /\ civs b = civs a.




(** The rating step accepts the teams of the grouping [d] and answers with
    one rating per member. *)
Definition rate_in_shape (pr : list StatModel) (d : Groups) : Prop :=
  match team_states pr d, team_placements d with
  | Ok states, Ok ranks =>
      match ts_rate (ratings_of states) ranks with
      | Some out => Forall2 (fun team row => length row = length team) states out
      | None => False
      end
  | _, _ => True
  end.

End MoreVocabulary.

(** ** A small model of the collaborators

    For the worked examples: floats are integers, the rating step moves
    every member of a best-placed team up by ten points and every other
    player down by ten, the hash is the text itself, and the two parsers
    know one save file each. *)
Module Example.

Definition dec_int (s : string) : option Z :=
  Z.of_int <$> NilZero.int_of_string s.

Definition dec_nat (s : string) : option nat :=
  Nat.of_uint <$> NilZero.uint_of_string s.

Definition nat_str (n : nat) : string := NilZero.string_of_uint (Nat.to_uint n).

(** The smallest of the ranks, when every team has one. *)
Fixpoint best_rank (ranks : list (option Z)) : option Z :=
  match ranks with
  | [] => None
  | [r] => r
  | r :: rs =>
      match r, best_rank rs with
      | Some a, Some b => Some (Z.min a b)
      | _, _ => None
      end
  end.

Fixpoint rate_groups (best : Z) (groups : list (list (Z * Z))) (ranks : list (option Z))
  : list (list (Z * Z)) :=
  match groups, ranks with
  | g :: gs, Some r :: rs =>
      map (fun x => (if r =? best then fst x + 10 else fst x - 10, snd x)) g
        :: rate_groups best gs rs
  | _, _ => []
  end.

(** Like TrueSkill, the step refuses fewer than two groups, an empty group
    and ranks that do not match the groups. *)
Definition rate (groups : list (list (Z * Z))) (ranks : list (option Z))
  : option (list (list (Z * Z))) :=
  if (length groups <? 2)%nat then None
  else if existsb (fun g => (length g =? 0)%nat) groups then None
  else if negb (length ranks =? length groups)%nat then None
  else match best_rank ranks with
       | Some best => Some (rate_groups best groups ranks)
       | None => None
       end.

Definition duel_players : list ParsedPlayer :=
  [ mkParsedPlayer (Some "s1") (Some "ann") "Rome" 0 (Some "Trajan") (Some true) (Some 0);
    mkParsedPlayer (Some "s2") (Some "bob") "Egypt" 1 (Some "Cleopatra") (Some true) (Some 1) ].

Definition duel : Parsed := mkParsed "civ6" 50 None "Pangaea" "Duel" duel_players "1".

(** Both players report the same team. *)
Definition solo : Parsed :=
  mkParsed "civ7" 12 (Some "Antiquity") "Continents" "FFA"
    [ mkParsedPlayer (Some "s1") (Some "ann") "Rome" 0 (Some "Trajan") (Some true) (Some 0);
      mkParsedPlayer (Some "s2") (Some "bob") "Egypt" 0 None (Some true) (Some 0) ] "1".

#[export] Instance externals : Externals := {|
  pyfloat := Z;
  fsub := Z.sub;
  fadd_int := Z.add;
  py_round := Some;
  py_round_raises := fun _ => "OverflowError";
  py_int := dec_int;
  ts_mu := 1250;
  ts_sigma := 150;
  min_points_for_subs := 3;
  ts_rate := rate;
  ts_rate_raises := fun _ _ => "ValueError";
  str_of_exception := fun e => match e with PyException cls => cls | _ => "" end;
  sha256_hexdigest := fun s => s;
  parse_civ6_save := fun s => if String.eqb s "CIV6 duel" then Some duel else None;
  parse_civ7_save := fun s => if String.eqb s "CIV7 solo" then Some solo else None;
  get_cpl_name := fun _ civ leader => String.append civ (default "" leader);
  ObjectId_of_str := dec_nat;
  str_of_ObjectId := nat_str;
|}.

(** Empty collections, and a directory that knows the accounts [s1] and
    [s3] but not [s2]. *)
Definition db0 : DB :=
  mkDB [] [] [mkUser (Some "101") (Some "s1"); mkUser (Some "103") (Some "s3")] ∅ ∅ 0.

(** The pending match of the duel right after ingestion: [bob], whose
    account the directory does not know, is unbound. *)
Definition db1 : DB := snd (run (CreateFromSave 7 "CIV6 duel" "999" false "m1") db0).

(** [bob] bound to the identity 102. *)
Definition db_bound : DB := snd (run (AssignDiscordId "0" "2" "102" "m2") db1).

(** A substitute at slot 0: the rows are [ann] (substitute-in), the row of
    103 (substituted out) and [bob]. *)
Definition db2 : DB := snd (run (AssignSub "0" "0" "103" "m2") db1).

(** A second substitute, at the substituted-out row of slot 1. *)
Definition db3 : DB := snd (run (AssignSub "0" "1" "102" "m3") db2).

(** A second substitute at slot 0, which is a substitute-in row already. *)
Definition db4 : DB := snd (run (AssignSub "0" "0" "102" "m3") db2).

(** A match whose second row is marked both substitute-in and substituted
    out, as in [db3], and the default rankings of its four rows. *)
Definition twice_subbed : MatchModel :=
  mkMatch "civ6" 50 None "Pangaea" "Duel" false
    [ mkPlayer (Some "s1") (Some "ann") "Rome" 0 (Some "Trajan") (Some true) (Some "101")
        (Some 0) false 0 None None true false;
      mkPlayer (Some "s3") None "Rome" 0 (Some "Trajan") (Some true) (Some "103")
        (Some 0) false 0 None None true true;
      mkPlayer None None "Rome" 0 (Some "Trajan") (Some true) (Some "102")
        (Some 0) false 0 None None false true;
      mkPlayer (Some "s2") (Some "bob") "Egypt" 1 (Some "Cleopatra") (Some true) None
        (Some 1) false 0 None None false false ]
    "1" ["m1"] 7 None None false None "civ6,Pangaea,RomeTrajan,EgyptCleopatra" "999".

(** The duel with its second player bound to an identity that is an
    integer of more than 64 bits. *)
Definition beyond_int64 : MatchModel :=
  mkMatch "civ6" 50 None "Pangaea" "Duel" false
    [ mkPlayer (Some "s1") (Some "ann") "Rome" 0 (Some "Trajan") (Some true) (Some "101")
        (Some 0) false 0 None None false false;
      mkPlayer (Some "s2") (Some "bob") "Egypt" 1 (Some "Cleopatra") (Some true)
        (Some "9223372036854775808") (Some 1) false 0 None None false false ]
    "1" ["m1"] 7 None None false None "civ6,Pangaea,RomeTrajan,EgyptCleopatra" "999".

(** A stored pending match whose two rows play for the same team. *)
Definition solo_match : MatchModel :=
  mkMatch "civ7" 12 (Some "Antiquity") "Continents" "FFA" false
    [ mkPlayer (Some "s1") (Some "ann") "Rome" 0 (Some "Trajan") (Some true) (Some "101")
        (Some 0) false 0 None None false false;
      mkPlayer (Some "s2") (Some "bob") "Egypt" 0 None (Some true) None
        (Some 0) false 0 None None false false ]
    "1" ["m1"] 7 None None false None "civ7,Continents,RomeTrajan,Egypt" "999".

Definition db_solo : DB :=
  mkDB [(0%nat, solo_match)] [] [mkUser (Some "101") (Some "s1")] ∅ ∅ 1.

(** Views of a state and of an answer, for the examples: the rows of the
    pending match 0, the rows an answer carries, and the flags and the deltas
    of rows. *)
Definition stored (db : DB) : list PlayerModel :=
  from_option players [] (find_by_id (pending_matches db) 0%nat).

Definition returned_rows (x : Result Response * DB) : option (list PlayerModel) :=
  match fst x with
  | Ok r => Some (players (r_match r))
  | Err _ => None
  end.

Definition flags (ps : list PlayerModel) : list (bool * bool) :=
  map (fun p => (is_sub p, subbed_out p)) ps.

Definition deltas (ps : list PlayerModel) : list (Z * option Z * option Z) :=
  map (fun p => (delta p, season_delta p, combined_delta p)) ps.

(** The rows that the three rating updates of an operation compute. *)
Definition recomputed (db : DB) (m : MatchModel) : option (list PlayerModel) :=
  match recompute_ratings db m with
  | Ok (Some m', _, _, _) => Some (players m')
  | _ => None
  end.

Definition priors : list StatModel :=
  [default_stat 0 101; default_stat 1 103; default_stat 2 102; default_stat 3 0].

(** The pending match 0 of a state and the answer of a call, with a default
    where there is none. *)
Definition pending0 (db : DB) : MatchModel :=
  from_option id solo_match (find_by_id (pending_matches db) 0%nat).

Definition answer (x : Result Response * DB) : Response :=
  match fst x with
  | Ok r => r
  | Err _ => mkResponse "" solo_match None
  end.

(** The duel as stored by ingestion, and with one substitute. *)
Definition duel_match : MatchModel := Eval vm_compute in pending0 db1.
Definition bound_match : MatchModel := Eval vm_compute in pending0 db_bound.
Definition sub_match : MatchModel := Eval vm_compute in pending0 db2.

(** The answers of ingestion, of the first substitution and of its removal. *)
Definition created_answer : Response :=
  Eval vm_compute in answer (create_from_save 7 "CIV6 duel" "999" false "m1" db0).
Definition sub_answer : Response :=
  Eval vm_compute in answer (assign_sub "0" "0" "103" "m2" db1).
Definition unsub_answer : Response :=
  Eval vm_compute in answer (remove_sub "0" "1" "m4" db2).

(** What the rating update of [twice_subbed] returns. *)
Definition updated : MatchModel :=
  Eval vm_compute in
    match update_player_stats (Some twice_subbed) priors Fdelta with
    | Ok (Some m, _) => m
    | _ => twice_subbed
    end.
Definition updated_post : list StatModel :=
  Eval vm_compute in
    match update_player_stats (Some twice_subbed) priors Fdelta with
    | Ok (_, Some post) => post
    | _ => []
    end.

(** What the merge of the two rating runs gives for [twice_subbed], and
    what the three rating updates of an operation return for it. *)
Definition merged_post : list (option StatModel) :=
  Eval vm_compute in
    match posteriors twice_subbed priors with
    | Ok post => post
    | Err _ => []
    end.
Definition rated_match : MatchModel :=
  Eval vm_compute in
    match recompute_ratings db0 twice_subbed with
    | Ok (Some m, _, _, _) => m
    | _ => twice_subbed
    end.
Definition rated_posts
  : option (list StatModel) * option (list StatModel) * option (list StatModel) :=
  Eval vm_compute in
    match recompute_ratings db0 twice_subbed with
    | Ok (_, p1, p2, p3) => (p1, p2, p3)
    | Err _ => (None, None, None)
    end.

(** The answers of a reorder, of a binding and of an approval, and the
    state after the approval. *)
Definition reorder_answer : Response :=
  Eval vm_compute in answer (change_order "0" "2 1" "m5" db1).
Definition bound_answer : Response :=
  Eval vm_compute in answer (assign_discord_id "0" "2" "102" "m2" db1).
Definition approved_answer : Response :=
  Eval vm_compute in answer (approve_match (fun _ => false) 9 "0" "777" db_bound).
Definition db_approved : DB :=
  snd (approve_match (fun _ => false) 9 "0" "777" db_bound).


End Example.

(** * Properties *)

Section Properties.

Context {E : Externals}.

(** ** Results, loops and stateful computations *)

Lemma mapR_Forall2 {A B} (f : A -> Result B) (l : list A) (out : list B) :
  mapR f l = Ok out -> Forall2 (fun x y => f x = Ok y) l out.
Proof.
  revert out. induction l as [|x xs IH]; simpl; intros out H.
  - injection H as <-. constructor.
  - destruct (f x) as [y|e] eqn:Hx; simpl in H; [|discriminate].
    destruct (mapR f xs) as [ys|e] eqn:Hxs; simpl in H; [|discriminate].
    injection H as <-. constructor; auto.
Qed.

Lemma mapR_length {A B} (f : A -> Result B) (l : list A) (out : list B) :
  mapR f l = Ok out -> length out = length l.
Proof. intros H. apply mapR_Forall2 in H. symmetry. eapply Forall2_length, H. Qed.

Lemma enumerate_from_lookup {A} (l : list A) (n i : nat) :
  enumerate_from n l !! i = (fun x => ((n + i)%nat, x)) <$> l !! i.
Proof.
  revert n i. induction l as [|x xs IH]; intros n i; [reflexivity|].
  destruct i as [|i]; simpl.
  - by rewrite Nat.add_0_r.
  - rewrite IH. by replace (S n + i)%nat with (n + S i)%nat by lia.
Qed.

Lemma enumerate_lookup {A} (l : list A) (i : nat) :
  enumerate l !! i = (fun x => (i, x)) <$> l !! i.
Proof. unfold enumerate. by rewrite enumerate_from_lookup. Qed.

Lemma enumerate_from_length {A} (l : list A) (n : nat) :
  length (enumerate_from n l) = length l.
Proof. revert n. induction l; intros; simpl; auto. Qed.

Lemma map_snd_enumerate_from {A} (l : list A) (n : nat) :
  map snd (enumerate_from n l) = l.
Proof. revert n. induction l; intros; simpl; f_equal; auto. Qed.

Lemma sbind_lift {S A B} (r : Result A) (k : A -> St S B) (s : S) :
  sbind (lift r) k s = match r with Ok a => k a s | Err e => (Err e, s) end.
Proof. unfold sbind, lift. by destruct r. Qed.

Lemma sbind_read {S A B} (f : S -> Result A) (k : A -> St S B) (s : S) :
  sbind (read f) k s = match f s with Ok a => k a s | Err e => (Err e, s) end.
Proof. unfold sbind, read. by destruct (f s). Qed.

Lemma sbind_write {S B} (f : S -> S) (k : unit -> St S B) (s : S) :
  sbind (write f) k s = k tt (f s).
Proof. reflexivity. Qed.

(** ** Reorder validation *)

Example split_space_tokens :
  split_space "2 1 3" = ["2"; "1"; "3"] /\ split_space "" = [""]
  /\ split_space "1  2" = ["1"; ""; "2"].
Proof. repeat split. Qed.

(** C9. A change-order call on a stored pending match whose new-order
    string does not split, at single spaces, into as many tokens as the
    match has distinct teams raises [MatchServiceError], whose message
    names the number of teams, and leaves every collection of the database,
    the pending record included, as it was. *)
Theorem change_order_wrong_length (db : DB) (match_id new_order discord_message_id : string)
    (oid : nat) (m : MatchModel) :
  ObjectId_of_str match_id = Some oid ->
  find_by_id (pending_matches db) oid = Some m ->
  length (split_space new_order) <> num_teams m ->
  change_order match_id new_order discord_message_id db
  = (Err (MatchServiceError
            ("New order length does not match number of players/teams ("
             +:+ py_str (num_teams m) +:+ ")")), db).
Proof.
  intros Hoid Hfind Hlen. unfold change_order, _to_oid, find_pending.
  rewrite sbind_lift, Hoid. simpl. rewrite sbind_read, Hfind. simpl.
  destruct (Nat.eqb_spec (length (split_space new_order)) (num_teams m)) as [Heq|Hne];
    [contradiction|reflexivity].
Qed.

(** ** The rating update *)

Lemma erase_deltas_set_delta (f : DeltaField) (v : Z) (p : PlayerModel) :
  erase_deltas (set_delta f v p) = erase_deltas p.
Proof. by destruct f. Qed.

Lemma get_set_delta (f : DeltaField) (v : Z) (p : PlayerModel) :
  get_delta f (set_delta f v p) = Some v.
Proof. by destruct f. Qed.

(** What one iteration of the last loop computes. *)
Lemma apply_delta_Ok (pr : list StatModel) (post : list (option StatModel))
    (f : DeltaField) (i : nat) (p p' : PlayerModel) (s' : StatModel) :
  apply_delta pr post f (i, p) = Ok (p', s') ->
  exists cur d post_i,
    pr !! i = Some cur /\ computed_delta p post i cur = Ok d
    /\ post !! i = Some (Some post_i)
    /\ p' = set_delta f (stored_delta p d) p
    /\ s' = set_mu (fadd_int (mu cur) (stored_delta p d)) post_i.
Proof.
  unfold apply_delta, py_get, post_get, py_get. intros H.
  destruct (pr !! i) as [cur|] eqn:Hcur; simpl in H; [|discriminate].
  destruct (computed_delta p post i cur) as [d|] eqn:Hd; simpl in H; [|discriminate].
  destruct (post !! i) as [[post_i|]|] eqn:Hpost; simpl in H; try discriminate.
  injection H as <- <-. exists cur, d, post_i. auto.
Qed.

(** A rating update of a match with at most one team raises, whatever the
    rankings and the rating step are: it returns nothing. *)
Lemma single_team_update_raises (m : MatchModel) (pr : list StatModel) (f : DeltaField) :
  (num_teams m <= 1)%nat ->
  update_player_stats (Some m) pr f = Err (PyException "AttributeError").
Proof.
  intros Hle. unfold update_player_stats.
  by destruct (Nat.leb_spec (num_teams m) 1); [|lia].
Qed.

(** A rating update that returns was given a match with at least two teams
    and returns a match and posteriors. *)
Lemma update_player_stats_Ok (o : option MatchModel) (pr : list StatModel)
    (f : DeltaField) (o' : option MatchModel) (po : option (list StatModel)) :
  update_player_stats o pr f = Ok (o', po) ->
  exists m post out,
    o = Some m /\ (1 < num_teams m)%nat
    /\ posteriors m pr = Ok post
    /\ mapR (apply_delta pr post f) (enumerate (players m)) = Ok out
    /\ o' = Some (set_players (map fst out) m) /\ po = Some (map snd out).
Proof.
  unfold update_player_stats. destruct o as [m|]; [|discriminate].
  intros H. destruct (Nat.leb_spec (num_teams m) 1) as [Hle|Hgt]; [discriminate|].
  destruct (posteriors m pr) as [post|] eqn:Hpost; simpl in H; [|discriminate].
  destruct (mapR _ _) as [out|] eqn:Hout; simpl in H; [|discriminate].
  injection H as <- <-. exists m, post, out. by repeat split.
Qed.

(** A rating update changes nothing of a match but delta attributes. *)
Lemma update_player_stats_keeps (m m' : MatchModel) (pr : list StatModel)
    (f : DeltaField) (po : option (list StatModel)) :
  update_player_stats (Some m) pr f = Ok (Some m', po) ->
  map erase_deltas (players m') = map erase_deltas (players m)
  /\ erase_players m' = erase_players m.
Proof.
  intros H. apply update_player_stats_Ok in H
    as (m0 & post & out & [= <-] & _ & _ & Hout & [= ->] & _).
  split; [|reflexivity].
  simpl. apply mapR_Forall2 in Hout. unfold enumerate in Hout.
  remember (enumerate_from 0 (players m)) as en eqn:Hen.
  assert (Hps : players m = map snd en) by (subst en; by rewrite map_snd_enumerate_from).
  rewrite Hps. clear Hen Hps.
  induction Hout as [|[i p] [p' s'] en out Hx _ IH]; [reflexivity|].
  simpl. apply apply_delta_Ok in Hx as (? & d & ? & _ & _ & _ & -> & _).
  rewrite erase_deltas_set_delta. by f_equal.
Qed.

(** The three updates of an operation all run or the operation raises, and
    they run on a match with at least two teams. *)
Lemma recompute_ratings_Ok (db : DB) (m : MatchModel) (o : option MatchModel)
    (p1 p2 p3 : option (list StatModel)) :
  recompute_ratings db m = Ok (o, p1, p2, p3) ->
  (1 < num_teams m)%nat /\
  exists m', o = Some m'
    /\ map erase_deltas (players m') = map erase_deltas (players m)
    /\ erase_players m' = erase_players m.
Proof.
  unfold recompute_ratings. intros H.
  destruct (get_players_ranking db m false false) as [r1|]; cbn [rbind fst snd] in H; [|discriminate].
  destruct (get_players_ranking db m true false) as [r2|]; cbn [rbind fst snd] in H; [|discriminate].
  destruct (get_players_ranking db m false true) as [r3|]; cbn [rbind fst snd] in H; [|discriminate].
  destruct (update_player_stats (Some m) r1 Fdelta) as [[o1 q1]|] eqn:H1;
    cbn [rbind fst snd] in H; [|discriminate].
  destruct (update_player_stats o1 r2 Fseason_delta) as [[o2 q2]|] eqn:H2;
    cbn [rbind fst snd] in H; [|discriminate].
  destruct (update_player_stats o2 r3 Fcombined_delta) as [[o3 q3]|] eqn:H3;
    cbn [rbind fst snd] in H; [|discriminate].
  injection H as <- <- <- <-.
  destruct o2 as [m2|]; [|discriminate].
  destruct o1 as [m1|]; [|discriminate].
  pose proof H3 as H3'.
  apply update_player_stats_Ok in H3' as (? & ? & ? & _ & _ & _ & _ & -> & _).
  apply update_player_stats_keeps in H2 as [Ha2 Hb2].
  apply update_player_stats_keeps in H3 as [Ha3 Hb3].
  pose proof H1 as H1'. apply update_player_stats_keeps in H1' as [Ha1 Hb1].
  apply update_player_stats_Ok in H1 as (? & ? & ? & [= <-] & Hgt & _).
  split; [exact Hgt|]. eexists. split; [reflexivity|]. split; congruence.
Qed.

(** C2. When a rating update of a match with at least two teams returns,
    every row's stored delta is derived from the merged posteriors as
    follows: the computed delta is [round(posterior mean - prior mean)] for a
    row with a bound identity and 0 for an unbound one; a substitute-in row
    stores the larger of the configured minimum and the computed delta, so
    never less than the minimum; a substituted-out row that is not also
    marked substitute-in stores the smaller of the computed delta and 0, so
    never a positive value; any other row stores the computed delta. *)
Theorem update_player_stats_deltas (m m' : MatchModel) (pr post' : list StatModel)
    (f : DeltaField) :
  update_player_stats (Some m) pr f = Ok (Some m', Some post') ->
  exists post,
    posteriors m pr = Ok post
    /\ length (players m') = length (players m)
    /\ forall i p, players m !! i = Some p ->
       exists p' cur computed stored,
         players m' !! i = Some p' /\ pr !! i = Some cur
         /\ match discord_id p with
            | Some _ =>
                exists post_i, post !! i = Some (Some post_i)
                  /\ py_round (fsub (mu post_i) (mu cur)) = Some computed
            | None => computed = 0
            end
         /\ get_delta f p' = Some stored
         /\ (is_sub p = true ->
             stored = Z.max min_points_for_subs computed /\ min_points_for_subs <= stored)
         /\ (is_sub p = false -> subbed_out p = true ->
             stored = Z.min computed 0 /\ stored <= 0)
         /\ (is_sub p = false -> subbed_out p = false -> stored = computed).
Proof.
  intros H. apply update_player_stats_Ok in H
    as (m0 & post & out & [= <-] & _ & Hpost & Hout & [= ->] & [= ->]).
  exists post. split; [exact Hpost|]. split.
  { simpl. rewrite length_map, (mapR_length _ _ _ Hout). apply enumerate_from_length. }
  intros i p Hp. apply mapR_Forall2 in Hout.
  assert (Hen : enumerate (players m) !! i = Some (i, p))
    by (by rewrite enumerate_lookup, Hp).
  destruct (Forall2_lookup_l _ _ _ _ _ Hout Hen) as ([p' s'] & Ho & Hx).
  apply apply_delta_Ok in Hx as (cur & d & post_i & Hcur & Hd & Hpi & -> & _).
  exists (set_delta f (stored_delta p d) p), cur, d, (stored_delta p d).
  split; [simpl; by rewrite list_lookup_fmap, Ho|]. split; [exact Hcur|]. split.
  { unfold computed_delta, post_get, py_get in Hd. rewrite Hpi in Hd. simpl in Hd.
    destruct (discord_id p).
    - exists post_i. split; [exact Hpi|].
      destruct (py_round _); simpl in Hd; congruence.
    - congruence. }
  split; [apply get_set_delta|]. unfold stored_delta.
  repeat split; intros; repeat match goal with H : _ = _ |- _ => rewrite H end;
    try destruct (Z.ltb_spec d 0); lia.
Qed.

(** ** Stored documents *)

Lemma find_modify_by_id (f : MatchModel -> MatchModel) (oid : nat)
    (c : list (nat * MatchModel)) :
  find_by_id (modify_by_id f oid c) oid = f <$> find_by_id c oid.
Proof.
  unfold find_by_id. induction c as [|[k d] c IH]; [reflexivity|]. simpl.
  destruct (Nat.eqb k oid) eqn:Hk; simpl; rewrite Hk; [reflexivity|exact IH].
Qed.

(** The tail of every mutation: the document is updated and read back. *)
Lemma update_then_fetch (oid : nat) (f : MatchModel -> MatchModel) (db : DB)
    (m : MatchModel) :
  find_by_id (pending_matches db) oid = Some m ->
  sbind (update_pending oid f) (fun _ => fetch_updated oid) db
  = (Ok (mkResponse (str_of_ObjectId oid) (f m) None),
     set_pending (modify_by_id f oid (pending_matches db)) db).
Proof.
  intros Hfind. unfold update_pending. rewrite sbind_write.
  unfold fetch_updated, read. simpl. by rewrite find_modify_by_id, Hfind.
Qed.

(** Rows that agree up to deltas agree on every other attribute. *)
Lemma erase_deltas_eq_fields (p q : PlayerModel) :
  erase_deltas p = erase_deltas q ->
  civ p = civ q /\ leader p = leader q /\ team p = team q /\ placement p = placement q
  /\ player_alive p = player_alive q /\ is_sub p = is_sub q
  /\ subbed_out p = subbed_out q /\ discord_id p = discord_id q.
Proof.
  intros H. destruct p, q. unfold erase_deltas in H. simpl in *.
  injection H as -> -> -> -> -> -> -> -> -> -> ->. repeat split.
Qed.

Lemma map_erase_lookup (l k : list PlayerModel) (i : nat) (x : PlayerModel) :
  map erase_deltas l = map erase_deltas k -> l !! i = Some x ->
  exists y, k !! i = Some y /\ erase_deltas x = erase_deltas y.
Proof.
  intros H Hx.
  assert (Hl : map erase_deltas l !! i = Some (erase_deltas x))
    by (by rewrite list_lookup_fmap, Hx).
  rewrite H, list_lookup_fmap in Hl.
  destruct (k !! i) as [y|]; simpl in Hl; [|discriminate].
  exists y. split; [reflexivity|congruence].
Qed.

(** ** Substitutions *)

(** How [assign_sub] runs on a stored match with a slot index in range: the
    only write is the final replacement of the document. *)
Lemma assign_sub_run (db : DB) (match_id sub_in_id sub_out_discord_id msg : string)
    (oid : nat) (m : MatchModel) (i : Z) :
  ObjectId_of_str match_id = Some oid ->
  find_by_id (pending_matches db) oid = Some m ->
  py_int sub_in_id = Some i ->
  0 <= i < Z.of_nat (length (players m)) ->
  exists origin,
    players m !! Z.to_nat i = Some origin /\
    let row := sub_out_row (discord_to_steam_id db sub_out_discord_id) sub_out_discord_id
                 (set_is_sub true origin) in
    let inserted :=
      set_players (py_insert (S (Z.to_nat i)) row
                     (alter (set_is_sub true) (Z.to_nat i) (players m))) m in
    assign_sub match_id sub_in_id sub_out_discord_id msg db =
    match recompute_ratings db inserted with
    | Ok (Some m', _, _, _) =>
        let final :=
          set_discord_messages_id_list (discord_messages_id_list m ++ [msg]) m' in
        (Ok (mkResponse (str_of_ObjectId oid) final None),
         set_pending (modify_by_id (fun _ => final) oid (pending_matches db)) db)
    | Ok (None, _, _, _) => (Err (PyException "AttributeError"), db)
    | Err e => (Err e, db)
    end.
Proof.
  intros Hoid Hfind Hsid Hi.
  destruct (lookup_lt_is_Some_2 (players m) (Z.to_nat i)) as [origin Horigin]; [lia|].
  exists origin. split; [exact Horigin|]. intros row inserted.
  unfold assign_sub, _to_oid, find_pending.
  rewrite sbind_lift, Hoid. simpl. rewrite sbind_read, Hfind. simpl.
  rewrite sbind_lift, Hsid. simpl.
  destruct (Z.ltb_spec i 0); [lia|]. destruct (Z.geb_spec i (Z.of_nat (length (players m))));
    [lia|]. simpl.
  rewrite sbind_read. simpl. rewrite sbind_lift. unfold py_get.
  rewrite list_lookup_alter, Horigin. case_decide; [|done]. simpl.
  rewrite sbind_read. fold row. fold inserted.
  destruct (recompute_ratings db inserted) as [[[[[m'|] p1] p2] p3]|e]; simpl;
    rewrite ?sbind_lift; simpl; try reflexivity.
  by rewrite (update_then_fetch _ _ _ _ Hfind).
Qed.

Lemma assign_sub_out_of_range (db : DB) (match_id sub_in_id sub_out_discord_id msg : string)
    (oid : nat) (m : MatchModel) (i : Z) :
  ObjectId_of_str match_id = Some oid ->
  find_by_id (pending_matches db) oid = Some m ->
  py_int sub_in_id = Some i ->
  ~ (0 <= i < Z.of_nat (length (players m))) ->
  assign_sub match_id sub_in_id sub_out_discord_id msg db
  = (Err (MatchServiceError
            "Sub in Player ID out of range. Must be between 0 and number of players - 1"),
     db).
Proof.
  intros Hoid Hfind Hsid Hi. unfold assign_sub, _to_oid, find_pending.
  rewrite sbind_lift, Hoid. simpl. rewrite sbind_read, Hfind. simpl.
  rewrite sbind_lift, Hsid. simpl.
  destruct (Z.ltb_spec i 0); [reflexivity|].
  destruct (Z.geb_spec i (Z.of_nat (length (players m)))); [reflexivity|lia].
Qed.

(** How [remove_sub] runs on a stored match: the guard of line 428, then
    the rating update, then the replacement of the document. *)
Lemma remove_sub_run (db : DB) (match_id sub_out_id msg : string)
    (oid : nat) (m : MatchModel) (i : Z) :
  ObjectId_of_str match_id = Some oid ->
  find_by_id (pending_matches db) oid = Some m ->
  py_int sub_out_id = Some i ->
  remove_sub match_id sub_out_id msg db =
  if (i <? 1) || (i >=? Z.of_nat (length (players m)))
     || negb (from_option subbed_out false (players m !! Z.to_nat i))
  then (Err (MatchServiceError
               "Sub in Player ID out of range. Must be between 1 and number of players - 1"),
        db)
  else
    match recompute_ratings db
            (set_players (delete (Z.to_nat i)
                            (alter (set_is_sub false) (Z.to_nat i - 1)%nat (players m))) m)
    with
    | Ok (Some m', _, _, _) =>
        let final :=
          set_discord_messages_id_list (discord_messages_id_list m ++ [msg]) m' in
        (Ok (mkResponse (str_of_ObjectId oid) final None),
         set_pending (modify_by_id (fun _ => final) oid (pending_matches db)) db)
    | Ok (None, _, _, _) => (Err (PyException "AttributeError"), db)
    | Err e => (Err e, db)
    end.
Proof.
  intros Hoid Hfind Hsid. unfold remove_sub, _to_oid, find_pending.
  rewrite sbind_lift, Hoid. simpl. rewrite sbind_read, Hfind. simpl.
  rewrite sbind_lift, Hsid. simpl.
  destruct (_ || _ || _); [reflexivity|].
  rewrite sbind_read.
  destruct (recompute_ratings db _) as [[[[[m'|] p1] p2] p3]|e]; simpl;
    rewrite ?sbind_lift; simpl; try reflexivity.
  by rewrite (update_then_fetch _ _ _ _ Hfind).
Qed.

Lemma py_insert_cons {A} (n : nat) (x a : A) (l : list A) :
  py_insert (S n) x (a :: l) = a :: py_insert n x l.
Proof. reflexivity. Qed.

Lemma py_insert_length {A} (n : nat) (x : A) (l : list A) :
  length (py_insert n x l) = S (length l).
Proof.
  unfold py_insert. rewrite length_app, length_take. simpl. rewrite length_drop. lia.
Qed.

Lemma py_insert_lookup_lt {A} (n i : nat) (x : A) (l : list A) :
  (i < n <= length l)%nat -> py_insert n x l !! i = l !! i.
Proof.
  intros H. unfold py_insert. rewrite lookup_app_l by (rewrite length_take; lia).
  apply lookup_take_lt. lia.
Qed.

Lemma py_insert_lookup_eq {A} (n : nat) (x : A) (l : list A) :
  (n <= length l)%nat -> py_insert n x l !! n = Some x.
Proof.
  intros H. unfold py_insert. rewrite lookup_app_r by (rewrite length_take; lia).
  rewrite length_take. by replace (n - n `min` length l)%nat with 0%nat by lia.
Qed.

Lemma py_insert_fmap {A B} (f : A -> B) (n : nat) (x : A) (l : list A) :
  map f (py_insert n x l) = py_insert n (f x) (map f l).
Proof.
  unfold py_insert. rewrite map_app. simpl.
  change (map f) with (fmap (M := list) f). by rewrite fmap_take, fmap_drop.
Qed.

(** Removing the inserted row and altering the slot before it. *)
Lemma delete_alter_py_insert {A} (f : A -> A) (n : nat) (x : A) (l : list A) :
  (n < length l)%nat ->
  delete (S n) (alter f n (py_insert (S n) x l)) = alter f n l.
Proof.
  revert l. induction n as [|n IH]; intros [|a l] H; simpl in H; try lia.
  - destruct l; reflexivity.
  - rewrite py_insert_cons. simpl. f_equal. apply IH. lia.
Qed.

Lemma erase_deltas_set_is_sub (b : bool) (p : PlayerModel) :
  erase_deltas (set_is_sub b p) = set_is_sub b (erase_deltas p).
Proof. reflexivity. Qed.

Lemma map_erase_alter_is_sub (b : bool) (n : nat) (l : list PlayerModel) :
  map erase_deltas (alter (set_is_sub b) n l)
  = alter (set_is_sub b) n (map erase_deltas l).
Proof.
  change (map erase_deltas) with (fmap (M := list) erase_deltas).
  apply list_fmap_alter. apply Forall_forall. intros. apply erase_deltas_set_is_sub.
Qed.

(** What a successful [assign_sub] stores. *)
Lemma assign_sub_Ok (db db' : DB) (match_id sub_in_id sub_out_discord_id msg : string)
    (oid : nat) (m : MatchModel) (i : Z) (r : Response) :
  ObjectId_of_str match_id = Some oid ->
  find_by_id (pending_matches db) oid = Some m ->
  py_int sub_in_id = Some i ->
  assign_sub match_id sub_in_id sub_out_discord_id msg db = (Ok r, db') ->
  0 <= i < Z.of_nat (length (players m))
  /\ find_by_id (pending_matches db') oid = Some (r_match r)
  /\ db' = set_pending (modify_by_id (fun _ => r_match r) oid (pending_matches db)) db
  /\ exists origin,
       players m !! Z.to_nat i = Some origin
       /\ map erase_deltas (players (r_match r))
          = py_insert (S (Z.to_nat i))
              (erase_deltas (sub_out_row (discord_to_steam_id db sub_out_discord_id)
                               sub_out_discord_id (set_is_sub true origin)))
              (map erase_deltas (alter (set_is_sub true) (Z.to_nat i) (players m))).
Proof.
  intros Hoid Hfind Hsid Hrun.
  destruct (decide (0 <= i < Z.of_nat (length (players m)))) as [Hi|Hi];
    [|rewrite (assign_sub_out_of_range _ _ _ _ _ _ _ _ Hoid Hfind Hsid Hi) in Hrun;
      discriminate].
  split; [exact Hi|].
  destruct (assign_sub_run db _ _ sub_out_discord_id msg _ _ _ Hoid Hfind Hsid Hi)
    as (origin & Horigin & Heq).
  cbv zeta in Heq. rewrite Heq in Hrun. clear Heq.
  destruct (recompute_ratings db _) as [[[[[m'|] p1] p2] p3]|e] eqn:Hrec;
    try discriminate.
  injection Hrun as <- <-. simpl.
  apply recompute_ratings_Ok in Hrec as (_ & m0 & [= <-] & Hrows & _).
  simpl in Hrows. rewrite find_modify_by_id, Hfind.
  split; [reflexivity|]. split; [reflexivity|].
  exists origin. split; [exact Horigin|]. by rewrite Hrows, py_insert_fmap.
Qed.

(** What a successful [remove_sub] stores. *)
Lemma remove_sub_Ok (db db' : DB) (match_id sub_out_id msg : string)
    (oid : nat) (m : MatchModel) (i : Z) (r : Response) :
  ObjectId_of_str match_id = Some oid ->
  find_by_id (pending_matches db) oid = Some m ->
  py_int sub_out_id = Some i ->
  remove_sub match_id sub_out_id msg db = (Ok r, db') ->
  (i <? 1) || (i >=? Z.of_nat (length (players m)))
  || negb (from_option subbed_out false (players m !! Z.to_nat i)) = false
  /\ find_by_id (pending_matches db') oid = Some (r_match r)
  /\ db' = set_pending (modify_by_id (fun _ => r_match r) oid (pending_matches db)) db
  /\ map erase_deltas (players (r_match r))
     = map erase_deltas
         (delete (Z.to_nat i) (alter (set_is_sub false) (Z.to_nat i - 1)%nat (players m))).
Proof.
  intros Hoid Hfind Hsid Hrun.
  rewrite (remove_sub_run _ _ _ _ _ _ _ Hoid Hfind Hsid) in Hrun.
  destruct (_ || _ || _) eqn:Hg; [discriminate|]. split; [reflexivity|].
  destruct (recompute_ratings db _) as [[[[[m'|] p1] p2] p3]|e] eqn:Hrec;
    try discriminate.
  injection Hrun as <- <-. simpl. rewrite find_modify_by_id, Hfind.
  split; [reflexivity|]. split; [reflexivity|].
  by apply recompute_ratings_Ok in Hrec as (_ & m0 & [= <-] & Hrows & _).
Qed.

(** C8. When [assign_sub] succeeds on a stored match, the slot index is a
    valid 0-based one, the stored record is the returned one, it has one
    more row, the origin slot is marked [is_sub], and the row right after it
    carries the origin's civilization, leader, team, placement and alive
    flag with [subbed_out] set and [is_sub] clear; up to the recomputed
    deltas the rows are the old ones with the origin marked and that row
    inserted. *)
Theorem assign_sub_inserts_copy (db db' : DB)
    (match_id sub_in_id sub_out_discord_id msg : string)
    (oid : nat) (m : MatchModel) (i : Z) (r : Response) :
  ObjectId_of_str match_id = Some oid ->
  find_by_id (pending_matches db) oid = Some m ->
  py_int sub_in_id = Some i ->
  assign_sub match_id sub_in_id sub_out_discord_id msg db = (Ok r, db') ->
  0 <= i < Z.of_nat (length (players m))
  /\ find_by_id (pending_matches db') oid = Some (r_match r)
  /\ length (players (r_match r)) = S (length (players m))
  /\ exists origin marked row,
       players m !! Z.to_nat i = Some origin
       /\ players (r_match r) !! Z.to_nat i = Some marked
       /\ players (r_match r) !! S (Z.to_nat i) = Some row
       /\ is_sub marked = true
       /\ erase_deltas marked = erase_deltas (set_is_sub true origin)
       /\ civ row = civ origin /\ leader row = leader origin /\ team row = team origin
       /\ placement row = placement origin /\ player_alive row = player_alive origin
       /\ subbed_out row = true /\ is_sub row = false
       /\ map erase_deltas (players (r_match r))
          = py_insert (S (Z.to_nat i)) (erase_deltas row)
              (map erase_deltas (alter (set_is_sub true) (Z.to_nat i) (players m))).
Proof.
  intros Hoid Hfind Hsid Hrun.
  destruct (assign_sub_Ok _ _ _ _ _ _ _ _ _ _ Hoid Hfind Hsid Hrun)
    as (Hi & Hfind' & _ & origin & Horigin & Hrows).
  split; [exact Hi|]. split; [exact Hfind'|].
  set (n := Z.to_nat i) in *.
  assert (Hn : (n < length (players m))%nat) by (subst n; lia).
  assert (Hlen : length (players (r_match r)) = S (length (players m))).
  { apply (f_equal length) in Hrows.
    by rewrite py_insert_length, !length_map, length_alter in Hrows. }
  split; [exact Hlen|].
  destruct (lookup_lt_is_Some_2 (players (r_match r)) n) as [marked Hmarked]; [lia|].
  destruct (lookup_lt_is_Some_2 (players (r_match r)) (S n)) as [row Hrow]; [lia|].
  rewrite <- py_insert_fmap in Hrows.
  destruct (map_erase_lookup _ _ _ _ Hrows Hmarked) as (y & Hy & Hmy).
  rewrite py_insert_lookup_lt in Hy by (rewrite length_alter; lia).
  rewrite list_lookup_alter_eq, Horigin in Hy. injection Hy as <-.
  destruct (map_erase_lookup _ _ _ _ Hrows Hrow) as (z & Hz & Hrz).
  rewrite py_insert_lookup_eq in Hz by (rewrite length_alter; lia).
  injection Hz as <-.
  destruct (erase_deltas_eq_fields _ _ Hmy) as (_ & _ & _ & _ & _ & Hsub & _).
  destruct (erase_deltas_eq_fields _ _ Hrz) as (? & ? & ? & ? & ? & ? & ? & _).
  exists origin, marked, row. repeat split; try assumption.
  rewrite Hrows, py_insert_fmap. by rewrite Hrz.
Qed.

(** C6. [remove_sub] reads its slot index as a 0-based position: on a
    stored match it succeeds only when [1 <= i < number of rows] and the row
    at 0-based position [i] is marked [subbed_out]; it then clears [is_sub]
    on the row at position [i - 1], deletes row [i] and stores the result
    with recomputed deltas.  When the index is out of that range or the row
    at 0-based position [i] is not a substituted-out row, it raises
    [MatchServiceError] and the database is left as it was. *)
Theorem remove_sub_zero_based (db : DB) (match_id sub_out_id msg : string)
    (oid : nat) (m : MatchModel) (i : Z) :
  ObjectId_of_str match_id = Some oid ->
  find_by_id (pending_matches db) oid = Some m ->
  py_int sub_out_id = Some i ->
  let targets_sub_out :=
    1 <= i < Z.of_nat (length (players m))
    /\ exists row, players m !! Z.to_nat i = Some row /\ subbed_out row = true in
  (forall r db',
      remove_sub match_id sub_out_id msg db = (Ok r, db') ->
      targets_sub_out
      /\ find_by_id (pending_matches db') oid = Some (r_match r)
      /\ map erase_deltas (players (r_match r))
         = map erase_deltas
             (delete (Z.to_nat i)
                (alter (set_is_sub false) (Z.to_nat i - 1)%nat (players m))))
  /\ (~ targets_sub_out ->
      remove_sub match_id sub_out_id msg db
      = (Err (MatchServiceError
                "Sub in Player ID out of range. Must be between 1 and number of players - 1"),
         db)).
Proof.
  intros Hoid Hfind Hsid targets_sub_out.
  assert (Hguard :
    (i <? 1) || (i >=? Z.of_nat (length (players m)))
    || negb (from_option subbed_out false (players m !! Z.to_nat i)) = false
    <-> targets_sub_out).
  { unfold targets_sub_out. rewrite !orb_false_iff, negb_false_iff.
    rewrite Z.ltb_ge, Z.geb_leb, Z.leb_gt. split.
    - intros [[? ?] Hrow]. split; [lia|].
      destruct (players m !! Z.to_nat i) as [row|]; simpl in Hrow; [|discriminate].
      by exists row.
    - intros [? (row & Hrow & Hout)]. rewrite Hrow. simpl. repeat split; [lia|lia|done]. }
  split.
  - intros r db' Hrun.
    destruct (remove_sub_Ok _ _ _ _ _ _ _ _ _ Hoid Hfind Hsid Hrun)
      as (Hg & Hfind' & _ & Hrows).
    split; [by apply Hguard|]. by split.
  - intros Hno. rewrite (remove_sub_run _ _ _ _ _ _ _ Hoid Hfind Hsid).
    destruct (_ || _ || _) eqn:Hg; [reflexivity|].
    exfalso. by apply Hno, Hguard.
Qed.

(** C7. When inserting a substitute at a valid slot and then removing the
    substituted-out row it created both succeed, the match has its original
    number of rows again and the origin slot has [is_sub] clear; up to the
    recomputed deltas every row is what it was, except that [is_sub] of the
    origin slot is clear whatever it was before.  So the origin's flag is
    restored whenever the origin was not a substitute already. *)
Theorem assign_then_remove_sub (db db1 db2 : DB)
    (match_id sub_in_id sub_out_discord_id msg1 sub_out_id msg2 : string)
    (oid : nat) (m : MatchModel) (i : Z) (r1 r2 : Response) :
  ObjectId_of_str match_id = Some oid ->
  find_by_id (pending_matches db) oid = Some m ->
  py_int sub_in_id = Some i ->
  py_int sub_out_id = Some (i + 1) ->
  assign_sub match_id sub_in_id sub_out_discord_id msg1 db = (Ok r1, db1) ->
  remove_sub match_id sub_out_id msg2 db1 = (Ok r2, db2) ->
  length (players (r_match r2)) = length (players m)
  /\ (exists p, players (r_match r2) !! Z.to_nat i = Some p /\ is_sub p = false)
  /\ map erase_deltas (players (r_match r2))
     = map erase_deltas (alter (set_is_sub false) (Z.to_nat i) (players m))
  /\ (forall origin,
        players m !! Z.to_nat i = Some origin -> is_sub origin = false ->
        map erase_deltas (players (r_match r2)) = map erase_deltas (players m)).
Proof.
  intros Hoid Hfind Hin Hout Hassign Hremove.
  destruct (assign_sub_Ok _ _ _ _ _ _ _ _ _ _ Hoid Hfind Hin Hassign)
    as (Hi & Hfind1 & _ & origin0 & _ & Hrows1).
  destruct (remove_sub_Ok _ _ _ _ _ _ _ _ _ Hoid Hfind1 Hout Hremove)
    as (_ & _ & _ & Hrows2).
  replace (Z.to_nat (i + 1)) with (S (Z.to_nat i)) in Hrows2 by lia.
  replace (S (Z.to_nat i) - 1)%nat with (Z.to_nat i) in Hrows2 by lia.
  change (map erase_deltas) with (fmap (M := list) erase_deltas) in Hrows2 at 2.
  rewrite list_fmap_delete in Hrows2.
  change (fmap (M := list) erase_deltas) with (map erase_deltas) in Hrows2.
  rewrite map_erase_alter_is_sub, Hrows1 in Hrows2.
  rewrite delete_alter_py_insert in Hrows2
    by (rewrite length_map, length_alter; lia).
  rewrite <- !map_erase_alter_is_sub in Hrows2.
  assert (Hrows : map erase_deltas (players (r_match r2))
                  = map erase_deltas (alter (set_is_sub false) (Z.to_nat i) (players m))).
  { rewrite Hrows2. f_equal. apply list_eq. intros j.
    rewrite !list_lookup_alter. repeat case_decide; try done.
    by destruct (players m !! _). }
  assert (Hlen : length (players (r_match r2)) = length (players m)).
  { apply (f_equal length) in Hrows. by rewrite !length_map, length_alter in Hrows. }
  split; [exact Hlen|]. split; [|split; [exact Hrows|]].
  - destruct (lookup_lt_is_Some_2 (players (r_match r2)) (Z.to_nat i)) as [p Hp]; [lia|].
    exists p. split; [exact Hp|].
    destruct (map_erase_lookup _ _ _ _ Hrows Hp) as (y & Hy & Hpy).
    rewrite list_lookup_alter_eq in Hy.
    destruct (players m !! Z.to_nat i) as [origin|]; simpl in Hy; [|discriminate].
    injection Hy as <-.
    by destruct (erase_deltas_eq_fields _ _ Hpy) as (_ & _ & _ & _ & _ & -> & _).
  - intros origin Horigin Hsub. rewrite Hrows. f_equal.
    apply list_eq. intros j. rewrite list_lookup_alter. case_decide; [subst j|done].
    rewrite Horigin. simpl. f_equal. destruct origin. simpl in Hsub. by subst.
Qed.

(** ** The approval transaction *)

(** How [approve_match] runs on a stored match. *)
Lemma approve_match_run (fault : nat -> bool) (now : datetime) (db : DB)
    (match_id approver : string) (oid : nat) (m : MatchModel) :
  ObjectId_of_str match_id = Some oid ->
  find_by_id (pending_matches db) oid = Some m ->
  approve_match fault now match_id approver db =
  match require_discord_ids (players m) with
  | Err e => (Err e, db)
  | Ok _ =>
      match recompute_ratings db m with
      | Err e => (Err e, db)
      | Ok (None, _, _, _) => (Err (PyException "AttributeError"), db)
      | Ok (Some m', post, season_post, combined_post) =>
          let final := set_approval now approver m' in
          match approve_writes fault now oid final post season_post combined_post
                  (mkSession db 0) with
          | (Ok validated, s) =>
              (Ok (mkResponse (str_of_ObjectId validated) final None), s_db s)
          | (Err e, _) =>
              (Err (MatchServiceError
                      ("An error occured during writing to DB: " +:+ str_of_exception e)),
               db)
          end
      end
  end.
Proof.
  intros Hoid Hfind. unfold approve_match, _to_oid, find_pending.
  rewrite sbind_lift, Hoid. simpl. rewrite sbind_read, Hfind. simpl.
  rewrite sbind_lift. destruct (require_discord_ids (players m)); [|reflexivity].
  rewrite sbind_read.
  destruct (recompute_ratings db m) as [[[[[m'|] p1] p2] p3]|e]; simpl;
    rewrite ?sbind_lift; simpl; try reflexivity.
  unfold sbind at 1, in_transaction.
  by destruct (approve_writes _ _ _ _ _ _ _ _) as [[v|e] s].
Qed.

(** The precondition loop stops at the first row without an identity, and
    its message names that row. *)
Lemma require_discord_ids_None (ps : list PlayerModel) :
  (exists p, p ∈ ps /\ discord_id p = None) ->
  exists i p,
    ps !! i = Some p /\ discord_id p = None
    /\ (forall j q, (j < i)%nat -> ps !! j = Some q -> discord_id q <> None)
    /\ require_discord_ids ps
       = Err (MatchServiceError
                ("Player " +:+ default "None" (user_name p)
                 +:+ " has no linked Discord ID")).
Proof.
  unfold require_discord_ids. intros (p & Hp & Hnone).
  induction Hp as [p ps|p q ps Hp IH]; simpl.
  - exists 0%nat, p. rewrite Hnone.
    split; [reflexivity|]. split; [reflexivity|]. split; [|reflexivity].
    intros j q Hj. lia.
  - destruct (discord_id q) as [d|] eqn:Hq.
    + destruct (IH Hnone) as (i & p' & Hi & Hp' & Hfirst & Hrun).
      exists (S i), p'. split; [exact Hi|]. split; [exact Hp'|]. split; [|exact Hrun].
      intros [|j] q' Hj Hq'; simpl in Hq'.
      * injection Hq' as <-. by rewrite Hq.
      * apply (Hfirst j); [lia|exact Hq'].
    + exists 0%nat, q.
      split; [reflexivity|]. split; [exact Hq|]. split; [|reflexivity].
      intros j q' Hj. lia.
Qed.

Lemma tx_write_Ok {A} (fault : nat -> bool) (f : DB -> A * DB) (s s' : Session) (a : A) :
  tx_write fault f s = (Ok a, s') ->
  fault (s_writes s) = false /\ s_writes s' = S (s_writes s).
Proof.
  unfold tx_write. destruct (fault (s_writes s)); [discriminate|].
  destruct (f (s_db s)) as [a' db']. intros [= <- <-]. auto.
Qed.

Lemma wrote_tx_write {A} (fault : nat -> bool) (f : DB -> A * DB) :
  wrote fault 1 (tx_write fault f).
Proof.
  intros s s' a H. apply tx_write_Ok in H as [Hf Hw]. split; [lia|].
  intros k Hk. by replace k with (s_writes s) by lia.
Qed.

Lemma wrote_lift {A} (fault : nat -> bool) (r : Result A) : wrote fault 0 (lift r).
Proof. intros s s' a [= _ <-]. split; [lia|]. intros; lia. Qed.

Lemma wrote_sret {A} (fault : nat -> bool) (a : A) : wrote fault 0 (sret a).
Proof. intros s s' a' [= _ <-]. split; [lia|]. intros; lia. Qed.

Lemma wrote_sbind {A B} (fault : nat -> bool) (n1 n2 : nat) (c : St Session A)
    (k : A -> St Session B) :
  wrote fault n1 c -> (forall a, wrote fault n2 (k a)) ->
  wrote fault (n1 + n2) (sbind c k).
Proof.
  intros Hc Hk s s' b H. unfold sbind in H.
  destruct (c s) as [[a|e] s1] eqn:Hcs; [|discriminate].
  destruct (Hc _ _ _ Hcs) as [Hw1 Hf1]. destruct (Hk a _ _ _ H) as [Hw2 Hf2].
  split; [lia|]. intros j Hj.
  destruct (decide (j < s_writes s1)%nat); [apply Hf1|apply Hf2]; lia.
Qed.

Lemma wrote_approve_player (fault : nat -> bool) (now : datetime) (m : MatchModel)
    (post sp cp : option (list StatModel)) (t1 t2 t3 : bool * bool * string)
    (i : nat) (p : PlayerModel) :
  wrote fault (3 + (if is_sub p then 1 else 0))
    (approve_player fault now m post sp cp t1 t2 t3 (i, p)).
Proof.
  unfold approve_player.
  repeat (apply (wrote_sbind fault 0); [apply wrote_lift|intros ?]).
  apply (wrote_sbind fault 1); [apply wrote_tx_write|intros ?].
  apply (wrote_sbind fault 1); [apply wrote_tx_write|intros ?].
  apply (wrote_sbind fault 1); [apply wrote_tx_write|intros ?].
  destruct (is_sub p); [apply wrote_tx_write|apply wrote_sret].
Qed.

Lemma wrote_approve_loop (fault : nat -> bool) (now : datetime) (m : MatchModel)
    (post sp cp : option (list StatModel)) (t1 t2 t3 : bool * bool * string)
    (ps : list PlayerModel) (n : nat) :
  wrote fault (3 * length ps + length (List.filter is_sub ps))
    (sfor (enumerate_from n ps) (approve_player fault now m post sp cp t1 t2 t3)).
Proof.
  revert n. induction ps as [|p ps IH]; intros n; [apply wrote_sret|].
  simpl sfor.
  replace (3 * length (p :: ps) + length (List.filter is_sub (p :: ps)))%nat
    with ((3 + (if is_sub p then 1 else 0))
          + (3 * length ps + length (List.filter is_sub ps)))%nat
    by (simpl; destruct (is_sub p); simpl; lia).
  apply wrote_sbind; [apply wrote_approve_player|intros _; apply IH].
Qed.

Lemma wrote_approve_writes (fault : nat -> bool) (now : datetime) (oid : nat)
    (m : MatchModel) (post sp cp : option (list StatModel)) :
  wrote fault (approval_writes (players m)) (approve_writes fault now oid m post sp cp).
Proof.
  unfold approve_writes, approval_writes, enumerate.
  apply wrote_sbind; [apply wrote_approve_loop|intros _].
  apply (wrote_sbind fault 1 1); [apply wrote_tx_write|intros ?].
  apply (wrote_sbind fault 1 0); [apply wrote_tx_write|intros ?]. apply wrote_sret.
Qed.

Lemma approval_writes_erase (ps qs : list PlayerModel) :
  map erase_deltas ps = map erase_deltas qs -> approval_writes ps = approval_writes qs.
Proof.
  unfold approval_writes. intros H.
  assert (Hlen : length ps = length qs)
    by (apply (f_equal length) in H; by rewrite !length_map in H).
  assert (Hsub : map is_sub ps = map is_sub qs).
  { apply (f_equal (map is_sub)) in H. by rewrite !map_map in H. }
  f_equal. f_equal; [lia|]. clear H Hlen. revert qs Hsub.
  induction ps as [|p ps IH]; intros [|q qs] Hsub; try discriminate; [reflexivity|].
  simpl in *. injection Hsub as -> Hsub. destruct (is_sub q); simpl; auto.
Qed.

(** C1. Approval of a stored pending match is all or nothing.  Whatever
    writes the persistence layer fails: if [approve_match] raises, every
    collection of the database is what it was before the call (no
    aggregate row changed, no validated match inserted) and the pending
    record is still the stored one; a row without a bound identity makes it
    raise [MatchServiceError], with a message that names the first such
    row; and the failure of any one of the writes of the transaction makes
    it raise as well. *)
Theorem approve_match_atomic (fault : nat -> bool) (now : datetime) (db : DB)
    (match_id approver : string) (oid : nat) (m : MatchModel) :
  ObjectId_of_str match_id = Some oid ->
  find_by_id (pending_matches db) oid = Some m ->
  (forall e db',
      approve_match fault now match_id approver db = (Err e, db') ->
      db' = db /\ find_by_id (pending_matches db') oid = Some m)
  /\ ((exists p, p ∈ players m /\ discord_id p = None) ->
      exists i p,
        players m !! i = Some p /\ discord_id p = None
        /\ (forall j q, (j < i)%nat -> players m !! j = Some q -> discord_id q <> None)
        /\ approve_match fault now match_id approver db
           = (Err (MatchServiceError
                     ("Player " +:+ default "None" (user_name p)
                      +:+ " has no linked Discord ID")), db))
  /\ ((exists k, (k < approval_writes (players m))%nat /\ fault k = true) ->
      exists e, approve_match fault now match_id approver db = (Err e, db)).
Proof.
  intros Hoid Hfind. rewrite (approve_match_run _ _ _ _ _ _ _ Hoid Hfind).
  split; [|split].
  - intros e db' H.
    assert (db' = db) as ->; [|by split].
    destruct (require_discord_ids (players m)); [|by injection H].
    destruct (recompute_ratings db m) as [[[[[m'|] p1] p2] p3]|e']; try by injection H.
    cbv zeta in H.
    destruct (approve_writes _ _ _ _ _ _ _ _) as [[v|e'] s]; [discriminate|by injection H].
  - intros Hunbound.
    destruct (require_discord_ids_None _ Hunbound) as (i & p & Hi & Hp & Hfirst & ->).
    by exists i, p.
  - intros (k & Hk & Hfault).
    destruct (require_discord_ids (players m)); [|by eexists].
    destruct (recompute_ratings db m) as [[[[[m'|] p1] p2] p3]|e'] eqn:Hrec;
      try by eexists.
    cbv zeta.
    destruct (approve_writes _ _ _ _ _ _ _ _) as [[v|e'] s] eqn:Hw; [|by eexists].
    exfalso. apply wrote_approve_writes in Hw as [Hn Hnofault]. simpl in *.
    apply recompute_ratings_Ok in Hrec as (_ & m0 & [= <-] & Hrows & _).
    rewrite (approval_writes_erase _ _ Hrows) in Hn.
    rewrite Hnofault in Hfault; [discriminate|lia].
Qed.

(** ** Matches with a single team *)

Lemma num_teams_incl (m1 m2 : MatchModel) :
  (forall t, t ∈ map team (players m1) -> t ∈ map team (players m2)) ->
  (num_teams m1 <= num_teams m2)%nat.
Proof.
  intros H. unfold num_teams. apply submseteq_length, NoDup_submseteq.
  - apply NoDup_remove_dups.
  - intros t. rewrite !elem_of_remove_dups. apply H.
Qed.

Lemma recompute_ratings_single_team (db : DB) (m : MatchModel) :
  (num_teams m <= 1)%nat -> exists e, recompute_ratings db m = Err e.
Proof.
  intros Hle. destruct (recompute_ratings db m) as [[[[o p1] p2] p3]|e] eqn:H;
    [|by eexists].
  apply recompute_ratings_Ok in H as [Hgt _]. lia.
Qed.

(** Once the three rankings are read, it is the first rating update that
    raises. *)
Lemma recompute_ratings_single_team_raises (db : DB) (m : MatchModel)
    (r1 r2 r3 : list StatModel) :
  (num_teams m <= 1)%nat ->
  get_players_ranking db m false false = Ok r1 ->
  get_players_ranking db m true false = Ok r2 ->
  get_players_ranking db m false true = Ok r3 ->
  recompute_ratings db m = Err (PyException "AttributeError").
Proof.
  intros Hle H1 H2 H3. unfold recompute_ratings. rewrite H1, H2, H3. cbn [rbind].
  by rewrite (single_team_update_raises _ _ _ Hle).
Qed.

(** How [change_order] runs on a stored match. *)
Lemma change_order_run (db : DB) (match_id new_order msg : string)
    (oid : nat) (m : MatchModel) :
  ObjectId_of_str match_id = Some oid ->
  find_by_id (pending_matches db) oid = Some m ->
  change_order match_id new_order msg db =
  if negb (length (split_space new_order) =? num_teams m)%nat
  then (Err (MatchServiceError
               ("New order length does not match number of players/teams ("
                +:+ py_str (num_teams m) +:+ ")")), db)
  else
    match mapR (place_player (split_space new_order)) (players m) with
    | Err e => (Err e, db)
    | Ok placed =>
        match recompute_ratings db (set_players placed m) with
        | Ok (Some m', _, _, _) =>
            (Ok (mkResponse (str_of_ObjectId oid) (change_order_changes m msg m' m) None),
             set_pending (modify_by_id (change_order_changes m msg m') oid
                            (pending_matches db)) db)
        | Ok (None, _, _, _) => (Err (PyException "AttributeError"), db)
        | Err e => (Err e, db)
        end
    end.
Proof.
  intros Hoid Hfind. unfold change_order, _to_oid, find_pending.
  rewrite sbind_lift, Hoid. simpl. rewrite sbind_read, Hfind. simpl.
  destruct (negb _); [reflexivity|].
  rewrite sbind_lift. destruct (mapR _ _) as [placed|e]; [|reflexivity].
  rewrite sbind_read.
  destruct (recompute_ratings db _) as [[[[[m'|] p1] p2] p3]|e]; simpl;
    rewrite ?sbind_lift; simpl; try reflexivity.
  by rewrite (update_then_fetch _ _ _ _ Hfind).
Qed.

(** How [assign_discord_id] runs on a stored match. *)
Lemma assign_discord_id_run (db : DB) (match_id player_id player_discord_id msg : string)
    (oid : nat) (m : MatchModel) (pid : Z) :
  ObjectId_of_str match_id = Some oid ->
  find_by_id (pending_matches db) oid = Some m ->
  py_int player_id = Some pid ->
  assign_discord_id match_id player_id player_discord_id msg db =
  if (pid <? 1) || (pid >? Z.of_nat (length (players m)))
  then (Err (MatchServiceError
               "Player ID out of range. Must be between 1 and number of players"), db)
  else
    let i := Z.to_nat (pid - 1) in
    let steam := discord_to_steam_id db player_discord_id in
    let bound_match :=
      set_players
        (alter (fun p => set_steam_id steam (set_discord_id (Some player_discord_id) p))
               i (players m)) m in
    match recompute_ratings db bound_match with
    | Ok (Some m', _, _, _) =>
        match py_get (players m') i with
        | Ok bound =>
            let changes :=
              assign_discord_id_changes m msg i player_discord_id (steam_id bound) m' in
            (Ok (mkResponse (str_of_ObjectId oid) (changes m) None),
             set_pending (modify_by_id changes oid (pending_matches db)) db)
        | Err e => (Err e, db)
        end
    | Ok (None, _, _, _) => (Err (PyException "AttributeError"), db)
    | Err e => (Err e, db)
    end.
Proof.
  intros Hoid Hfind Hpid. unfold assign_discord_id, _to_oid, find_pending.
  rewrite sbind_lift, Hoid. simpl. rewrite sbind_read, Hfind. simpl.
  rewrite sbind_lift, Hpid. simpl.
  destruct (_ || _); [reflexivity|].
  rewrite sbind_read. simpl. rewrite sbind_read.
  destruct (recompute_ratings db _) as [[[[[m'|] p1] p2] p3]|e]; simpl;
    rewrite ?sbind_lift; simpl; try reflexivity.
  destruct (py_get (players m') _) as [bound|e]; [|reflexivity].
  by rewrite (update_then_fetch _ _ _ _ Hfind).
Qed.

(** How [create_from_save] runs on a save that parses. *)
Lemma create_from_save_run (now : datetime) (db : DB)
    (file_bytes reporter : string) (cloud : bool) (msg : string) (parsed : Parsed) :
  _parse_save file_bytes = Ok parsed ->
  create_from_save now file_bytes reporter cloud msg db =
  match find_by_hash (pending_matches db) (fingerprint parsed) with
  | Some res => (Ok (mkResponse (str_of_ObjectId (fst res)) (snd res) (Some true)), db)
  | None =>
      match recompute_ratings db
              (match_id_to_discord db
                 (new_match now parsed (fingerprint parsed) reporter cloud msg)) with
      | Ok (Some m', _, _, _) =>
          (Ok (mkResponse (str_of_ObjectId (next_oid db)) m' None),
           snd (insert_pending m' db))
      | Ok (None, _, _, _) => (Err (PyException "AttributeError"), db)
      | Err e => (Err e, db)
      end
  end.
Proof.
  intros Hparse. unfold create_from_save. rewrite sbind_lift, Hparse. simpl.
  rewrite sbind_read. simpl.
  destruct (find_by_hash _ _) as [res|]; [reflexivity|].
  rewrite sbind_read. simpl. rewrite sbind_read.
  destruct (recompute_ratings db _) as [[[[[m'|] p1] p2] p3]|e]; simpl;
    rewrite ?sbind_lift; simpl; reflexivity.
Qed.

Lemma num_teams_within (m1 m2 : MatchModel) :
  teams_within (players m1) (players m2) -> (num_teams m1 <= num_teams m2)%nat.
Proof.
  intros H. apply num_teams_incl. intros t Ht.
  change (map team) with (fmap (M := list) team) in *.
  apply list_elem_of_fmap in Ht as (p & -> & Hp).
  destruct (H p Hp) as (q & Hq & ->). by apply list_elem_of_fmap_2.
Qed.

Lemma elem_of_alter {A} (f : A -> A) (i : nat) (l : list A) (x : A) :
  x ∈ alter f i l -> x ∈ l \/ exists y, l !! i = Some y /\ x = f y.
Proof.
  intros Hx. apply list_elem_of_lookup in Hx as [j Hj].
  rewrite list_lookup_alter in Hj. case_decide.
  - subst j. destruct (l !! i) as [y|] eqn:Hy; simpl in Hj; [|discriminate].
    injection Hj as <-. right. by exists y.
  - left. by eapply list_elem_of_lookup_2.
Qed.

Lemma elem_of_py_insert {A} (n : nat) (a : A) (l : list A) (x : A) :
  x ∈ py_insert n a l -> x = a \/ x ∈ l.
Proof.
  unfold py_insert. rewrite elem_of_app, elem_of_cons.
  rewrite <- (take_drop n l) at 3. rewrite elem_of_app. tauto.
Qed.

Lemma teams_within_alter (f : PlayerModel -> PlayerModel) (i : nat)
    (l : list PlayerModel) :
  (forall p, team (f p) = team p) -> teams_within (alter f i l) l.
Proof.
  intros Hf p Hp. apply elem_of_alter in Hp as [Hp|(q & Hq & ->)]; [eauto|].
  exists q. split; [by eapply list_elem_of_lookup_2|apply Hf].
Qed.

Lemma teams_within_placed (tokens : list string) (ps placed : list PlayerModel) :
  mapR (place_player tokens) ps = Ok placed -> teams_within placed ps.
Proof.
  intros H p Hp. apply mapR_Forall2 in H.
  apply list_elem_of_lookup in Hp as [i Hi].
  destruct (Forall2_lookup_r _ _ _ _ _ H Hi) as (q & Hq & Hplace).
  exists q. split; [by eapply list_elem_of_lookup_2|].
  unfold place_player in Hplace.
  destruct (py_index tokens (team q)); cbn [rbind] in Hplace; [|discriminate].
  destruct (py_int _); cbn [rbind or_raise] in Hplace; [|discriminate].
  by injection Hplace as <-.
Qed.

Lemma teams_within_ingested (db : DB) (now : datetime) (parsed : Parsed)
    (h reporter : string) (cloud : bool) (msg : string) :
  map team (players (match_id_to_discord db (new_match now parsed h reporter cloud msg)))
  = map pp_team (p_players parsed).
Proof.
  simpl. rewrite !map_map. apply map_ext. intros p. simpl.
  destruct (pp_steam_id p) as [s|]; [|reflexivity]. by destruct (negb _ && negb _).
Qed.

(** Every operation that runs the rating update on a stored match whose
    rows span at most one team (reorder, bind identity, insert and remove
    substitute, approval) raises and leaves the database, and so the rows of
    the match, as it was; so does the ingestion of a save whose players span
    at most one team, which stores nothing. *)
Lemma single_team_calls_raise (db : DB) :
  (forall match_id oid m,
        ObjectId_of_str match_id = Some oid ->
        find_by_id (pending_matches db) oid = Some m ->
        (num_teams m <= 1)%nat ->
        (forall new_order msg, exists e,
            change_order match_id new_order msg db = (Err e, db))
        /\ (forall player_id player_discord_id msg, exists e,
              assign_discord_id match_id player_id player_discord_id msg db = (Err e, db))
        /\ (forall sub_in_id sub_out_discord_id msg, exists e,
              assign_sub match_id sub_in_id sub_out_discord_id msg db = (Err e, db))
        /\ (forall sub_out_id msg, exists e,
              remove_sub match_id sub_out_id msg db = (Err e, db))
        /\ (forall fault now approver, exists e,
              approve_match fault now match_id approver db = (Err e, db)))
  /\ (forall now file_bytes reporter cloud msg parsed,
        _parse_save file_bytes = Ok parsed ->
        (length (remove_dups (map pp_team (p_players parsed))) <= 1)%nat ->
        find_by_hash (pending_matches db) (fingerprint parsed) = None ->
        exists e, create_from_save now file_bytes reporter cloud msg db = (Err e, db)).
Proof.
  split; [intros match_id oid m Hoid Hfind Hteams; repeat apply conj|].
  - intros new_order msg. rewrite (change_order_run _ _ _ _ _ _ Hoid Hfind).
    destruct (negb _); [by eexists|].
    destruct (mapR _ _) as [placed|e] eqn:Hplaced; [|by eexists].
    destruct (recompute_ratings_single_team db (set_players placed m)) as [e ->];
      [|by eexists].
    etrans; [apply num_teams_within; simpl; by eapply teams_within_placed|done].
  - intros player_id d msg.
    destruct (py_int player_id) as [pid|] eqn:Hpid.
    + rewrite (assign_discord_id_run _ _ _ _ _ _ _ _ Hoid Hfind Hpid).
      destruct (_ || _); [by eexists|]. cbv zeta.
      match goal with |- context [recompute_ratings db ?x] =>
        destruct (recompute_ratings_single_team db x) as [e ->]; [|by eexists] end.
      etrans; [apply num_teams_within; simpl; by apply teams_within_alter|done].
    + unfold assign_discord_id, _to_oid, find_pending.
      rewrite sbind_lift, Hoid. simpl. rewrite sbind_read, Hfind. simpl.
      rewrite sbind_lift, Hpid. by eexists.
  - intros sub_in_id d msg.
    destruct (py_int sub_in_id) as [i|] eqn:Hsid.
    + destruct (decide (0 <= i < Z.of_nat (length (players m)))) as [Hi|Hi];
        [|rewrite (assign_sub_out_of_range _ _ _ _ _ _ _ _ Hoid Hfind Hsid Hi);
          by eexists].
      destruct (assign_sub_run db _ _ d msg _ _ _ Hoid Hfind Hsid Hi)
        as (origin & Horigin & ->).
      match goal with |- context [recompute_ratings db ?x] =>
        destruct (recompute_ratings_single_team db x) as [e ->]; [|by eexists] end.
      etrans; [apply num_teams_within|exact Hteams]. simpl.
      intros p Hp. apply elem_of_py_insert in Hp as [->|Hp].
      * exists origin. split; [by eapply list_elem_of_lookup_2|reflexivity].
      * by apply (teams_within_alter (set_is_sub true)) in Hp.
    + unfold assign_sub, _to_oid, find_pending.
      rewrite sbind_lift, Hoid. simpl. rewrite sbind_read, Hfind. simpl.
      rewrite sbind_lift, Hsid. by eexists.
  - intros sub_out_id msg.
    destruct (py_int sub_out_id) as [i|] eqn:Hsid.
    + rewrite (remove_sub_run _ _ _ _ _ _ _ Hoid Hfind Hsid).
      destruct (_ || _ || _); [by eexists|].
      match goal with |- context [recompute_ratings db ?x] =>
        destruct (recompute_ratings_single_team db x) as [e ->]; [|by eexists] end.
      etrans; [apply num_teams_within|exact Hteams]. simpl.
      intros p Hp. apply list_elem_of_delete_inv in Hp.
      by apply (teams_within_alter (set_is_sub false)) in Hp.
    + unfold remove_sub, _to_oid, find_pending.
      rewrite sbind_lift, Hoid. simpl. rewrite sbind_read, Hfind. simpl.
      rewrite sbind_lift, Hsid. by eexists.
  - intros fault now approver. rewrite (approve_match_run _ _ _ _ _ _ _ Hoid Hfind).
    destruct (require_discord_ids _); [|by eexists].
    destruct (recompute_ratings_single_team db m Hteams) as [e ->]. by eexists.
  - intros now file_bytes reporter cloud msg parsed Hparse Hsingle Hnew.
    rewrite (create_from_save_run _ _ _ _ _ _ _ Hparse), Hnew.
    match goal with |- context [recompute_ratings db ?x] =>
      destruct (recompute_ratings_single_team db x) as [e ->]; [|by eexists] end.
    unfold num_teams. by rewrite teams_within_ingested.
Qed.

(** C4. The rating update of a match whose rows span at most one team does
    not come back with [(None, None)]: whatever the rankings, the attribute
    and the rating step are, it raises [AttributeError] at the report of line
    152, before the [return] of line 153 and before any rating step, so it
    hands back neither a match nor posteriors.  Hence [recompute_ratings]
    raises on such a match (that very error once the three rankings are
    read), every operation that reaches the update on such a match stored
    under [match_id] raises and leaves the database as it was, and so does
    the ingestion of a new save whose players span at most one team. *)
Theorem single_team_update_never_returns (db : DB) (m : MatchModel) :
  (num_teams m <= 1)%nat ->
  (forall pr f,
      update_player_stats (Some m) pr f = Err (PyException "AttributeError"))
  /\ (exists e, recompute_ratings db m = Err e)
  /\ (forall r1 r2 r3,
        get_players_ranking db m false false = Ok r1 ->
        get_players_ranking db m true false = Ok r2 ->
        get_players_ranking db m false true = Ok r3 ->
        recompute_ratings db m = Err (PyException "AttributeError"))
  /\ (forall match_id oid,
        ObjectId_of_str match_id = Some oid ->
        find_by_id (pending_matches db) oid = Some m ->
        (forall new_order msg, exists e,
            change_order match_id new_order msg db = (Err e, db))
        /\ (forall player_id player_discord_id msg, exists e,
              assign_discord_id match_id player_id player_discord_id msg db = (Err e, db))
        /\ (forall sub_in_id sub_out_discord_id msg, exists e,
              assign_sub match_id sub_in_id sub_out_discord_id msg db = (Err e, db))
        /\ (forall sub_out_id msg, exists e,
              remove_sub match_id sub_out_id msg db = (Err e, db))
        /\ (forall fault now approver, exists e,
              approve_match fault now match_id approver db = (Err e, db)))
  /\ (forall now file_bytes reporter cloud msg parsed,
        _parse_save file_bytes = Ok parsed ->
        (length (remove_dups (map pp_team (p_players parsed))) <= 1)%nat ->
        find_by_hash (pending_matches db) (fingerprint parsed) = None ->
        exists e, create_from_save now file_bytes reporter cloud msg db = (Err e, db)).
Proof.
  intros Hle. destruct (single_team_calls_raise db) as [Hstored Hnew].
  split; [intros pr f; by apply single_team_update_raises|].
  split; [by apply recompute_ratings_single_team|].
  split; [intros r1 r2 r3; by apply recompute_ratings_single_team_raises|].
  split; [|exact Hnew].
  intros match_id oid Hoid Hfind. by apply (Hstored match_id oid m).
Qed.

(** ** Ingestion *)

Lemma find_by_hash_app_new (c : list (nat * MatchModel)) (oid : nat) (m : MatchModel) :
  find_by_hash c (save_file_hash m) = None ->
  find_by_hash (c ++ [(oid, m)]) (save_file_hash m) = Some (oid, m).
Proof.
  unfold find_by_hash. induction c as [|d c IH]; simpl.
  - by rewrite String.eqb_refl.
  - destruct (String.eqb _ _); [discriminate|exact IH].
Qed.

Lemma find_by_hash_Some (c : list (nat * MatchModel)) (h : string) (d : nat * MatchModel) :
  find_by_hash c h = Some d -> d ∈ c /\ save_file_hash (snd d) = h.
Proof.
  unfold find_by_hash. intros H. apply List.find_some in H as [Hin Heq].
  split; [by apply list_elem_of_In|by apply String.eqb_eq].
Qed.

Lemma commas_app (a b : string) : commas (a +:+ b) = (commas a + commas b)%nat.
Proof. induction a as [|c a IH]; simpl; [reflexivity|]. rewrite IH. lia. Qed.

Lemma concat_cons_cons (sep a b : string) (l : list string) :
  String.concat sep (a :: b :: l) = a +:+ sep +:+ String.concat sep (b :: l).
Proof. reflexivity. Qed.

(** Two comma-free words followed by a comma are the same word. *)
Lemma append_comma_inj (a b x y : string) :
  commas a = 0%nat -> commas b = 0%nat ->
  a +:+ "," +:+ x = b +:+ "," +:+ y -> a = b /\ x = y.
Proof.
  revert b. induction a as [|c a IH]; intros [|c' b] Ha Hb H.
  - change (String "," x = String "," y) in H. injection H as <-. by split.
  - change (String "," x = String c' (b +:+ "," +:+ y)) in H.
    injection H as <- _. discriminate Hb.
  - change (String c (a +:+ "," +:+ x) = String "," y) in H.
    injection H as -> _. discriminate Ha.
  - change (String c (a +:+ "," +:+ x) = String c' (b +:+ "," +:+ y)) in H.
    injection H as <- H. simpl in Ha, Hb.
    destruct (IH b) as [-> ->]; [| |exact H|by split];
      by destruct (Ascii.eqb c ",").
Qed.

(** Joining with commas is injective on non-empty lists of comma-free
    words. *)
Lemma concat_comma_inj (l k : list string) :
  l <> [] -> k <> [] ->
  Forall (fun w => commas w = 0%nat) l -> Forall (fun w => commas w = 0%nat) k ->
  String.concat "," l = String.concat "," k -> l = k.
Proof.
  revert k. induction l as [|a l IH]; intros [|b k] Hl Hk Fl Fk H; try done.
  apply Forall_cons in Fl as [Ha Fl]. apply Forall_cons in Fk as [Hb Fk].
  destruct l as [|a' l], k as [|b' k].
  - change (a = b) in H. by subst.
  - exfalso. rewrite concat_cons_cons in H. change (String.concat "," [a]) with a in H.
    subst a. rewrite !commas_app in Ha. simpl in Ha. lia.
  - exfalso. rewrite concat_cons_cons in H. change (String.concat "," [b]) with b in H.
    subst b. rewrite !commas_app in Hb. simpl in Hb. lia.
  - rewrite !concat_cons_cons in H.
    apply append_comma_inj in H as [-> H]; [|exact Ha|exact Hb].
    f_equal. by apply IH.
Qed.

(** C3. Ingestion is idempotent on content.  The fingerprint of a parsed
    match is the digest of its game title, its map type and the civilization
    and leader of each of its players, in order, joined by commas: so it is
    determined by these, and, where none of them contains a comma and the
    digest does not make the two texts collide, it tells apart any two
    matches that differ in one of them.  The answer of an ingestion carries
    the fingerprint of what was parsed.  A submission whose fingerprint is
    that of a stored pending match returns that record, marked as a repeat,
    and leaves the database as it was: nothing is inserted, and the answer
    does not depend on the rating step, which is not run.  So a submission
    that succeeded, submitted again, returns the same match reference and
    the same record, and changes nothing. *)
Theorem create_from_save_idempotent :
  (forall p : Parsed,
      fingerprint p
      = sha256_hexdigest
          (String.concat ","
             (p_game p :: p_map_type p
              :: map (fun x => pp_civ x +:+ default "" (pp_leader x)) (p_players p))))
  /\ (forall p q : Parsed,
        p_game p = p_game q -> p_map_type p = p_map_type q ->
        map (fun x => (pp_civ x, pp_leader x)) (p_players p)
        = map (fun x => (pp_civ x, pp_leader x)) (p_players q) ->
        fingerprint p = fingerprint q)
  /\ (forall p q : Parsed,
        let names (x : Parsed) :=
          p_game x :: p_map_type x
          :: map (fun y => pp_civ y +:+ default "" (pp_leader y)) (p_players x) in
        Forall (fun w => commas w = 0%nat) (names p) ->
        Forall (fun w => commas w = 0%nat) (names q) ->
        (sha256_hexdigest (String.concat "," (names p))
         = sha256_hexdigest (String.concat "," (names q)) ->
         String.concat "," (names p) = String.concat "," (names q)) ->
        fingerprint p = fingerprint q -> names p = names q)
  /\ (forall db db' now file_bytes reporter cloud msg r,
        create_from_save now file_bytes reporter cloud msg db = (Ok r, db') ->
        exists parsed,
          _parse_save file_bytes = Ok parsed
          /\ save_file_hash (r_match r) = fingerprint parsed)
  /\ (forall db now file_bytes reporter cloud msg parsed oid m,
        _parse_save file_bytes = Ok parsed ->
        find_by_hash (pending_matches db) (fingerprint parsed) = Some (oid, m) ->
        create_from_save now file_bytes reporter cloud msg db
        = (Ok (mkResponse (str_of_ObjectId oid) m (Some true)), db))
  /\ (forall db db1 now file_bytes reporter cloud msg r,
        create_from_save now file_bytes reporter cloud msg db = (Ok r, db1) ->
        forall now2 reporter2 cloud2 msg2,
          create_from_save now2 file_bytes reporter2 cloud2 msg2 db1
          = (Ok (mkResponse (r_match_id r) (r_match r) (Some true)), db1)).
Proof.
  split; [|split; [|split; [|split; [|split]]]].
  - reflexivity.
  - intros p q Hgame Hmap Hplayers. unfold fingerprint, unique_data.
    rewrite Hgame, Hmap. do 4 f_equal.
    apply (f_equal (map (fun cl => String.append (fst cl) (default "" (snd cl)))))
      in Hplayers.
    by rewrite !map_map in Hplayers.
  - intros p q names Fp Fq Hdigest Hfp.
    apply concat_comma_inj; [done|done|exact Fp|exact Fq|]. by apply Hdigest.
  - intros db db' now file_bytes reporter cloud msg r Hrun.
    destruct (_parse_save file_bytes) as [parsed|e] eqn:Hparse;
      [|unfold create_from_save in Hrun; rewrite sbind_lift, Hparse in Hrun;
        discriminate].
    exists parsed. split; [reflexivity|].
    rewrite (create_from_save_run _ _ _ _ _ _ _ Hparse) in Hrun.
    destruct (find_by_hash (pending_matches db) _) as [res|] eqn:Hfound.
    + injection Hrun as <- <-. simpl. by apply find_by_hash_Some in Hfound as [_ ?].
    + destruct (recompute_ratings db _) as [[[[[m'|] p1] p2] p3]|e] eqn:Hrec;
        try discriminate.
      injection Hrun as <- <-. simpl.
      apply recompute_ratings_Ok in Hrec as (_ & m0 & [= <-] & _ & Hrest).
      by apply (f_equal save_file_hash) in Hrest.
  - intros db now file_bytes reporter cloud msg parsed oid m Hparse Hfound.
    by rewrite (create_from_save_run _ _ _ _ _ _ _ Hparse), Hfound.
  - intros db db1 now file_bytes reporter cloud msg r Hrun now2 reporter2 cloud2 msg2.
    destruct (_parse_save file_bytes) as [parsed|e] eqn:Hparse;
      [|unfold create_from_save in Hrun; rewrite sbind_lift, Hparse in Hrun;
        discriminate].
    rewrite (create_from_save_run _ _ _ _ _ _ _ Hparse) in Hrun.
    rewrite (create_from_save_run _ _ _ _ _ _ _ Hparse).
    destruct (find_by_hash (pending_matches db) _) as [res|] eqn:Hfound.
    + injection Hrun as <- <-. by rewrite Hfound.
    + destruct (recompute_ratings db _) as [[[[[m'|] p1] p2] p3]|e] eqn:Hrec;
        try discriminate.
      injection Hrun as <- <-. simpl.
      apply recompute_ratings_Ok in Hrec as (_ & m0 & [= <-] & _ & Hrest).
      apply (f_equal save_file_hash) in Hrest. simpl in Hrest.
      rewrite <- Hrest in *. by rewrite (find_by_hash_app_new _ _ _ Hfound).
Qed.

(** ** The substitution flags *)

Lemma flags_ok_erase (p q : PlayerModel) :
  erase_deltas p = erase_deltas q -> flags_ok p = flags_ok q.
Proof.
  intros H. unfold flags_ok.
  by destruct (erase_deltas_eq_fields _ _ H) as (_ & _ & _ & _ & _ & -> & -> & _).
Qed.

Lemma flags_ok_rows_erase (ps qs : list PlayerModel) :
  map erase_deltas ps = map erase_deltas qs ->
  Forall (fun p => flags_ok p = true) qs -> Forall (fun p => flags_ok p = true) ps.
Proof.
  intros H Hqs. apply Forall_lookup. intros i p Hp.
  destruct (map_erase_lookup _ _ _ _ H Hp) as (q & Hq & Hpq).
  rewrite (flags_ok_erase _ _ Hpq). by eapply (proj1 (Forall_lookup _ _) Hqs).
Qed.

Lemma flags_ok_patch (f : PlayerModel -> PlayerModel -> PlayerModel)
    (computed stored : list PlayerModel) :
  (forall c s, flags_ok (f c s) = flags_ok s) ->
  Forall (fun p => flags_ok p = true) stored ->
  Forall (fun p => flags_ok p = true) (patch_players f computed stored).
Proof.
  intros Hf Hstored. revert computed.
  induction Hstored as [|s ss Hs Hss IH]; intros [|c cs]; simpl.
  - constructor.
  - constructor.
  - by constructor.
  - constructor; [by rewrite Hf|apply IH].
Qed.

Lemma flags_ok_alter (f : PlayerModel -> PlayerModel) (i : nat) (l : list PlayerModel) :
  (forall p, l !! i = Some p -> flags_ok (f p) = true) ->
  Forall (fun p => flags_ok p = true) l ->
  Forall (fun p => flags_ok p = true) (alter f i l).
Proof.
  intros Hf Hl. apply Forall_forall. intros p Hp.
  apply elem_of_alter in Hp as [Hp|(q & Hq & ->)]; [|by apply Hf].
  by apply (proj1 (Forall_forall _ _) Hl).
Qed.

Lemma pending_flags_modify (f : MatchModel -> MatchModel) (oid : nat)
    (c : list (nat * MatchModel)) :
  pending_flags_ok c ->
  (forall m, find_by_id c oid = Some m -> match_flags_ok m -> match_flags_ok (f m)) ->
  pending_flags_ok (modify_by_id f oid c).
Proof.
  unfold pending_flags_ok, find_by_id. intros Hc.
  induction Hc as [|[k d] c Hd Hc IH]; intros Hf; simpl; [constructor|].
  simpl in Hf. destruct (Nat.eqb k oid); constructor; auto.
  simpl. by apply Hf.
Qed.

Lemma trigger_quit_run (db : DB) (match_id quitter msg : string)
    (oid : nat) (m : MatchModel) :
  ObjectId_of_str match_id = Some oid ->
  find_by_id (pending_matches db) oid = Some m ->
  let changes stored :=
    set_discord_messages_id_list (discord_messages_id_list m ++ [msg])
      (set_players
         (patch_players (fun c s => set_quit (quit c) s)
            (toggle_first_quit quitter (players m)) (players stored))
         stored) in
  snd (trigger_quit match_id quitter msg db)
  = set_pending (modify_by_id changes oid (pending_matches db)) db.
Proof.
  intros Hoid Hfind changes. unfold trigger_quit, _to_oid, find_pending.
  rewrite sbind_lift, Hoid. cbn [or_raise]. rewrite sbind_read, Hfind. cbn [or_raise].
  by rewrite (update_then_fetch _ _ _ _ Hfind).
Qed.

Lemma append_discord_message_id_list_run (db : DB) (match_id : string)
    (ids : list string) (oid : nat) (m : MatchModel) :
  ObjectId_of_str match_id = Some oid ->
  find_by_id (pending_matches db) oid = Some m ->
  snd (append_discord_message_id_list match_id ids db)
  = set_pending
      (modify_by_id (set_discord_messages_id_list (discord_messages_id_list m ++ ids))
         oid (pending_matches db)) db.
Proof.
  intros Hoid Hfind. unfold append_discord_message_id_list, _to_oid, find_pending.
  rewrite sbind_lift, Hoid. cbn [or_raise]. rewrite sbind_read, Hfind. cbn [or_raise].
  by rewrite (update_then_fetch _ _ _ _ Hfind).
Qed.

Lemma flags_ok_ingested (db : DB) (now : datetime) (parsed : Parsed)
    (h reporter : string) (cloud : bool) (msg : string) :
  match_flags_ok (match_id_to_discord db (new_match now parsed h reporter cloud msg)).
Proof.
  unfold match_flags_ok. simpl. rewrite !Forall_map. apply Forall_forall.
  intros p _. simpl. destruct (pp_steam_id p) as [s|]; [|reflexivity].
  by destruct (negb _ && negb _).
Qed.

(** A method leaves the database alone when the match reference is
    malformed or names no pending match. *)
Ltac no_such_match Hoid Hfind :=
  unfold _to_oid, find_pending; rewrite sbind_lift, Hoid; cbn [or_raise];
  try (rewrite sbind_read, Hfind; cbn [or_raise]); assumption.

(** A mutation or an ingestion other than the substitution of a
    substituted-out row keeps the flags of every pending match apart. *)
Lemma run_keeps_flags (c : Call) (db : DB) :
  pending_flags_ok (pending_matches db) -> subs_a_sub_out c db = false ->
  pending_flags_ok (pending_matches (snd (run c db))).
Proof.
  intros Hok Hplain. destruct c; simpl run.
  - (* ingestion *)
    destruct (_parse_save file_bytes) as [parsed|e] eqn:Hparse;
      [|by unfold create_from_save; rewrite sbind_lift, Hparse].
    rewrite (create_from_save_run _ _ _ _ _ _ _ Hparse).
    destruct (find_by_hash _ _); [assumption|].
    destruct (recompute_ratings db _) as [[[[[m'|] p1] p2] p3]|e] eqn:Hrec;
      try assumption.
    simpl. apply Forall_app. split; [assumption|]. constructor; [|constructor]. simpl.
    apply recompute_ratings_Ok in Hrec as (_ & m0 & [= <-] & Hrows & _).
    eapply flags_ok_rows_erase; [exact Hrows|apply flags_ok_ingested].
  - (* reorder *)
    destruct (ObjectId_of_str match_id) as [oid|] eqn:Hoid;
      [|unfold change_order; no_such_match Hoid Hoid].
    destruct (find_by_id (pending_matches db) oid) as [m|] eqn:Hfind;
      [|unfold change_order; no_such_match Hoid Hfind].
    rewrite (change_order_run _ _ _ _ _ _ Hoid Hfind).
    destruct (negb _); [assumption|]. destruct (mapR _ _); [|assumption].
    destruct (recompute_ratings db _) as [[[[[m'|] p1] p2] p3]|e]; try assumption.
    simpl. apply pending_flags_modify; [assumption|]. intros m0 _ Hm0.
    unfold match_flags_ok, change_order_changes. simpl. by apply flags_ok_patch.
  - (* toggle quit *)
    destruct (ObjectId_of_str match_id) as [oid|] eqn:Hoid;
      [|unfold trigger_quit; no_such_match Hoid Hoid].
    destruct (find_by_id (pending_matches db) oid) as [m|] eqn:Hfind;
      [|unfold trigger_quit; no_such_match Hoid Hfind].
    rewrite (trigger_quit_run _ _ _ _ _ _ Hoid Hfind).
    simpl. apply pending_flags_modify; [assumption|]. intros m0 _ Hm0.
    unfold match_flags_ok. simpl. by apply flags_ok_patch.
  - (* bind identity *)
    destruct (ObjectId_of_str match_id) as [oid|] eqn:Hoid;
      [|unfold assign_discord_id; no_such_match Hoid Hoid].
    destruct (find_by_id (pending_matches db) oid) as [m|] eqn:Hfind;
      [|unfold assign_discord_id; no_such_match Hoid Hfind].
    destruct (py_int player_id) as [pid|] eqn:Hpid.
    2:{ unfold assign_discord_id, _to_oid, find_pending.
        rewrite sbind_lift, Hoid. cbn [or_raise]. rewrite sbind_read, Hfind.
        cbn [or_raise]. by rewrite sbind_lift, Hpid. }
    rewrite (assign_discord_id_run _ _ _ _ _ _ _ _ Hoid Hfind Hpid).
    destruct (_ || _); [assumption|]. cbv zeta.
    destruct (recompute_ratings db _) as [[[[[m'|] p1] p2] p3]|e]; try assumption.
    destruct (py_get _ _); [|assumption].
    simpl. apply pending_flags_modify; [assumption|]. intros m0 _ Hm0.
    unfold match_flags_ok, assign_discord_id_changes. simpl.
    apply flags_ok_patch; [done|]. apply flags_ok_alter; [|assumption].
    intros p Hp. apply (proj1 (Forall_lookup _ _) Hm0 _ _ Hp).
  - (* insert substitute *)
    destruct (ObjectId_of_str match_id) as [oid|] eqn:Hoid;
      [|unfold assign_sub; no_such_match Hoid Hoid].
    destruct (find_by_id (pending_matches db) oid) as [m|] eqn:Hfind;
      [|unfold assign_sub; no_such_match Hoid Hfind].
    destruct (py_int sub_in_id) as [i|] eqn:Hsid.
    2:{ unfold assign_sub, _to_oid, find_pending.
        rewrite sbind_lift, Hoid. cbn [or_raise]. rewrite sbind_read, Hfind.
        cbn [or_raise]. by rewrite sbind_lift, Hsid. }
    destruct (decide (0 <= i < Z.of_nat (length (players m)))) as [Hi|Hi];
      [|by rewrite (assign_sub_out_of_range _ _ _ _ _ _ _ _ Hoid Hfind Hsid Hi)].
    destruct (assign_sub_run db _ _ sub_out_discord_id discord_message_id _ _ _
                Hoid Hfind Hsid Hi) as (origin & Horigin & ->).
    destruct (recompute_ratings db _) as [[[[[m'|] p1] p2] p3]|e] eqn:Hrec;
      try assumption.
    simpl. apply pending_flags_modify; [assumption|]. intros m0 Hfind0 Hm0.
    rewrite Hfind in Hfind0. injection Hfind0 as <-.
    apply recompute_ratings_Ok in Hrec as (_ & m1 & [= <-] & Hrows & _).
    unfold match_flags_ok. simpl. eapply flags_ok_rows_erase; [exact Hrows|]. simpl.
    simpl in Hplain. rewrite Hoid, Hsid, Hfind, Horigin in Hplain. simpl in Hplain.
    destruct (Z.leb_spec 0 i); [|lia]. simpl in Hplain.
    apply Forall_forall. intros p Hp. apply elem_of_py_insert in Hp as [->|Hp].
    + reflexivity.
    + revert p Hp. apply Forall_forall. apply flags_ok_alter; [|assumption].
      intros p Hp. rewrite Horigin in Hp. injection Hp as <-.
      unfold flags_ok. simpl. by rewrite Hplain.
  - (* remove substitute *)
    destruct (ObjectId_of_str match_id) as [oid|] eqn:Hoid;
      [|unfold remove_sub; no_such_match Hoid Hoid].
    destruct (find_by_id (pending_matches db) oid) as [m|] eqn:Hfind;
      [|unfold remove_sub; no_such_match Hoid Hfind].
    destruct (py_int sub_out_id) as [i|] eqn:Hsid.
    2:{ unfold remove_sub, _to_oid, find_pending.
        rewrite sbind_lift, Hoid. cbn [or_raise]. rewrite sbind_read, Hfind.
        cbn [or_raise]. by rewrite sbind_lift, Hsid. }
    rewrite (remove_sub_run _ _ _ _ _ _ _ Hoid Hfind Hsid).
    destruct (_ || _ || _); [assumption|].
    destruct (recompute_ratings db _) as [[[[[m'|] p1] p2] p3]|e] eqn:Hrec;
      try assumption.
    simpl. apply pending_flags_modify; [assumption|]. intros m0 Hfind0 Hm0.
    rewrite Hfind in Hfind0. injection Hfind0 as <-.
    apply recompute_ratings_Ok in Hrec as (_ & m1 & [= <-] & Hrows & _).
    unfold match_flags_ok. simpl. eapply flags_ok_rows_erase; [exact Hrows|]. simpl.
    apply Forall_forall. intros p Hp. apply list_elem_of_delete_inv in Hp.
    revert p Hp. apply Forall_forall. apply flags_ok_alter; [|assumption].
    intros p _. unfold flags_ok. reflexivity.
  - (* append correlation ids *)
    destruct (ObjectId_of_str match_id) as [oid|] eqn:Hoid;
      [|unfold append_discord_message_id_list; no_such_match Hoid Hoid].
    destruct (find_by_id (pending_matches db) oid) as [m|] eqn:Hfind;
      [|unfold append_discord_message_id_list; no_such_match Hoid Hfind].
    rewrite (append_discord_message_id_list_run _ _ _ _ _ Hoid Hfind).
    simpl. apply pending_flags_modify; [assumption|]. by intros m0 _ Hm0.
Qed.

(** C10. Starting from pending matches whose rows have at most one of
    [is_sub] and [subbed_out] set (no pending match at all, for instance),
    ingestion and the mutation operations keep it so for every row of every
    pending match, as long as no substitute is inserted at a slot that holds
    a substituted-out row. *)
Theorem flags_exclusive_without_sub_of_sub_out (init db : DB) :
  pending_flags_ok (pending_matches init) ->
  reachable_plain init db ->
  pending_flags_ok (pending_matches db).
Proof.
  intros Hinit Hreach. induction Hreach as [|db c _ IH Hplain]; [exact Hinit|].
  by apply run_keeps_flags.
Qed.

(** ** Binding an identity *)

Lemma map_patch_players {B} (h : PlayerModel -> B)
    (f : PlayerModel -> PlayerModel -> PlayerModel) (computed stored : list PlayerModel) :
  (forall c s, h (f c s) = h s) ->
  map h (patch_players f computed stored) = map h stored.
Proof.
  intros Hf. revert computed.
  induction stored as [|s ss IH]; intros [|c cs]; simpl; try reflexivity.
  by rewrite Hf, IH.
Qed.

(** Whatever the rating update computes, a successful [assign_discord_id]
    leaves the stored [combined_delta] of every row as it was: the [$set]
    carries [delta] and [season_delta] only. *)
Lemma assign_discord_id_keeps_combined_delta (db db' : DB)
    (match_id player_id player_discord_id msg : string) (oid : nat) (m : MatchModel)
    (r : Response) :
  ObjectId_of_str match_id = Some oid ->
  find_by_id (pending_matches db) oid = Some m ->
  assign_discord_id match_id player_id player_discord_id msg db = (Ok r, db') ->
  find_by_id (pending_matches db') oid = Some (r_match r)
  /\ map combined_delta (players (r_match r)) = map combined_delta (players m).
Proof.
  intros Hoid Hfind Hrun.
  destruct (py_int player_id) as [pid|] eqn:Hpid.
  2:{ unfold assign_discord_id, _to_oid, find_pending in Hrun.
      rewrite sbind_lift, Hoid in Hrun. cbn [or_raise] in Hrun.
      rewrite sbind_read, Hfind in Hrun. cbn [or_raise] in Hrun.
      rewrite sbind_lift, Hpid in Hrun. discriminate. }
  rewrite (assign_discord_id_run _ _ _ _ _ _ _ _ Hoid Hfind Hpid) in Hrun.
  destruct (_ || _); [discriminate|]. cbv zeta in Hrun.
  destruct (recompute_ratings db _) as [[[[[m'|] p1] p2] p3]|e]; try discriminate.
  destruct (py_get _ _); [|discriminate].
  injection Hrun as <- <-. simpl. rewrite find_modify_by_id, Hfind.
  split; [reflexivity|].
  rewrite map_patch_players by done.
  change (map combined_delta) with (fmap (M := list) combined_delta).
  rewrite (list_fmap_alter _ _ id) by (by apply Forall_forall).
  by apply list_alter_id.
Qed.

End Properties.

(** * Further properties of the service *)

Section Further.

Context {E : Externals}.

(** ** What a rating update writes *)

Lemma get_delta_set_other (f g : DeltaField) (v : Z) (p : PlayerModel) :
  f <> g -> get_delta g (set_delta f v p) = get_delta g p.
Proof. by destruct f, g. Qed.

Lemma set_delta_fields (f : DeltaField) (v : Z) (p : PlayerModel) :
  discord_id (set_delta f v p) = discord_id p
  /\ is_sub (set_delta f v p) = is_sub p
  /\ subbed_out (set_delta f v p) = subbed_out p.
Proof. by destruct f. Qed.

(** The rows and the posteriors that a rating update returns, row by row. *)
Lemma update_player_stats_rows (m m' : MatchModel) (pr post' : list StatModel)
    (f : DeltaField) :
  update_player_stats (Some m) pr f = Ok (Some m', Some post') ->
  exists post,
    posteriors m pr = Ok post
    /\ length (players m') = length (players m)
    /\ length post' = length (players m)
    /\ erase_players m' = erase_players m
    /\ forall i p, players m !! i = Some p ->
       exists cur d merged,
         pr !! i = Some cur /\ computed_delta p post i cur = Ok d
         /\ post !! i = Some (Some merged)
         /\ players m' !! i = Some (set_delta f (stored_delta p d) p)
         /\ post' !! i = Some (set_mu (fadd_int (mu cur) (stored_delta p d)) merged).
Proof.
  intros H. apply update_player_stats_Ok in H
    as (m0 & post & out & [= <-] & _ & Hpost & Hout & [= ->] & [= ->]).
  pose proof (mapR_length _ _ _ Hout) as Hlen.
  unfold enumerate in Hlen. rewrite enumerate_from_length in Hlen.
  exists post. split; [exact Hpost|]. simpl. rewrite !length_map.
  split; [exact Hlen|]. split; [exact Hlen|]. split; [reflexivity|].
  intros i p Hp. apply mapR_Forall2 in Hout.
  assert (Hen : enumerate (players m) !! i = Some (i, p))
    by (by rewrite enumerate_lookup, Hp).
  destruct (Forall2_lookup_l _ _ _ _ _ Hout Hen) as ([p' s'] & Ho & Hx).
  apply apply_delta_Ok in Hx as (cur & d & merged & Hcur & Hd & Hm & -> & ->).
  exists cur, d, merged. split; [exact Hcur|]. split; [exact Hd|]. split; [exact Hm|].
  change (map fst out) with (fmap (M := list) fst out).
  change (map snd out) with (fmap (M := list) snd out).
  by rewrite !list_lookup_fmap, Ho.
Qed.

(** X1. The posterior that a rating update returns for a row is the merged
    TrueSkill posterior of that row with its mean replaced by the prior mean
    plus the delta stored on the row: deltas, not raw posterior means, are
    what the caller gets. *)
Theorem update_player_stats_posterior_mean (m m' : MatchModel)
    (pr post' : list StatModel) (f : DeltaField) :
  update_player_stats (Some m) pr f = Ok (Some m', Some post') ->
  exists post,
    posteriors m pr = Ok post
    /\ length post' = length (players m')
    /\ forall i s, post' !! i = Some s ->
       exists cur merged p' d,
         pr !! i = Some cur /\ post !! i = Some (Some merged)
         /\ players m' !! i = Some p' /\ get_delta f p' = Some d
         /\ mu s = fadd_int (mu cur) d
         /\ s = set_mu (mu s) merged.
Proof.
  intros H. apply update_player_stats_rows in H as (post & Hpost & Hl1 & Hl2 & _ & Hrows).
  exists post. split; [exact Hpost|]. split; [congruence|].
  intros i s Hs.
  destruct (lookup_lt_is_Some_2 (players m) i) as [p Hp];
    [rewrite <- Hl2; by eapply lookup_lt_Some|].
  destruct (Hrows i p Hp) as (cur & d & merged & Hcur & _ & Hm & Hp' & Hs').
  rewrite Hs in Hs'. injection Hs' as ->.
  exists cur, merged, (set_delta f (stored_delta p d) p), (stored_delta p d).
  repeat split; try assumption. apply get_set_delta.
Qed.

(** X2. A rating update of a match with at least two teams keeps the number
    and the order of the rows, changes on each row nothing but the delta
    attribute it was called with, which it always sets, and changes nothing
    else of the match. *)
Theorem update_player_stats_touches_one_field (m m' : MatchModel)
    (pr : list StatModel) (f : DeltaField) (po : option (list StatModel)) :
  update_player_stats (Some m) pr f = Ok (Some m', po) ->
  length (players m') = length (players m)
  /\ erase_players m' = erase_players m
  /\ forall i p', players m' !! i = Some p' ->
     exists p v, players m !! i = Some p /\ p' = set_delta f v p
       /\ get_delta f p' = Some v
       /\ forall g, g <> f -> get_delta g p' = get_delta g p.
Proof.
  intros H.
  assert (exists post', po = Some post') as [post' ->].
  { apply update_player_stats_Ok in H as (? & ? & ? & _ & _ & _ & _ & _ & ->).
    by eexists. }
  apply update_player_stats_rows in H as (post & _ & Hl1 & _ & Hrest & Hrows).
  split; [exact Hl1|]. split; [exact Hrest|]. intros i p' Hp'.
  destruct (lookup_lt_is_Some_2 (players m) i) as [p Hp];
    [rewrite <- Hl1; by eapply lookup_lt_Some|].
  destruct (Hrows i p Hp) as (cur & d & merged & _ & _ & _ & Hp'' & _).
  rewrite Hp' in Hp''. injection Hp'' as ->.
  exists p, (stored_delta p d). split; [exact Hp|]. split; [reflexivity|].
  split; [apply get_set_delta|]. intros g Hg. by apply get_delta_set_other.
Qed.

(** ** The three updates of an operation *)

(** The three updates that a returning [recompute_ratings] ran. *)
Lemma recompute_ratings_runs (db : DB) (m : MatchModel) (o : option MatchModel)
    (p1 p2 p3 : option (list StatModel)) :
  recompute_ratings db m = Ok (o, p1, p2, p3) ->
  exists r1 r2 r3 m1 m2 m3 q1 q2 q3,
    get_players_ranking db m false false = Ok r1
    /\ get_players_ranking db m true false = Ok r2
    /\ get_players_ranking db m false true = Ok r3
    /\ update_player_stats (Some m) r1 Fdelta = Ok (Some m1, Some q1)
    /\ update_player_stats (Some m1) r2 Fseason_delta = Ok (Some m2, Some q2)
    /\ update_player_stats (Some m2) r3 Fcombined_delta = Ok (Some m3, Some q3)
    /\ o = Some m3 /\ p1 = Some q1 /\ p2 = Some q2 /\ p3 = Some q3.
Proof.
  intros H. pose proof (recompute_ratings_Ok _ _ _ _ _ _ H) as (_ & m3 & -> & _).
  unfold recompute_ratings in H.
  destruct (get_players_ranking db m false false) as [r1|]; cbn [rbind] in H;
    [|discriminate].
  destruct (get_players_ranking db m true false) as [r2|]; cbn [rbind] in H;
    [|discriminate].
  destruct (get_players_ranking db m false true) as [r3|]; cbn [rbind] in H;
    [|discriminate].
  destruct (update_player_stats (Some m) r1 Fdelta) as [[o1 q1]|] eqn:H1;
    cbn [rbind fst snd] in H; [|discriminate].
  destruct (update_player_stats o1 r2 Fseason_delta) as [[o2 q2]|] eqn:H2;
    cbn [rbind fst snd] in H; [|discriminate].
  destruct (update_player_stats o2 r3 Fcombined_delta) as [[o3 q3]|] eqn:H3;
    cbn [rbind fst snd] in H; [|discriminate].
  injection H as -> <- <- <-.
  destruct o2 as [m2|]; [|discriminate]. destruct o1 as [m1|]; [|discriminate].
  assert (Hsome : forall a pr f b q, update_player_stats (Some a) pr f = Ok (Some b, q) ->
                    exists q', q = Some q').
  { intros a pr f b q Hu.
    apply update_player_stats_Ok in Hu as (? & ? & ? & _ & _ & _ & _ & _ & ->).
    by eexists. }
  destruct (Hsome _ _ _ _ _ H1) as [q1' ->]. destruct (Hsome _ _ _ _ _ H2) as [q2' ->].
  destruct (Hsome _ _ _ _ _ H3) as [q3' ->].
  by exists r1, r2, r3, m1, m2, m3, q1', q2', q3'.
Qed.

Lemma stored_delta_within_policy (p : PlayerModel) (post : list (option StatModel))
    (i : nat) (cur : StatModel) (d : Z) :
  computed_delta p post i cur = Ok d -> within_policy p (stored_delta p d).
Proof.
  unfold computed_delta, within_policy, stored_delta. intros Hd.
  destruct (is_sub p), (subbed_out p), (Z.ltb_spec d 0), (discord_id p);
    try injection Hd as <-; repeat split; intros; try discriminate; lia.
Qed.

(** X3. After the three rating updates of an operation, every row is its
    old self with the three delta attributes set, and each of the three
    stored values obeys the substitute policy: at least the configured
    minimum on a substitute-in row, at most 0 on a substituted-out row that
    is not a substitute-in, 0 on an unbound row that is not a substitute-in,
    and [max(minimum, 0)] on an unbound substitute-in row. *)
Theorem recompute_ratings_within_policy (db : DB) (m m' : MatchModel)
    (p1 p2 p3 : option (list StatModel)) :
  recompute_ratings db m = Ok (Some m', p1, p2, p3) ->
  length (players m') = length (players m)
  /\ forall i p', players m' !! i = Some p' ->
     exists p d sd cd,
       players m !! i = Some p
       /\ p' = set_delta Fcombined_delta cd (set_delta Fseason_delta sd
                 (set_delta Fdelta d p))
       /\ delta p' = d /\ season_delta p' = Some sd /\ combined_delta p' = Some cd
       /\ within_policy p d /\ within_policy p sd /\ within_policy p cd.
Proof.
  intros H. apply recompute_ratings_runs in H
    as (r1 & r2 & r3 & m1 & m2 & m3 & q1 & q2 & q3 & _ & _ & _ & H1 & H2 & H3
        & [= <-] & _).
  apply update_player_stats_rows in H1 as (post1 & _ & Hl1 & _ & _ & Hrows1).
  apply update_player_stats_rows in H2 as (post2 & _ & Hl2 & _ & _ & Hrows2).
  apply update_player_stats_rows in H3 as (post3 & _ & Hl3 & _ & _ & Hrows3).
  split; [congruence|]. intros i p' Hp'.
  destruct (lookup_lt_is_Some_2 (players m) i) as [p Hp];
    [rewrite <- Hl1, <- Hl2, <- Hl3; by eapply lookup_lt_Some|].
  destruct (Hrows1 i p Hp) as (c1 & d1 & _ & _ & Hd1 & _ & Hp1 & _).
  destruct (Hrows2 i _ Hp1) as (c2 & d2 & _ & _ & Hd2 & _ & Hp2 & _).
  destruct (Hrows3 i _ Hp2) as (c3 & d3 & _ & _ & Hd3 & _ & Hp3 & _).
  rewrite Hp' in Hp3. injection Hp3 as ->.
  apply stored_delta_within_policy in Hd1, Hd2, Hd3.
  set (p1' := set_delta Fdelta (stored_delta p d1) p) in *.
  set (p2' := set_delta Fseason_delta (stored_delta p1' d2) p1') in *.
  exists p, (stored_delta p d1), (stored_delta p1' d2), (stored_delta p2' d3).
  split; [exact Hp|]. split; [reflexivity|]. split; [reflexivity|].
  split; [reflexivity|]. split; [reflexivity|]. split; [exact Hd1|].
  split; [exact Hd2|exact Hd3].
Qed.

(** ** The team partitioner *)

Lemma group_append_keys (t : Z) (x : nat * PlayerModel) (d : Groups) :
  map fst (group_append t x d)
  = if decide (t ∈ map fst d) then map fst d else map fst d ++ [t].
Proof.
  induction d as [|[t' xs] d IH].
  - cbn [group_append map fst app].
    destruct (decide (t ∈ [])) as [Hin|_]; [|reflexivity]. by apply elem_of_nil in Hin.
  - cbn [group_append map fst]. destruct (Z.eqb_spec t' t) as [->|Hne].
    + clear IH. cbn [map fst].
      destruct (decide (t ∈ t :: map fst d)) as [_|Hin]; [reflexivity|].
      exfalso. apply Hin, elem_of_cons. by left.
    + cbn [map fst]. rewrite IH. clear IH.
      destruct (decide (t ∈ map fst d)) as [Hin|Hin];
        destruct (decide (t ∈ t' :: map fst d)) as [Hin'|Hin']; try reflexivity.
      * exfalso. apply Hin', elem_of_cons. by right.
      * exfalso. apply elem_of_cons in Hin' as [->|?]; [by apply Hne|by apply Hin].
Qed.

Lemma group_append_members (t : Z) (x : nat * PlayerModel) (d : Groups)
    (y : nat * PlayerModel) :
  member_of (group_append t x d) y <-> member_of d y \/ y = x.
Proof.
  unfold member_of. induction d as [|[t' xs] d IH]; simpl.
  - split.
    + intros (g & Hg & Hy). apply list_elem_of_singleton in Hg as ->. simpl in Hy.
      apply list_elem_of_singleton in Hy. by right.
    + intros [(g & Hg & _)| ->]; [by apply elem_of_nil in Hg|].
      exists (t, [x]). split; [by apply list_elem_of_singleton|].
      by apply list_elem_of_singleton.
  - destruct (Z.eqb t' t).
    + split.
      * intros (g & Hg & Hy). apply elem_of_cons in Hg as [->|Hg].
        -- simpl in Hy. apply elem_of_app in Hy as [Hy|Hy].
           ++ left. exists (t', xs). split; [apply elem_of_cons; by left|exact Hy].
           ++ apply list_elem_of_singleton in Hy. by right.
        -- left. exists g. split; [apply elem_of_cons; by right|exact Hy].
      * intros [(g & Hg & Hy)| ->].
        -- apply elem_of_cons in Hg as [->|Hg].
           ++ exists (t', xs ++ [x]). split; [apply elem_of_cons; by left|].
              simpl. apply elem_of_app. by left.
           ++ exists g. split; [apply elem_of_cons; by right|exact Hy].
        -- exists (t', xs ++ [x]). split; [apply elem_of_cons; by left|].
           simpl. apply elem_of_app. right. by apply list_elem_of_singleton.
    + split.
      * intros (g & Hg & Hy). apply elem_of_cons in Hg as [->|Hg].
        -- left. exists (t', xs). split; [apply elem_of_cons; by left|exact Hy].
        -- destruct (proj1 IH) as [(g' & Hg' & Hy')| ->]; [by exists g| |by right].
           left. exists g'. split; [apply elem_of_cons; by right|exact Hy'].
      * intros [(g & Hg & Hy)| ->].
        -- apply elem_of_cons in Hg as [->|Hg].
           ++ exists (t', xs). split; [apply elem_of_cons; by left|exact Hy].
           ++ destruct (proj2 IH) as (g' & Hg' & Hy'); [left; by exists g|].
              exists g'. split; [apply elem_of_cons; by right|exact Hy'].
        -- destruct (proj2 IH) as (g' & Hg' & Hy'); [by right|].
           exists g'. split; [apply elem_of_cons; by right|exact Hy'].
Qed.

Lemma group_append_well_grouped (x : nat * PlayerModel) (d : Groups) :
  well_grouped d -> well_grouped (group_append (team (snd x)) x d).
Proof.
  unfold well_grouped. intros [Hkeys Hgroups]. split.
  - rewrite group_append_keys. case_decide; [exact Hkeys|].
    apply NoDup_app. split; [exact Hkeys|]. split; [|apply NoDup_singleton].
    intros t Ht Ht'. apply list_elem_of_singleton in Ht' as ->. contradiction.
  - clear Hkeys. induction d as [|[t' xs] d IH]; simpl.
    + intros g Hg. apply list_elem_of_singleton in Hg as ->. simpl.
      split; [discriminate|]. intros y Hy. by apply list_elem_of_singleton in Hy as ->.
    + destruct (Z.eqb_spec t' (team (snd x))) as [Heq|Hne].
      * intros g Hg. apply elem_of_cons in Hg as [->|Hg].
        -- simpl. split; [by destruct xs|]. intros y Hy.
           apply elem_of_app in Hy as [Hy|Hy].
           ++ apply (Hgroups (t', xs)); [apply elem_of_cons; by left|exact Hy].
           ++ by apply list_elem_of_singleton in Hy as ->.
        -- apply Hgroups. apply elem_of_cons. by right.
      * intros g Hg. apply elem_of_cons in Hg as [->|Hg].
        -- apply Hgroups. apply elem_of_cons. by left.
        -- apply IH; [|exact Hg]. intros g' Hg'. apply Hgroups.
           apply elem_of_cons. by right.
Qed.

(** The partition loop from any accumulator. *)
Lemma partition_fold_spec (l : list (nat * PlayerModel)) (wo wi : Groups) :
  well_grouped wo -> well_grouped wi ->
  let '(wo', wi') := fold_left partition_step l (wo, wi) in
  well_grouped wo' /\ well_grouped wi'
  /\ (forall y, member_of wo' y <-> member_of wo y \/ (y ∈ l /\ is_sub (snd y) = false))
  /\ (forall y, member_of wi' y <->
         member_of wi y \/ (y ∈ l /\ (is_sub (snd y) = true \/ subbed_out (snd y) = false))).
Proof.
  revert wo wi. induction l as [|x l IH]; intros wo wi Hwo Hwi; simpl.
  - split; [exact Hwo|]. split; [exact Hwi|]. split; intros y; split; auto;
      intros [?|[Hy _]]; auto; by apply elem_of_nil in Hy.
  - assert (Hcons : forall y, y ∈ x :: l <-> y = x \/ y ∈ l) by (intros; apply elem_of_cons).
    destruct (is_sub (snd x)) eqn:Hsub; [|destruct (subbed_out (snd x)) eqn:Hout].
    + specialize (IH wo (group_append (team (snd x)) x wi) Hwo
                    (group_append_well_grouped _ _ Hwi)).
      destruct (fold_left _ _ _) as [wo' wi']. destruct IH as (? & ? & Ho & Hi).
      split; [assumption|]. split; [assumption|]. split; intros y.
      * rewrite Ho, Hcons. split; intuition (subst; auto; congruence).
      * rewrite Hi, group_append_members, Hcons. split; intuition (subst; auto; congruence).
    + specialize (IH (group_append (team (snd x)) x wo) wi
                    (group_append_well_grouped _ _ Hwo) Hwi).
      destruct (fold_left _ _ _) as [wo' wi']. destruct IH as (? & ? & Ho & Hi).
      split; [assumption|]. split; [assumption|]. split; intros y.
      * rewrite Ho, group_append_members, Hcons. split; intuition (subst; auto; congruence).
      * rewrite Hi, Hcons. split; intuition (subst; auto; congruence).
    + specialize (IH (group_append (team (snd x)) x wo)
                    (group_append (team (snd x)) x wi)
                    (group_append_well_grouped _ _ Hwo)
                    (group_append_well_grouped _ _ Hwi)).
      destruct (fold_left _ _ _) as [wo' wi']. destruct IH as (? & ? & Ho & Hi).
      split; [assumption|]. split; [assumption|]. split; intros y.
      * rewrite Ho, group_append_members, Hcons. split; intuition (subst; auto; congruence).
      * rewrite Hi, group_append_members, Hcons. split; intuition (subst; auto; congruence).
Qed.

Lemma elem_of_enumerate {A} (l : list A) (i : nat) (x : A) :
  (i, x) ∈ enumerate l <-> l !! i = Some x.
Proof.
  rewrite list_elem_of_lookup. split.
  - intros [j Hj]. rewrite enumerate_lookup in Hj.
    destruct (l !! j) eqn:Hl; simpl in Hj; [|discriminate]. by injection Hj as -> ->.
  - intros Hl. exists i. by rewrite enumerate_lookup, Hl.
Qed.

Lemma well_grouped_nil : well_grouped [].
Proof.
  split; [constructor|]. intros g Hg. by apply elem_of_nil in Hg.
Qed.

Lemma member_of_nil (y : nat * PlayerModel) : ~ member_of [] y.
Proof. intros (g & Hg & _). by apply elem_of_nil in Hg. Qed.

(** The two groupings of a list of rows. *)
Lemma partition_teams_spec (ps : list PlayerModel) :
  well_grouped (fst (partition_teams ps)) /\ well_grouped (snd (partition_teams ps))
  /\ (forall i p, member_of (fst (partition_teams ps)) (i, p)
                  <-> ps !! i = Some p /\ is_sub p = false)
  /\ (forall i p, member_of (snd (partition_teams ps)) (i, p)
                  <-> ps !! i = Some p /\ (is_sub p = true \/ subbed_out p = false)).
Proof.
  unfold partition_teams.
  pose proof (partition_fold_spec (enumerate ps) [] [] well_grouped_nil well_grouped_nil)
    as H.
  destruct (fold_left _ _ _) as [wo wi]. destruct H as (Hwo & Hwi & Ho & Hi). simpl.
  split; [exact Hwo|]. split; [exact Hwi|]. split; intros i p.
  - rewrite Ho, elem_of_enumerate. simpl. pose proof (member_of_nil (i, p)). tauto.
  - rewrite Hi, elem_of_enumerate. simpl. pose proof (member_of_nil (i, p)). tauto.
Qed.

Lemma team_placements_well_grouped (d : Groups) :
  well_grouped d -> exists ranks, team_placements d = Ok ranks /\ length ranks = length d.
Proof.
  intros [_ Hgroups]. unfold team_placements.
  induction d as [|g d IH]; simpl; [by exists []|].
  destruct (Hgroups g) as [Hne _]; [apply elem_of_cons; by left|].
  destruct (snd g) as [|ip rest]; [done|]. simpl.
  destruct IH as (ranks & -> & Hlen);
    [intros g' Hg'; apply Hgroups, elem_of_cons; by right|].
  simpl. exists (placement (snd ip) :: ranks). split; [reflexivity|]. simpl. by f_equal.
Qed.

(** X4. The team partitioner puts every row in the groupings its flags
    call for: a row is in the grouping without substitutes exactly when it is
    not a substitute-in, and in the grouping with substitutes exactly when it
    is a substitute-in or is not substituted out.  Each grouping has one
    entry per team, every entry is non-empty and holds rows of its team only,
    so reading the placement of each team's first row never raises. *)
Theorem partition_teams_by_flags (ps : list PlayerModel) :
  let teams_wo_subs := fst (partition_teams ps) in
  let teams_with_sub_ins := snd (partition_teams ps) in
  (forall i p, member_of teams_wo_subs (i, p) <-> ps !! i = Some p /\ is_sub p = false)
  /\ (forall i p, member_of teams_with_sub_ins (i, p)
                  <-> ps !! i = Some p /\ (is_sub p = true \/ subbed_out p = false))
  /\ well_grouped teams_wo_subs /\ well_grouped teams_with_sub_ins
  /\ is_ok (team_placements teams_wo_subs) = true
  /\ is_ok (team_placements teams_with_sub_ins) = true.
Proof.
  intros wo wi. destruct (partition_teams_spec ps) as (Hwo & Hwi & Ho & Hi).
  split; [exact Ho|]. split; [exact Hi|]. split; [exact Hwo|]. split; [exact Hwi|].
  destruct (team_placements_well_grouped _ Hwo) as (? & Hr1 & _).
  destruct (team_placements_well_grouped _ Hwi) as (? & Hr2 & _).
  subst wo wi. by rewrite Hr1, Hr2.
Qed.

(** ** Rankings *)

Lemma int64_key_Ok (d : string) (k : Z) :
  int64_key d = Ok k <-> py_int d = Some k /\ fits_int64 k = true.
Proof.
  unfold int64_key. destruct (py_int d) as [k'|]; cbn [or_raise rbind].
  - destruct (fits_int64 k') eqn:Hfits; split.
    + by intros [= <-].
    + by intros [[= <-] _].
    + discriminate.
    + intros [[= <-] Hk]. congruence.
  - split; [discriminate|]. by intros [? _].
Qed.

(** What the key of a rating row can raise. *)
Lemma int64_key_Err (d : string) (e : exn) :
  int64_key d = Err e ->
  (e = PyException "ValueError" /\ py_int d = None)
  \/ (e = PyException "OverflowError"
      /\ exists k, py_int d = Some k /\ fits_int64 k = false).
Proof.
  unfold int64_key. destruct (py_int d) as [k|]; cbn [or_raise rbind].
  - destruct (fits_int64 k) eqn:Hfits; [discriminate|].
    intros [= <-]. right. split; [reflexivity|]. by exists k.
  - intros [= <-]. by left.
Qed.

Lemma get_player_ranking_index (db : DB) (m : MatchModel) (d : option string) (i : nat)
    (s c : bool) (st : StatModel) :
  get_player_ranking db m d i s c = Ok st -> st_index st = i.
Proof.
  unfold get_player_ranking. destruct d as [d|]; [|by intros [= <-]].
  destruct (int64_key d); cbn [rbind]; [|discriminate].
  destruct (_ !! _); by intros [= <-].
Qed.

(** The rankings that are read for a match are those of its rows, in order. *)
Lemma get_players_ranking_Ok (db : DB) (m : MatchModel) (s c : bool)
    (pr : list StatModel) :
  get_players_ranking db m s c = Ok pr ->
  length pr = length (players m) /\ indexed pr
  /\ forall i p, players m !! i = Some p ->
     exists st, pr !! i = Some st
       /\ get_player_ranking db m (discord_id p) i s c = Ok st.
Proof.
  unfold get_players_ranking. intros H.
  pose proof (mapR_length _ _ _ H) as Hlen.
  unfold enumerate in Hlen. rewrite enumerate_from_length in Hlen.
  apply mapR_Forall2 in H. split; [exact Hlen|]. split.
  - intros i st Hst. destruct (Forall2_lookup_r _ _ _ _ _ H Hst) as ([j p] & Hj & Hx).
    rewrite enumerate_lookup in Hj.
    destruct (players m !! i); simpl in Hj; [|discriminate]. injection Hj as <- <-.
    by apply get_player_ranking_index in Hx.
  - intros i p Hp.
    assert (Hen : enumerate (players m) !! i = Some (i, p))
      by (by rewrite enumerate_lookup, Hp).
    destruct (Forall2_lookup_l _ _ _ _ _ H Hen) as (st & Hst & Hx). by exists st.
Qed.

(** X5. The rankings read for a match have one entry per row, entry [i]
    carrying the index [i].  An unbound row gets the configured prior with
    identity 0 and no games; a bound row, whose identity is then an integer
    of 64 bits, gets the stored row of its identity in the selected
    collection, or the configured prior under its identity when there is
    none.  Reading fails at the first bound row whose identity is not such
    an integer, and in no other case: with [ValueError] when the identity is
    not an integer, with [OverflowError] when it is an integer that does not
    fit 64 bits. *)
Theorem get_players_ranking_rows (db : DB) (m : MatchModel) (s c : bool) :
  let table := get_stat_table (is_cloud m) (game_mode m) (game m) s c in
  (forall pr, get_players_ranking db m s c = Ok pr ->
     length pr = length (players m) /\ indexed pr
     /\ forall i p st, players m !! i = Some p -> pr !! i = Some st ->
        match discord_id p with
        | None => st = default_stat i 0
        | Some d =>
            exists k, py_int d = Some k /\ - 2 ^ 63 <= k < 2 ^ 63 /\ st_id st = k
              /\ match default ∅ (stats db !! table) !! k with
                 | None => st = default_stat i k
                 | Some doc =>
                     st = mkStat i k (d_mu doc) (d_sigma doc) (d_games doc) (d_wins doc)
                            (d_first doc) (d_subbedIn doc) (d_subbedOut doc) (d_civs doc)
                 end
        end)
  /\ (forall e, get_players_ranking db m s c = Err e ->
       exists i p d,
         players m !! i = Some p /\ discord_id p = Some d
         /\ (forall j q d', (j < i)%nat -> players m !! j = Some q ->
                discord_id q = Some d' ->
                exists k, py_int d' = Some k /\ - 2 ^ 63 <= k < 2 ^ 63)
         /\ match py_int d with
            | None => e = PyException "ValueError"
            | Some k => e = PyException "OverflowError" /\ ~ (- 2 ^ 63 <= k < 2 ^ 63)
            end)
  /\ ((forall p d, p ∈ players m -> discord_id p = Some d ->
         exists k, py_int d = Some k /\ - 2 ^ 63 <= k < 2 ^ 63) ->
      is_ok (get_players_ranking db m s c) = true).
Proof.
  assert (Hfits : forall k, fits_int64 k = true <-> - 2 ^ 63 <= k < 2 ^ 63).
  { intros k. unfold fits_int64. rewrite andb_true_iff, Z.leb_le, Z.ltb_lt. tauto. }
  assert (Herr : forall ps n e,
            mapR (fun ip => get_player_ranking db m (discord_id (snd ip)) (fst ip) s c)
                 (enumerate_from n ps) = Err e ->
            exists i p d,
              ps !! i = Some p /\ discord_id p = Some d
              /\ (forall j q d', (j < i)%nat -> ps !! j = Some q ->
                     discord_id q = Some d' ->
                     exists k, py_int d' = Some k /\ - 2 ^ 63 <= k < 2 ^ 63)
              /\ match py_int d with
                 | None => e = PyException "ValueError"
                 | Some k => e = PyException "OverflowError" /\ ~ (- 2 ^ 63 <= k < 2 ^ 63)
                 end).
  { induction ps as [|p ps IH]; intros n e H; [discriminate|].
    simpl in H.
    destruct (get_player_ranking db m (discord_id p) n s c) as [st|e'] eqn:Hp;
      cbn [rbind] in H.
    - destruct (mapR _ (enumerate_from (S n) ps)) as [rest|e'] eqn:Hrest;
        cbn [rbind] in H; [discriminate|]. injection H as <-.
      destruct (IH _ _ Hrest) as (i & q & d & Hq & Hd & Hfirst & He).
      exists (S i), q, d. split; [exact Hq|]. split; [exact Hd|]. split; [|exact He].
      intros [|j] q' d' Hj Hq' Hd'; simpl in Hq'; [|apply (Hfirst j q' d'); [lia|done..]].
      injection Hq' as <-. unfold get_player_ranking in Hp. rewrite Hd' in Hp.
      destruct (int64_key d') as [k|] eqn:Hk; cbn [rbind] in Hp; [|discriminate].
      apply int64_key_Ok in Hk as [Hk Hin]. exists k. split; [exact Hk|by apply Hfits].
    - injection H as <-. unfold get_player_ranking in Hp.
      destruct (discord_id p) as [d|] eqn:Hd; [|discriminate].
      exists 0%nat, p, d. split; [reflexivity|]. split; [exact Hd|].
      split; [intros j q d' Hj; lia|].
      destruct (int64_key d) as [k|e''] eqn:Hk; cbn [rbind] in Hp.
      + by destruct (_ !! k).
      + injection Hp as <-.
        apply int64_key_Err in Hk as [[-> ->]|(-> & k & -> & Hk)]; [reflexivity|].
        split; [reflexivity|]. rewrite <- Hfits. congruence. }
  intros table. split; [|split].
  - intros pr H. apply get_players_ranking_Ok in H as (Hlen & Hidx & Hrows).
    split; [exact Hlen|]. split; [exact Hidx|]. intros i p st Hp Hst.
    destruct (Hrows i p Hp) as (st' & Hst' & Hx). rewrite Hst in Hst'.
    injection Hst' as <-. unfold get_player_ranking in Hx. fold table in Hx.
    destruct (discord_id p) as [d|]; [|by injection Hx as <-].
    destruct (int64_key d) as [k|] eqn:Hk; cbn [rbind] in Hx; [|discriminate].
    apply int64_key_Ok in Hk as [Hk Hin]. exists k. split; [exact Hk|].
    split; [by apply Hfits|].
    destruct (_ !! k) as [doc|]; injection Hx as <-; by split.
  - intros e H. exact (Herr _ _ _ H).
  - intros Hall. destruct (get_players_ranking db m s c) as [pr|e] eqn:H; [reflexivity|].
    exfalso. destruct (Herr _ _ _ H) as (i & p & d & Hp & Hd & _ & He).
    destruct (Hall p d) as (k & Hk & Hin); [by eapply list_elem_of_lookup_2|exact Hd|].
    rewrite Hk in He. by destruct He as [_ Hout].
Qed.

(** ** The merge of the two rating runs *)

Lemma keeps_refl {X} (S : nat -> X -> Prop) (post : list X) : keeps S post post.
Proof. split; [reflexivity|]. intros i. by left. Qed.

Lemma keeps_trans {X} (S : nat -> X -> Prop) (p1 p2 p3 : list X) :
  keeps S p1 p2 -> keeps S p2 p3 -> keeps S p1 p3.
Proof.
  intros [Hl1 H1] [Hl2 H2]. split; [congruence|]. intros i.
  destruct (H2 i) as [Heq|Hw]; [|by right].
  rewrite Heq. apply H1.
Qed.

Lemma keeps_insert {X} (S : nat -> X -> Prop) (post : list X) (i : nat) (x : X) :
  S i x -> (i < length post)%nat -> keeps S post (<[i := x]> post).
Proof.
  intros HS Hi. split; [apply length_insert|]. intros j.
  destruct (decide (i = j)) as [<-|Hne].
  - right. exists x. split; [exact HS|]. by apply list_lookup_insert_eq.
  - left. by apply list_lookup_insert_ne.
Qed.

(** A loop whose iterations only overwrite entries with allowed values does
    so as a whole. *)
Lemma foldR_keeps {X A} (S : nat -> X -> Prop) (step : list X -> A -> Result (list X))
    (l : list A) :
  (forall a, a ∈ l -> forall post post', step post a = Ok post' -> keeps S post post') ->
  forall post0 post, foldR step l post0 = Ok post -> keeps S post0 post.
Proof.
  induction l as [|a l IH]; intros Hstep post0 post H; simpl in H.
  - injection H as <-. apply keeps_refl.
  - destruct (step post0 a) as [post1|] eqn:Ha; cbn [rbind] in H; [|discriminate].
    eapply keeps_trans.
    + eapply Hstep; [apply elem_of_cons; by left|exact Ha].
    + apply IH; [|exact H]. intros a' Ha'. apply Hstep, elem_of_cons. by right.
Qed.

(** If moreover some iteration is sure to write entry [i], the entry ends
    with an allowed value. *)
Lemma foldR_writes {X A} (S : nat -> X -> Prop) (D : A -> Prop) (i : nat)
    (step : list X -> A -> Result (list X)) (l : list A) :
  (forall a, a ∈ l -> forall post post', step post a = Ok post' -> keeps S post post') ->
  (forall a, a ∈ l -> D a -> forall post post', step post a = Ok post' ->
     exists x, S i x /\ post' !! i = Some x) ->
  (exists a, a ∈ l /\ D a) ->
  forall post0 post, foldR step l post0 = Ok post ->
  exists x, S i x /\ post !! i = Some x.
Proof.
  induction l as [|a l IH]; intros Hstep Hwrite (a0 & Ha0 & HD) post0 post H.
  - by apply elem_of_nil in Ha0.
  - simpl in H.
    destruct (step post0 a) as [post1|] eqn:Ha; cbn [rbind] in H; [|discriminate].
    assert (Hrest : forall a', a' ∈ l -> forall p p', step p a' = Ok p' -> keeps S p p')
      by (intros a' Ha'; apply Hstep, elem_of_cons; by right).
    apply elem_of_cons in Ha0 as [->|Ha0].
    + destruct (Hwrite a (proj2 (elem_of_cons _ _ _) (or_introl eq_refl)) HD _ _ Ha)
        as (x & HS & Hx).
      destruct (foldR_keeps S step l Hrest _ _ H) as [_ Hk].
      destruct (Hk i) as [Heq|Hw]; [|exact Hw]. exists x. split; [exact HS|congruence].
    + eapply IH; [exact Hrest| |by exists a0|exact H].
      intros a' Ha'. apply Hwrite, elem_of_cons. by right.
Qed.

(** The states of a grouping are the rankings of its members. *)
Lemma team_states_Ok (pr : list StatModel) (d : Groups) (states : list (list StatModel)) :
  team_states pr d = Ok states ->
  Forall2 (fun g team => Forall2 (fun y player => pr !! fst y = Some player) (snd g) team)
    d states.
Proof.
  unfold team_states. intros H. apply mapR_Forall2 in H.
  eapply Forall2_impl; [exact H|]. intros g team Hg. simpl in Hg.
  apply mapR_Forall2 in Hg. eapply Forall2_impl; [exact Hg|].
  intros y player Hy. simpl in Hy. unfold py_get in Hy.
  by destruct (pr !! fst y); [injection Hy as ->|].
Qed.

Lemma py_set_Ok {A} (l l' : list A) (i : nat) (x : A) :
  py_set l i x = Ok l' -> (i < length l)%nat /\ l' = <[i := x]> l.
Proof. unfold py_set. case_decide; [|discriminate]. by intros [= <-]. Qed.

Section Merge.

Variables (m : MatchModel) (new_ts : list (list (pyfloat * pyfloat)))
  (states : list (list StatModel)).


Lemma merge_wo_subs_keeps (t : nat) (team : list StatModel) (k : nat)
    (player : StatModel) (post post' : list (option StatModel)) :
  states !! t = Some team -> team !! k = Some player ->
  merge_wo_subs m new_ts t post (k, player) = Ok post' ->
  keeps (merged_from m new_ts states false) post post'
  /\ exists x, merged_from m new_ts states false (st_index player) x
               /\ post' !! st_index player = Some x.
Proof.
  intros Ht Hk H. unfold merge_wo_subs, py_get in H.
  destruct (players m !! st_index player) as [mp|] eqn:Hmp; cbn [or_raise rbind] in H;
    [|discriminate].
  destruct (is_sub mp) eqn:Hsub; [discriminate|].
  destruct (new_ts !! t) as [row|] eqn:Hrow; cbn [or_raise rbind] in H; [|discriminate].
  destruct (row !! k) as [r|] eqn:Hr; cbn [or_raise rbind] in H; [|discriminate].
  apply py_set_Ok in H as [Hlt ->].
  assert (HS : merged_from m new_ts states false (st_index player)
                 (Some (posterior_stat player r))).
  { exists t, k, team, player, mp, r. repeat split; try assumption. by exists row. }
  split; [by apply keeps_insert|]. eexists. split; [exact HS|].
  by apply list_lookup_insert_eq.
Qed.

Lemma merge_with_sub_ins_keeps (t : nat) (team : list StatModel) (k : nat)
    (player : StatModel) (post post' : list (option StatModel)) :
  states !! t = Some team -> team !! k = Some player ->
  merge_with_sub_ins m new_ts t post (k, player) = Ok post' ->
  keeps (merged_from m new_ts states true) post post'
  /\ ((exists mp, players m !! st_index player = Some mp /\ is_sub mp = true) ->
      exists x, merged_from m new_ts states true (st_index player) x
                /\ post' !! st_index player = Some x).
Proof.
  intros Ht Hk H. unfold merge_with_sub_ins, py_get in H.
  destruct (players m !! st_index player) as [mp|] eqn:Hmp; cbn [or_raise rbind] in H;
    [|discriminate].
  destruct (is_sub mp) eqn:Hsub.
  - destruct (new_ts !! t) as [row|] eqn:Hrow; cbn [or_raise rbind] in H; [|discriminate].
    destruct (row !! k) as [r|] eqn:Hr; cbn [or_raise rbind] in H; [|discriminate].
    apply py_set_Ok in H as [Hlt ->].
    assert (HS : merged_from m new_ts states true (st_index player)
                   (Some (posterior_stat player r))).
    { exists t, k, team, player, mp, r. repeat split; try assumption. by exists row. }
    split; [by apply keeps_insert|]. intros _. eexists. split; [exact HS|].
    by apply list_lookup_insert_eq.
  - injection H as <-. split; [apply keeps_refl|].
    intros (mp' & [= <-] & Hsub'). congruence.
Qed.

(** The merge loop of one run over all teams. *)
Lemma merge_teams_keeps (sub : bool)
    (body : nat -> list (option StatModel) -> nat * StatModel
            -> Result (list (option StatModel)))
    (D : StatModel -> Prop) (post0 post : list (option StatModel)) :
  (forall t team k player p p',
      states !! t = Some team -> team !! k = Some player ->
      body t p (k, player) = Ok p' ->
      keeps (merged_from m new_ts states sub) p p'
      /\ (D player ->
          exists x, merged_from m new_ts states sub (st_index player) x
                    /\ p' !! st_index player = Some x)) ->
  merge_teams body states post0 = Ok post ->
  keeps (merged_from m new_ts states sub) post0 post
  /\ forall t team k player,
       states !! t = Some team -> team !! k = Some player -> D player ->
       exists x, merged_from m new_ts states sub (st_index player) x
                 /\ post !! st_index player = Some x.
Proof.
  intros Hbody H. unfold merge_teams in H.
  assert (Hinner : forall it, it ∈ enumerate states -> forall p p',
             foldR (body (fst it)) (enumerate (snd it)) p = Ok p' ->
             keeps (merged_from m new_ts states sub) p p').
  { intros [t team] Hit p p' Hp. apply elem_of_enumerate in Hit. simpl in Hp.
    eapply foldR_keeps; [|exact Hp]. intros [k player] Hk q q' Hq.
    apply elem_of_enumerate in Hk. by destruct (Hbody _ _ _ _ _ _ Hit Hk Hq). }
  split; [by eapply (foldR_keeps _ _ _ Hinner)|].
  intros t team k player Ht Hk HD.
  eapply (foldR_writes (merged_from m new_ts states sub)
            (fun it => it = (t, team)) (st_index player) _ _ Hinner); [| |exact H].
  - intros it _ -> p p' Hp. simpl in Hp.
    eapply (foldR_writes (merged_from m new_ts states sub) (fun a => a = (k, player))
              (st_index player));
      [| | |exact Hp].
    + intros [k' player'] Hk' q q' Hq. apply elem_of_enumerate in Hk'.
      by destruct (Hbody _ _ _ _ _ _ Ht Hk' Hq).
    + intros a _ -> q q' Hq. destruct (Hbody _ _ _ _ _ _ Ht Hk Hq) as [_ Hw]. by apply Hw.
    + exists (k, player). split; [by apply elem_of_enumerate|reflexivity].
  - exists (t, team). split; [by apply elem_of_enumerate|reflexivity].
Qed.

End Merge.

Lemma member_of_at_position (d : Groups) (y : nat * PlayerModel) :
  member_of d y <-> exists t k, at_position d t k y.
Proof.
  split.
  - intros (g & Hg & Hy). apply list_elem_of_lookup in Hg as [t Ht].
    apply list_elem_of_lookup in Hy as [k Hk]. exists t, k, g. by split.
  - intros (t & k & g & Ht & Hk). exists g.
    split; eapply list_elem_of_lookup_2; eassumption.
Qed.

Lemma team_states_at_position (pr : list StatModel) (d : Groups)
    (states : list (list StatModel)) (t k : nat) :
  team_states pr d = Ok states ->
  (forall y, at_position d t k y ->
     exists team player, states !! t = Some team /\ team !! k = Some player
       /\ pr !! fst y = Some player)
  /\ (forall team player, states !! t = Some team -> team !! k = Some player ->
        exists y, at_position d t k y /\ pr !! fst y = Some player).
Proof.
  intros H. apply team_states_Ok in H. split.
  - intros y (g & Ht & Hk).
    destruct (Forall2_lookup_l _ _ _ _ _ H Ht) as (team & Hteam & Hg).
    destruct (Forall2_lookup_l _ _ _ _ _ Hg Hk) as (player & Hplayer & Hy).
    by exists team, player.
  - intros team player Hteam Hplayer.
    destruct (Forall2_lookup_r _ _ _ _ _ H Hteam) as (g & Ht & Hg).
    destruct (Forall2_lookup_r _ _ _ _ _ Hg Hplayer) as (y & Hk & Hy).
    exists y. split; [by exists g|exact Hy].
Qed.

(** What a merged value says about the row it was written for. *)
Lemma merged_from_row (m : MatchModel) (pr : list StatModel) (d : Groups)
    (states : list (list StatModel)) (new_ts : list (list (pyfloat * pyfloat)))
    (sub : bool) (i : nat) (x : option StatModel) (p : PlayerModel) :
  indexed pr -> team_states pr d = Ok states ->
  (forall j q, member_of d (j, q) -> players m !! j = Some q) ->
  merged_from m new_ts states sub i x -> players m !! i = Some p ->
  exists cur t k r,
    pr !! i = Some cur /\ x = Some (posterior_stat cur r)
    /\ at_position d t k (i, p) /\ rating_at new_ts t k r.
Proof.
  intros Hidx Hstates Hmem (t & k & team & player & mp & r & Ht & Hk & Hi & _ & _ & Hr & ->) Hp.
  destruct (proj2 (team_states_at_position pr d states t k Hstates) _ _ Ht Hk)
    as ([j q] & Hat & Hpr).
  simpl in Hpr. apply Hidx in Hpr as Hj. rewrite Hi in Hj. subst j.
  assert (Hq : players m !! i = Some q).
  { apply Hmem, member_of_at_position. by exists t, k. }
  rewrite Hp in Hq. injection Hq as <-.
  by exists player, t, k, r.
Qed.

(** The posterior of every row after the merge of the two runs. *)
Lemma posteriors_rows (m : MatchModel) (pr : list StatModel)
    (post : list (option StatModel)) :
  indexed pr -> posteriors m pr = Ok post ->
  let teams_wo_subs := fst (partition_teams (players m)) in
  let teams_with_sub_ins := snd (partition_teams (players m)) in
  exists states_wo states_wi ranks_wo ranks_wi new_wo new_wi,
    team_states pr teams_wo_subs = Ok states_wo
    /\ team_states pr teams_with_sub_ins = Ok states_wi
    /\ team_placements teams_wo_subs = Ok ranks_wo
    /\ team_placements teams_with_sub_ins = Ok ranks_wi
    /\ ts_rate (ratings_of states_wo) ranks_wo = Some new_wo
    /\ ts_rate (ratings_of states_wi) ranks_wi = Some new_wi
    /\ length post = length (players m)
    /\ forall i p, players m !! i = Some p ->
       exists cur t k r,
         pr !! i = Some cur
         /\ post !! i = Some (Some (posterior_stat cur r))
         /\ if is_sub p
            then at_position teams_with_sub_ins t k (i, p) /\ rating_at new_wi t k r
            else at_position teams_wo_subs t k (i, p) /\ rating_at new_wo t k r.
Proof.
  intros Hidx H wo wi. subst wo wi.
  destruct (partition_teams_spec (players m)) as (_ & _ & Ho & Hi).
  unfold posteriors in H. destruct (partition_teams (players m)) as [wo wi].
  simpl in Ho, Hi. simpl.
  destruct (team_states pr wo) as [states_wo|] eqn:Hswo; cbn [rbind] in H; [|discriminate].
  destruct (team_states pr wi) as [states_wi|] eqn:Hswi; cbn [rbind] in H; [|discriminate].
  destruct (team_placements wo) as [ranks_wo|]; cbn [rbind] in H; [|discriminate].
  destruct (team_placements wi) as [ranks_wi|]; cbn [rbind] in H; [|discriminate].
  destruct (ts_rate (ratings_of states_wo) ranks_wo) as [new_wo|] eqn:Hrwo;
    cbn [or_raise rbind] in H; [|discriminate].
  destruct (ts_rate (ratings_of states_wi) ranks_wi) as [new_wi|] eqn:Hrwi;
    cbn [or_raise rbind] in H; [|discriminate].
  destruct (merge_teams (merge_wo_subs m new_wo) states_wo _) as [post1|] eqn:H1;
    cbn [rbind] in H; [|discriminate].
  exists states_wo, states_wi, ranks_wo, ranks_wi, new_wo, new_wi.
  do 6 (split; [first [reflexivity|assumption]|]).
  apply (merge_teams_keeps m new_wo states_wo false _ (fun _ => True)) in H1
    as [[Hlen1 _] Hw1].
  2:{ intros t team k player q q' Ht Hk Hq.
      destruct (merge_wo_subs_keeps m new_wo states_wo t team k player q q' Ht Hk Hq).
      by split. }
  apply (merge_teams_keeps m new_wi states_wi true _
           (fun player => exists mp, players m !! st_index player = Some mp
                                     /\ is_sub mp = true)) in H
    as [[Hlen2 Hk2] Hw2].
  2:{ intros t team k player q q' Ht Hk Hq.
      exact (merge_with_sub_ins_keeps m new_wi states_wi t team k player q q' Ht Hk Hq). }
  split; [by rewrite Hlen2, Hlen1, length_map|].
  assert (Hmo : forall j q, member_of wo (j, q) -> players m !! j = Some q)
    by (intros j q Hm; by apply Ho in Hm as [? _]).
  assert (Hmi : forall j q, member_of wi (j, q) -> players m !! j = Some q)
    by (intros j q Hm; by apply Hi in Hm as [? _]).
  intros i p Hp. destruct (is_sub p) eqn:Hsub.
  - assert (Hm : member_of wi (i, p)) by (apply Hi; split; [exact Hp|by left]).
    apply member_of_at_position in Hm as (t & k & Hat).
    destruct (proj1 (team_states_at_position pr wi states_wi t k Hswi) _ Hat)
      as (team & player & Ht & Hk & Hcur).
    simpl in Hcur. apply Hidx in Hcur as Hst.
    destruct (Hw2 t team k player Ht Hk) as (x & HS & Hx).
    { rewrite Hst. by exists p. }
    rewrite Hst in HS, Hx.
    destruct (merged_from_row m pr wi states_wi new_wi true i x p Hidx Hswi Hmi HS Hp)
      as (cur & t' & k' & r & Hc & -> & Hat' & Hr).
    by exists cur, t', k', r.
  - assert (Hm : member_of wo (i, p)) by (apply Ho; by split).
    apply member_of_at_position in Hm as (t & k & Hat).
    destruct (proj1 (team_states_at_position pr wo states_wo t k Hswo) _ Hat)
      as (team & player & Ht & Hk & Hcur).
    simpl in Hcur. apply Hidx in Hcur as Hst.
    destruct (Hw1 t team k player Ht Hk I) as (x & HS & Hx).
    rewrite Hst in HS, Hx.
    destruct (merged_from_row m pr wo states_wo new_wo false i x p Hidx Hswo Hmo HS Hp)
      as (cur & t' & k' & r & Hc & -> & Hat' & Hr).
    exists cur, t', k', r. split; [exact Hc|]. split; [|by split].
    destruct (Hk2 i) as [->|(x' & HS' & _)]; [exact Hx|].
    destruct HS' as (? & ? & ? & ? & mp & ? & _ & _ & _ & Hmp & Hsub' & _).
    rewrite Hp in Hmp. injection Hmp as <-. congruence.
Qed.

(** X6. After the two rating runs are merged, every row has a posterior:
    the statistics of its prior (same identity and counters, index of the
    row) with the mean and the deviation that a run returned at the position
    of the row in its team.  A substitute-in takes them from the run with
    substitutes, every other row (a substituted-out one included) from the
    run without. *)
Theorem posteriors_by_run (m : MatchModel) (pr : list StatModel)
    (post : list (option StatModel)) :
  indexed pr -> posteriors m pr = Ok post ->
  let teams_wo_subs := fst (partition_teams (players m)) in
  let teams_with_sub_ins := snd (partition_teams (players m)) in
  exists states_wo states_wi ranks_wo ranks_wi new_wo new_wi,
    team_states pr teams_wo_subs = Ok states_wo
    /\ team_states pr teams_with_sub_ins = Ok states_wi
    /\ team_placements teams_wo_subs = Ok ranks_wo
    /\ team_placements teams_with_sub_ins = Ok ranks_wi
    /\ ts_rate (ratings_of states_wo) ranks_wo = Some new_wo
    /\ ts_rate (ratings_of states_wi) ranks_wi = Some new_wi
    /\ length post = length (players m)
    /\ forall i p, players m !! i = Some p ->
       exists cur t k r x,
         pr !! i = Some cur /\ post !! i = Some (Some x)
         /\ mu x = fst r /\ sigma x = snd r /\ st_index x = i /\ same_counters cur x
         /\ if is_sub p
            then at_position teams_with_sub_ins t k (i, p) /\ rating_at new_wi t k r
            else at_position teams_wo_subs t k (i, p) /\ rating_at new_wo t k r.
Proof.
  intros Hidx H wo wi.
  destruct (posteriors_rows m pr post Hidx H)
    as (states_wo & states_wi & ranks_wo & ranks_wi & new_wo & new_wi
        & H1 & H2 & H3 & H4 & H5 & H6 & Hlen & Hrows).
  exists states_wo, states_wi, ranks_wo, ranks_wi, new_wo, new_wi.
  do 7 (split; [assumption|]). intros i p Hp.
  destruct (Hrows i p Hp) as (cur & t & k & r & Hcur & Hpost & Hrun).
  exists cur, t, k, r, (posterior_stat cur r).
  split; [exact Hcur|]. split; [exact Hpost|]. split; [reflexivity|].
  split; [reflexivity|]. split; [by apply Hidx in Hcur|]. split; [|exact Hrun].
  by repeat split.
Qed.

(** ** What every operation leaves alone *)

Lemma modify_by_id_found (f : MatchModel -> MatchModel) (oid : nat)
    (c : list (nat * MatchModel)) (m : MatchModel) :
  find_by_id c oid = Some m ->
  modify_by_id f oid c = modify_by_id (fun _ => f m) oid c.
Proof.
  unfold find_by_id. induction c as [|d c IH]; simpl; [done|].
  destruct (Nat.eqb (fst d) oid); simpl.
  - by intros [= ->].
  - intros H. by rewrite IH.
Qed.

Lemma trigger_quit_Ok (db : DB) (match_id quitter msg : string)
    (oid : nat) (m : MatchModel) :
  ObjectId_of_str match_id = Some oid ->
  find_by_id (pending_matches db) oid = Some m ->
  let changes stored :=
    set_discord_messages_id_list (discord_messages_id_list m ++ [msg])
      (set_players
         (patch_players (fun c s => set_quit (quit c) s)
            (toggle_first_quit quitter (players m)) (players stored))
         stored) in
  trigger_quit match_id quitter msg db
  = (Ok (mkResponse (str_of_ObjectId oid) (changes m) None),
     set_pending (modify_by_id changes oid (pending_matches db)) db).
Proof.
  intros Hoid Hfind changes. unfold trigger_quit, _to_oid, find_pending.
  rewrite sbind_lift, Hoid. cbn [or_raise]. rewrite sbind_read, Hfind. cbn [or_raise].
  by rewrite (update_then_fetch _ _ _ _ Hfind).
Qed.

Lemma append_discord_message_id_list_Ok (db : DB) (match_id : string)
    (ids : list string) (oid : nat) (m : MatchModel) :
  ObjectId_of_str match_id = Some oid ->
  find_by_id (pending_matches db) oid = Some m ->
  let changes := set_discord_messages_id_list (discord_messages_id_list m ++ ids) in
  append_discord_message_id_list match_id ids db
  = (Ok (mkResponse (str_of_ObjectId oid) (changes m) None),
     set_pending (modify_by_id changes oid (pending_matches db)) db).
Proof.
  intros Hoid Hfind changes. unfold append_discord_message_id_list, _to_oid, find_pending.
  rewrite sbind_lift, Hoid. cbn [or_raise]. rewrite sbind_read, Hfind. cbn [or_raise].
  by rewrite (update_then_fetch _ _ _ _ Hfind).
Qed.

Lemma header_erase_players (m m' : MatchModel) (l : list string) :
  erase_players m' = erase_players m ->
  header (set_discord_messages_id_list l m') = header m.
Proof.
  intros H. unfold header.
  change (set_players [] (set_discord_messages_id_list l m'))
    with (set_discord_messages_id_list l (erase_players m')).
  rewrite H. reflexivity.
Qed.

(** A call that names a match which is not there. *)
Lemma run_unknown_match (db : DB) (match_id : string) (c : Call) :
  target c = Some match_id ->
  (ObjectId_of_str match_id = None -> run c db = (Err InvalidIDError, db))
  /\ (forall oid, ObjectId_of_str match_id = Some oid ->
        find_by_id (pending_matches db) oid = None ->
        run c db = (Err NotFoundError, db)).
Proof.
  intros Hc. split.
  - intros Hoid. destruct c; simpl in Hc; try discriminate; injection Hc as ->;
      simpl run;
      unfold change_order, trigger_quit, assign_discord_id, assign_sub, remove_sub,
        append_discord_message_id_list, _to_oid;
      by rewrite sbind_lift, Hoid.
  - intros oid Hoid Hfind. destruct c; simpl in Hc; try discriminate; injection Hc as ->;
      simpl run;
      unfold change_order, trigger_quit, assign_discord_id, assign_sub, remove_sub,
        append_discord_message_id_list, _to_oid, find_pending;
      rewrite sbind_lift, Hoid; cbn [or_raise]; by rewrite sbind_read, Hfind.
Qed.

Lemma map_team_erase (ps qs : list PlayerModel) :
  map erase_deltas ps = map erase_deltas qs -> map team ps = map team qs.
Proof.
  intros H. transitivity (map team (map erase_deltas ps)).
  - rewrite map_map. by apply map_ext.
  - rewrite H, map_map. by apply map_ext.
Qed.

(** A match that the rating updates returned has at least two teams. *)
Lemma recompute_ratings_teams (db : DB) (m m' : MatchModel)
    (p1 p2 p3 : option (list StatModel)) :
  recompute_ratings db m = Ok (Some m', p1, p2, p3) -> (1 < num_teams m')%nat.
Proof.
  intros H. apply recompute_ratings_Ok in H as (Hteams & m1 & [= <-] & Hrows & _).
  unfold num_teams in *. by rewrite (map_team_erase _ _ Hrows).
Qed.

Lemma num_teams_patch (f : PlayerModel -> PlayerModel -> PlayerModel)
    (cs ss : list PlayerModel) (m : MatchModel) :
  (forall c s, team (f c s) = team s) ->
  num_teams (set_players (patch_players f cs ss) m) = num_teams (set_players ss m).
Proof. intros Hf. unfold num_teams. simpl. by rewrite map_patch_players. Qed.

Lemma map_team_alter (g : PlayerModel -> PlayerModel) (i : nat) (l : list PlayerModel) :
  (forall p, team (g p) = team p) -> map team (alter g i l) = map team l.
Proof.
  intros Hg. change (map team) with (fmap (M := list) team).
  rewrite (list_fmap_alter _ _ id) by (by apply Forall_forall).
  by apply list_alter_id.
Qed.

Ltac nothing_written :=
  apply outcome_unchanged;
  [reflexivity|intros Hok; first [reflexivity|simpl in Hok; discriminate Hok]].

Lemma run_outcome (c : Call) (db : DB) : outcome c db (fst (run c db)) (snd (run c db)).
Proof.
  destruct (target c) as [match_id|] eqn:Hc.
  2:{ (* ingestion *)
    destruct c; try discriminate. simpl run.
    destruct (_parse_save file_bytes) as [parsed|e] eqn:Hparse.
    2:{ unfold create_from_save. rewrite sbind_lift, Hparse. nothing_written. }
    rewrite (create_from_save_run _ _ _ _ _ _ _ Hparse).
    destruct (find_by_hash _ _); [nothing_written|].
    destruct (recompute_ratings db _) as [[[[[m'|] p1] p2] p3]|e] eqn:Hrec;
      try nothing_written.
    apply (outcome_inserted _ _ _ _ m'); try reflexivity.
    by eapply recompute_ratings_teams. }
  destruct (run_unknown_match db match_id c Hc) as [Hbad Hnone].
  destruct (ObjectId_of_str match_id) as [oid|] eqn:Hoid;
    [|rewrite (Hbad eq_refl); nothing_written].
  destruct (find_by_id (pending_matches db) oid) as [m|] eqn:Hfind;
    [|rewrite (Hnone oid eq_refl Hfind); nothing_written].
  clear Hbad Hnone.
  destruct c; simpl in Hc; try discriminate; injection Hc as ->; simpl run.
  - (* reorder *)
    rewrite (change_order_run _ _ _ _ _ _ Hoid Hfind).
    destruct (negb _); [nothing_written|].
    destruct (mapR _ _); [|nothing_written].
    destruct (recompute_ratings db _) as [[[[[m'|] p1] p2] p3]|e];
      try nothing_written.
    eapply (outcome_replaced _ _ _ _ _ oid m);
      [reflexivity|exact Hoid|exact Hfind|reflexivity| |reflexivity| |].
    + simpl. by rewrite (modify_by_id_found _ _ _ _ Hfind).
    + by eexists.
    + unfold change_order_changes, num_teams. simpl. by rewrite map_patch_players.
  - (* toggle quit *)
    rewrite (trigger_quit_Ok _ _ _ _ _ _ Hoid Hfind).
    eapply (outcome_replaced _ _ _ _ _ oid m);
      [reflexivity|exact Hoid|exact Hfind|reflexivity| |reflexivity| |].
    + simpl. by rewrite (modify_by_id_found _ _ _ _ Hfind).
    + by eexists.
    + unfold num_teams. simpl. by rewrite map_patch_players.
  - (* bind identity *)
    destruct (py_int player_id) as [pid|] eqn:Hpid.
    2:{ unfold assign_discord_id, _to_oid, find_pending.
        rewrite sbind_lift, Hoid. cbn [or_raise]. rewrite sbind_read, Hfind.
        cbn [or_raise]. rewrite sbind_lift, Hpid. nothing_written. }
    rewrite (assign_discord_id_run _ _ _ _ _ _ _ _ Hoid Hfind Hpid).
    destruct (_ || _); [nothing_written|]. cbv zeta.
    destruct (recompute_ratings db _) as [[[[[m'|] p1] p2] p3]|e];
      try nothing_written.
    destruct (py_get _ _); [|nothing_written].
    eapply (outcome_replaced _ _ _ _ _ oid m);
      [reflexivity|exact Hoid|exact Hfind|reflexivity| |reflexivity| |].
    + simpl. by rewrite (modify_by_id_found _ _ _ _ Hfind).
    + by eexists.
    + unfold assign_discord_id_changes, num_teams. simpl.
      by rewrite map_patch_players, map_team_alter.
  - (* insert substitute *)
    destruct (py_int sub_in_id) as [i|] eqn:Hsid.
    2:{ unfold assign_sub, _to_oid, find_pending.
        rewrite sbind_lift, Hoid. cbn [or_raise]. rewrite sbind_read, Hfind.
        cbn [or_raise]. rewrite sbind_lift, Hsid. nothing_written. }
    destruct (decide (0 <= i < Z.of_nat (length (players m)))) as [Hi|Hi].
    2:{ rewrite (assign_sub_out_of_range _ _ _ _ _ _ _ _ Hoid Hfind Hsid Hi).
        nothing_written. }
    destruct (assign_sub_run db _ _ sub_out_discord_id discord_message_id _ _ _
                Hoid Hfind Hsid Hi) as (origin & Horigin & ->).
    destruct (recompute_ratings db _) as [[[[[m'|] p1] p2] p3]|e] eqn:Hrec;
      try nothing_written.
    pose proof (recompute_ratings_teams _ _ _ _ _ _ Hrec) as Hteams.
    apply recompute_ratings_Ok in Hrec as (_ & m1 & [= <-] & _ & Hm1).
    eapply (outcome_replaced _ _ _ _ _ oid m);
      [reflexivity|exact Hoid|exact Hfind|reflexivity|reflexivity| | |].
    + by apply header_erase_players.
    + by eexists.
    + intros _. exact Hteams.
  - (* remove substitute *)
    destruct (py_int sub_out_id) as [i|] eqn:Hsid.
    2:{ unfold remove_sub, _to_oid, find_pending.
        rewrite sbind_lift, Hoid. cbn [or_raise]. rewrite sbind_read, Hfind.
        cbn [or_raise]. rewrite sbind_lift, Hsid. nothing_written. }
    rewrite (remove_sub_run _ _ _ _ _ _ _ Hoid Hfind Hsid).
    destruct (_ || _ || _); [nothing_written|].
    destruct (recompute_ratings db _) as [[[[[m'|] p1] p2] p3]|e] eqn:Hrec;
      try nothing_written.
    pose proof (recompute_ratings_teams _ _ _ _ _ _ Hrec) as Hteams.
    apply recompute_ratings_Ok in Hrec as (_ & m1 & [= <-] & _ & Hm1).
    eapply (outcome_replaced _ _ _ _ _ oid m);
      [reflexivity|exact Hoid|exact Hfind|reflexivity|reflexivity| | |].
    + by apply header_erase_players.
    + by eexists.
    + intros _. exact Hteams.
  - (* append correlation ids *)
    rewrite (append_discord_message_id_list_Ok _ _ _ _ _ Hoid Hfind).
    eapply (outcome_replaced _ _ _ _ _ oid m);
      [reflexivity|exact Hoid|exact Hfind|reflexivity| |reflexivity| |].
    + simpl. by rewrite (modify_by_id_found _ _ _ _ Hfind).
    + by eexists.
    + done.
Qed.

Lemma same_match_refl (d : nat * MatchModel) : same_match d d.
Proof. split; [done|]. split; [done|]. exists []. by rewrite app_nil_r. Qed.

Lemma Forall2_same_match_refl (c : list (nat * MatchModel)) : Forall2 same_match c c.
Proof. induction c; constructor; auto using same_match_refl. Qed.

Lemma modify_by_id_same_match (oid : nat) (c : list (nat * MatchModel))
    (m m' : MatchModel) :
  find_by_id c oid = Some m -> header m' = header m ->
  (exists added, discord_messages_id_list m' = discord_messages_id_list m ++ added) ->
  Forall2 same_match c (modify_by_id (fun _ => m') oid c).
Proof.
  intros Hfind Hh Hl. unfold find_by_id in Hfind.
  induction c as [|d c IH]; simpl in *; [constructor|].
  destruct (Nat.eqb (fst d) oid); simpl in Hfind.
  - injection Hfind as <-. constructor; [|apply Forall2_same_match_refl]. by split.
  - constructor; [apply same_match_refl|by apply IH].
Qed.

(** X7. A call that raises has written nothing: after a failed ingestion,
    mutation or deletion the database is the one before the call; a lookup
    never writes. *)
Theorem failed_call_writes_nothing (db : DB) :
  (forall c e, fst (run c db) = Err e -> snd (run c db) = db)
  /\ (forall match_id e, fst (delete_pending_match match_id db) = Err e ->
        snd (delete_pending_match match_id db) = db)
  /\ (forall match_id, snd (get match_id db) = db).
Proof.
  split; [|split].
  - intros c e He. destruct (run_outcome c db) as [Hdb _|? oid m m' _ _ _ Hr _ _ _ _|m' _ Hr _ _].
    + exact Hdb.
    + rewrite He in Hr. discriminate.
    + rewrite He in Hr. discriminate.
  - intros match_id e. unfold delete_pending_match, _to_oid, find_pending.
    rewrite sbind_lift. destruct (ObjectId_of_str match_id) as [oid|]; [|done].
    cbn [or_raise]. rewrite sbind_read.
    by destruct (find_by_id (pending_matches db) oid).
  - intros match_id. unfold get, _to_oid, find_pending.
    rewrite sbind_lift. destruct (ObjectId_of_str match_id) as [oid|]; [|done].
    cbn [or_raise]. rewrite sbind_read.
    by destruct (find_by_id (pending_matches db) oid).
Qed.

(** X8. Ingestion and the mutation operations write to the pending
    collection only: the validated matches, the user directory, the
    substitution counters and the rating tables are left as they were.  No
    pending match is removed or moved; each keeps its [_id] and every field
    other than its rows and its correlation ids, and its correlation ids only
    grow at the end; at most one match is added, at the end. *)
Theorem run_writes_pending_only (c : Call) (db : DB) :
  let db' := snd (run c db) in
  validated_matches db' = validated_matches db /\ users db' = users db
  /\ subs_table db' = subs_table db /\ stats db' = stats db
  /\ exists kept added,
       pending_matches db' = kept ++ added
       /\ Forall2 same_match (pending_matches db) kept
       /\ (length added <= 1)%nat.
Proof.
  intros db'. subst db'.
  destruct (run_outcome c db) as [-> _|? oid m m' _ _ Hfind _ -> Hh Hl _|m' _ _ -> _].
  - do 4 (split; [reflexivity|]). exists (pending_matches db), [].
    rewrite app_nil_r. split; [reflexivity|].
    split; [apply Forall2_same_match_refl|simpl; lia].
  - do 4 (split; [reflexivity|]).
    exists (modify_by_id (fun _ => m') oid (pending_matches db)), [].
    rewrite app_nil_r. split; [reflexivity|].
    split; [by eapply modify_by_id_same_match|simpl; lia].
  - do 4 (split; [reflexivity|]).
    exists (pending_matches db), [(next_oid db, m')]. split; [reflexivity|].
    split; [apply Forall2_same_match_refl|simpl; lia].
Qed.

(** ** Lookups that fail *)

Lemma approve_match_no_match (fault : nat -> bool) (now : datetime) (db : DB)
    (match_id approver : string) :
  (ObjectId_of_str match_id = None ->
   approve_match fault now match_id approver db = (Err InvalidIDError, db))
  /\ (forall oid, ObjectId_of_str match_id = Some oid ->
        find_by_id (pending_matches db) oid = None ->
        approve_match fault now match_id approver db = (Err NotFoundError, db)).
Proof.
  split.
  - intros Hoid. unfold approve_match, _to_oid. by rewrite sbind_lift, Hoid.
  - intros oid Hoid Hfind. unfold approve_match, _to_oid, find_pending.
    rewrite sbind_lift, Hoid. cbn [or_raise]. by rewrite sbind_read, Hfind.
Qed.

(** X9. Every operation that names a pending match checks the reference
    first: a malformed reference raises [InvalidIDError] and a well-formed one
    that names no pending match raises [NotFoundError], whatever the other
    arguments are, and nothing is written. *)
Theorem unknown_match_is_rejected (db : DB) (match_id : string) :
  (ObjectId_of_str match_id = None ->
     (forall c, target c = Some match_id -> run c db = (Err InvalidIDError, db))
     /\ get match_id db = (Err InvalidIDError, db)
     /\ delete_pending_match match_id db = (Err InvalidIDError, db)
     /\ forall fault now approver,
          approve_match fault now match_id approver db = (Err InvalidIDError, db))
  /\ (forall oid, ObjectId_of_str match_id = Some oid ->
        find_by_id (pending_matches db) oid = None ->
        (forall c, target c = Some match_id -> run c db = (Err NotFoundError, db))
        /\ get match_id db = (Err NotFoundError, db)
        /\ delete_pending_match match_id db = (Err NotFoundError, db)
        /\ forall fault now approver,
             approve_match fault now match_id approver db = (Err NotFoundError, db)).
Proof.
  split.
  - intros Hoid. split; [|split; [|split]].
    + intros c Hc. by apply (run_unknown_match db match_id c Hc).
    + unfold get, _to_oid. by rewrite sbind_lift, Hoid.
    + unfold delete_pending_match, _to_oid. by rewrite sbind_lift, Hoid.
    + intros fault now approver. by apply approve_match_no_match.
  - intros oid Hoid Hfind. split; [|split; [|split]].
    + intros c Hc. by apply (run_unknown_match db match_id c Hc) with oid.
    + unfold get, _to_oid, find_pending.
      rewrite sbind_lift, Hoid. cbn [or_raise]. by rewrite sbind_read, Hfind.
    + unfold delete_pending_match, _to_oid, find_pending.
      rewrite sbind_lift, Hoid. cbn [or_raise]. by rewrite sbind_read, Hfind.
    + intros fault now approver. by eapply approve_match_no_match.
Qed.

(** ** Deleting a pending match *)

Lemma find_by_id_split (c : list (nat * MatchModel)) (oid : nat) (m : MatchModel) :
  find_by_id c oid = Some m ->
  exists before after,
    c = before ++ (oid, m) :: after
    /\ (forall d, d ∈ before -> fst d <> oid)
    /\ delete_by_id oid c = before ++ after.
Proof.
  unfold find_by_id. induction c as [|d c IH]; simpl; [done|].
  destruct (Nat.eqb_spec (fst d) oid) as [Heq|Hne]; simpl.
  - intros [= <-]. exists [], c. destruct d as [k m']. simpl in *. subst k.
    split; [reflexivity|]. split; [|reflexivity]. intros d Hd. by apply elem_of_nil in Hd.
  - intros H. destruct (IH H) as (before & after & -> & Hb & Hdel).
    exists (d :: before), after. split; [reflexivity|]. split; [|by rewrite Hdel].
    intros d' Hd'. apply elem_of_cons in Hd' as [->|Hd']; [exact Hne|by apply Hb].
Qed.

Lemma find_by_id_None (c : list (nat * MatchModel)) (oid : nat) :
  find_by_id c oid = None <-> oid ∉ map fst c.
Proof.
  unfold find_by_id. induction c as [|d c IH]; simpl.
  - split; [intros _ H; by apply elem_of_nil in H|done].
  - destruct (Nat.eqb_spec (fst d) oid) as [Heq|Hne]; simpl.
    + split; [done|]. intros H. exfalso. apply H, elem_of_cons. by left.
    + rewrite IH. rewrite not_elem_of_cons. split; [by split|by intros [_ ?]].
Qed.

(** X10. Deleting a pending match returns the stored document and removes
    it, the first one with that [_id], from the pending collection; the other
    pending matches stay, in their order, and nothing else is written.  When
    the [_id]s of the collection are distinct the match can no longer be
    looked up. *)
Theorem delete_pending_match_removes (db : DB) (match_id : string) (oid : nat)
    (m : MatchModel) :
  ObjectId_of_str match_id = Some oid ->
  find_by_id (pending_matches db) oid = Some m ->
  exists before after,
    pending_matches db = before ++ (oid, m) :: after
    /\ (forall d, d ∈ before -> fst d <> oid)
    /\ delete_pending_match match_id db
       = (Ok (mkResponse (str_of_ObjectId oid) m None), set_pending (before ++ after) db)
    /\ (NoDup (map fst (pending_matches db)) ->
        get match_id (set_pending (before ++ after) db)
        = (Err NotFoundError, set_pending (before ++ after) db)).
Proof.
  intros Hoid Hfind.
  destruct (find_by_id_split _ _ _ Hfind) as (before & after & Hc & Hb & Hdel).
  exists before, after. split; [exact Hc|]. split; [exact Hb|]. split.
  - unfold delete_pending_match, _to_oid, find_pending.
    rewrite sbind_lift, Hoid. cbn [or_raise]. rewrite sbind_read, Hfind. cbn [or_raise].
    rewrite sbind_write. by rewrite Hdel.
  - intros Hnd. unfold get, _to_oid, find_pending.
    rewrite sbind_lift, Hoid. cbn [or_raise]. rewrite sbind_read. simpl.
    assert (Hnone : find_by_id (before ++ after) oid = None).
    { apply find_by_id_None. rewrite Hc, map_app in Hnd. simpl in Hnd.
      apply NoDup_app in Hnd as (_ & Hdisj & Hnd).
      apply NoDup_cons in Hnd as [Hnot _].
      rewrite map_app. intros Hin. apply elem_of_app in Hin as [Hin|Hin].
      - apply (Hdisj oid Hin). apply elem_of_cons. by left.
      - by apply Hnot. }
    by rewrite Hnone.
Qed.

(** ** Toggling the quit flag *)

Lemma set_quit_same (p : PlayerModel) : set_quit (quit p) p = p.
Proof. by destruct p. Qed.

Lemma patch_quit_same (ps : list PlayerModel) :
  patch_players (fun c s => set_quit (quit c) s) ps ps = ps.
Proof. induction ps as [|p ps IH]; simpl; [done|]. by rewrite set_quit_same, IH. Qed.

Lemma patch_toggle_first_quit (q : string) (ps : list PlayerModel) :
  patch_players (fun c s => set_quit (quit c) s) (toggle_first_quit q ps) ps
  = toggle_first_quit q ps.
Proof.
  induction ps as [|p ps IH]; simpl; [done|].
  destruct (bool_decide (discord_id p = Some q)); simpl.
  - by rewrite patch_quit_same.
  - by rewrite set_quit_same, IH.
Qed.

Lemma toggle_first_quit_absent (q : string) (ps : list PlayerModel) :
  (forall p, p ∈ ps -> discord_id p <> Some q) -> toggle_first_quit q ps = ps.
Proof.
  induction ps as [|p ps IH]; intros H; simpl; [done|].
  rewrite bool_decide_eq_false_2 by (apply H, elem_of_cons; by left).
  rewrite IH; [done|]. intros p' Hp'. apply H, elem_of_cons. by right.
Qed.

Lemma toggle_first_quit_first (q : string) (ps : list PlayerModel) (i : nat)
    (p : PlayerModel) :
  ps !! i = Some p -> discord_id p = Some q ->
  (forall j p', (j < i)%nat -> ps !! j = Some p' -> discord_id p' <> Some q) ->
  toggle_first_quit q ps = <[i := set_quit (negb (quit p)) p]> ps.
Proof.
  revert i. induction ps as [|p0 ps IH]; intros i Hi Hq Hfirst; [done|].
  destruct i as [|i]; simpl in *.
  - injection Hi as ->. by rewrite bool_decide_eq_true_2.
  - rewrite bool_decide_eq_false_2 by (apply (Hfirst 0%nat); [lia|done]).
    f_equal. apply IH; [exact Hi|exact Hq|].
    intros j p' Hj Hp'. apply (Hfirst (S j)); [lia|exact Hp'].
Qed.

Lemma toggle_first_quit_twice (q : string) (ps : list PlayerModel) :
  toggle_first_quit q (toggle_first_quit q ps) = ps.
Proof.
  induction ps as [|p ps IH]; simpl; [done|].
  destruct (bool_decide (discord_id p = Some q)) eqn:Hp; simpl; rewrite Hp.
  - rewrite negb_involutive. by destruct p.
  - by rewrite IH.
Qed.

Lemma modify_by_id_twice (f g : MatchModel -> MatchModel) (oid : nat)
    (c : list (nat * MatchModel)) :
  modify_by_id g oid (modify_by_id f oid c) = modify_by_id (fun m => g (f m)) oid c.
Proof.
  induction c as [|d c IH]; simpl; [done|].
  destruct (Nat.eqb (fst d) oid) eqn:Hd; simpl; rewrite Hd; [done|by rewrite IH].
Qed.

(** X11. On a pending match [trigger_quit] never raises.  It flips the
    [quit] flag of the first row bound to the identity and of no other row,
    and when no row is bound to it the rows stay as they are and only the
    correlation id is recorded.  No rating is recomputed, and a second call
    for the same identity puts the rows back. *)
Theorem trigger_quit_toggles (db : DB) (match_id quitter msg : string)
    (oid : nat) (m : MatchModel) :
  ObjectId_of_str match_id = Some oid ->
  find_by_id (pending_matches db) oid = Some m ->
  let final :=
    set_discord_messages_id_list (discord_messages_id_list m ++ [msg])
      (set_players (toggle_first_quit quitter (players m)) m) in
  trigger_quit match_id quitter msg db
  = (Ok (mkResponse (str_of_ObjectId oid) final None),
     set_pending (modify_by_id (fun _ => final) oid (pending_matches db)) db)
  /\ ((forall p, p ∈ players m -> discord_id p <> Some quitter) ->
      players final = players m)
  /\ (forall i p, players m !! i = Some p -> discord_id p = Some quitter ->
        (forall j p', (j < i)%nat -> players m !! j = Some p' ->
                      discord_id p' <> Some quitter) ->
        players final = <[i := set_quit (negb (quit p)) p]> (players m))
  /\ forall msg',
       snd (trigger_quit match_id quitter msg' (snd (trigger_quit match_id quitter msg db)))
       = set_pending
           (modify_by_id
              (fun _ => set_discord_messages_id_list
                          (discord_messages_id_list m ++ [msg; msg']) m)
              oid (pending_matches db)) db.
Proof.
  intros Hoid Hfind final.
  assert (Hrun : trigger_quit match_id quitter msg db
                 = (Ok (mkResponse (str_of_ObjectId oid) final None),
                    set_pending (modify_by_id (fun _ => final) oid (pending_matches db)) db)).
  { rewrite (trigger_quit_Ok _ _ _ _ _ _ Hoid Hfind). cbv zeta.
    rewrite (modify_by_id_found _ _ _ _ Hfind).
    by rewrite patch_toggle_first_quit. }
  split; [exact Hrun|]. split; [|split].
  - intros Habsent. simpl. by apply toggle_first_quit_absent.
  - intros i p Hi Hq Hfirst. simpl. by apply toggle_first_quit_first.
  - intros msg'. rewrite Hrun. cbn [snd].
    erewrite trigger_quit_Ok; [|exact Hoid|].
    2:{ simpl. by rewrite find_modify_by_id, Hfind. }
    cbv zeta. cbn [snd]. simpl pending_matches.
    rewrite modify_by_id_twice. unfold set_pending. simpl.
    rewrite patch_toggle_first_quit, toggle_first_quit_twice, <- app_assoc.
    subst final. by destruct m.
Qed.

(** ** Reordering and binding *)

Lemma patch_players_length (f : PlayerModel -> PlayerModel -> PlayerModel)
    (cs ss : list PlayerModel) :
  length (patch_players f cs ss) = length ss.
Proof.
  revert cs. induction ss as [|s ss IH]; intros [|c cs]; simpl; try reflexivity.
  by rewrite IH.
Qed.

Lemma patch_players_lookup (f : PlayerModel -> PlayerModel -> PlayerModel)
    (cs ss : list PlayerModel) (i : nat) (c s : PlayerModel) :
  cs !! i = Some c -> ss !! i = Some s -> patch_players f cs ss !! i = Some (f c s).
Proof.
  revert ss i. induction cs as [|c0 cs IH]; intros [|s0 ss] [|i] Hc Hs;
    simpl in *; try discriminate.
  - by injection Hc as ->; injection Hs as ->.
  - by apply IH.
Qed.

Lemma patch_players_computed (f : PlayerModel -> PlayerModel -> PlayerModel)
    (cs ss : list PlayerModel) :
  Forall2 (fun c s => f c s = c) cs ss -> patch_players f cs ss = cs.
Proof. induction 1 as [|c s cs ss Hc _ IH]; simpl; [done|]. by rewrite Hc, IH. Qed.

Lemma map_eq_Forall2 {A B} (h : A -> B) (l k : list A) :
  map h l = map h k -> Forall2 (fun x y => h x = h y) l k.
Proof.
  revert k. induction l as [|x l IH]; intros [|y k] H; simpl in H; try discriminate.
  - constructor.
  - injection H as Hx Hl. constructor; [exact Hx|by apply IH].
Qed.

Lemma set_players_erase (a b : MatchModel) :
  erase_players a = erase_players b -> a = set_players (players a) b.
Proof.
  destruct a, b. unfold erase_players, set_players. simpl. intros [=]. by subst.
Qed.

Lemma place_player_Ok (tokens : list string) (p q : PlayerModel) :
  place_player tokens p = Ok q ->
  exists token n, py_index tokens (team p) = Ok token /\ py_int token = Some n
                  /\ q = set_placement (Some (n - 1)) p.
Proof.
  unfold place_player. destruct (py_index tokens (team p)) as [token|]; [|discriminate].
  cbn [rbind]. destruct (py_int token) as [n|] eqn:Hn; [|discriminate].
  cbn [or_raise rbind]. intros [= <-]. by exists token, n.
Qed.

(** X12. A successful [change_order] has as many tokens as the match has
    teams, gives every row the placement [int(token) - 1] of the token at the
    index of its team, recomputes the ratings of the match so placed, and
    stores exactly the recomputed match with the correlation id appended:
    the field-wise [$set] carries everything the recomputation changed. *)
Theorem change_order_stores_recomputed (db db' : DB)
    (match_id new_order msg : string) (oid : nat) (m : MatchModel) (r : Response) :
  ObjectId_of_str match_id = Some oid ->
  find_by_id (pending_matches db) oid = Some m ->
  change_order match_id new_order msg db = (Ok r, db') ->
  length (split_space new_order) = num_teams m
  /\ exists placed m' p1 p2 p3,
       Forall2 (fun p q =>
                  exists token n,
                    py_index (split_space new_order) (team p) = Ok token
                    /\ py_int token = Some n
                    /\ q = set_placement (Some (n - 1)) p)
               (players m) placed
       /\ recompute_ratings db (set_players placed m) = Ok (Some m', p1, p2, p3)
       /\ r = mkResponse (str_of_ObjectId oid)
                (set_discord_messages_id_list (discord_messages_id_list m ++ [msg]) m')
                None
       /\ db' = set_pending (modify_by_id (fun _ => r_match r) oid (pending_matches db)) db.
Proof.
  intros Hoid Hfind Hrun. rewrite (change_order_run _ _ _ _ _ _ Hoid Hfind) in Hrun.
  destruct (length (split_space new_order) =? num_teams m)%nat eqn:Hlen;
    cbn [negb] in Hrun; [|discriminate].
  apply Nat.eqb_eq in Hlen. split; [exact Hlen|].
  destruct (mapR _ _) as [placed|] eqn:Hplaced; [|discriminate].
  destruct (recompute_ratings db _) as [[[[[m'|] p1] p2] p3]|e] eqn:Hrec;
    try discriminate.
  injection Hrun as <- <-. exists placed, m', p1, p2, p3.
  apply mapR_Forall2 in Hplaced.
  assert (Hplaced' : Forall2 (fun p q =>
             exists token n,
               py_index (split_space new_order) (team p) = Ok token
               /\ py_int token = Some n /\ q = set_placement (Some (n - 1)) p)
            (players m) placed).
  { eapply Forall2_impl; [exact Hplaced|]. intros p q. apply place_player_Ok. }
  split; [exact Hplaced'|]. split; [exact Hrec|].
  apply recompute_ratings_Ok in Hrec as (_ & m1 & [= <-] & Hrows & Hm1).
  assert (Hfinal : change_order_changes m msg m' m
                   = set_discord_messages_id_list (discord_messages_id_list m ++ [msg]) m').
  { unfold change_order_changes. rewrite patch_players_computed.
    - by rewrite (set_players_erase m' _ Hm1).
    - apply map_eq_Forall2 in Hrows. simpl in Hrows.
      eapply Forall2_trans; [|exact Hrows|apply Forall2_flip; exact Hplaced'].
      intros c q s Hc (token & n & _ & _ & ->). simpl.
      destruct c, s. unfold erase_deltas in Hc. simpl in *.
      injection Hc as -> -> -> -> -> -> -> -> -> -> ->.
      reflexivity. }
  split.
  - by rewrite Hfinal.
  - simpl. rewrite (modify_by_id_found _ _ _ _ Hfind). by rewrite Hfinal.
Qed.

Lemma lookup_alter_Some {A} (f : A -> A) (i j : nat) (l : list A) (y : A) :
  alter f i l !! j = Some y ->
  (j = i /\ exists x, l !! j = Some x /\ y = f x) \/ (j <> i /\ l !! j = Some y).
Proof.
  destruct (decide (i = j)) as [<-|Hne].
  - rewrite list_lookup_alter_eq. destruct (l !! i) as [x|]; [|discriminate].
    intros [= <-]. left. split; [done|]. by exists x.
  - rewrite list_lookup_alter_ne by done. intros H. right. by split.
Qed.

Lemma erase_deltas_fields (c s : PlayerModel) :
  erase_deltas c = erase_deltas s ->
  steam_id c = steam_id s /\ discord_id c = discord_id s
  /\ set_season_delta (season_delta c) (set_delta Fdelta (delta c) s)
     = set_combined_delta (combined_delta s) c.
Proof.
  destruct c, s. unfold erase_deltas. simpl. intros [=]. by subst.
Qed.

(** X13. A successful [assign_discord_id] takes a slot number between 1
    and the number of rows and binds the row before it: the row gets the
    identity and the steam account that the directory has for the identity
    (none when the directory does not know it).  The ratings are recomputed
    for the match so bound; every stored row takes its [delta] and
    [season_delta] from the recomputation and keeps the [combined_delta] it
    had, and nothing else of a row or of the match changes but the
    correlation ids. *)
Theorem assign_discord_id_binds (db db' : DB)
    (match_id player_id player_discord_id msg : string) (oid : nat) (m : MatchModel)
    (pid : Z) (r : Response) :
  ObjectId_of_str match_id = Some oid ->
  find_by_id (pending_matches db) oid = Some m ->
  py_int player_id = Some pid ->
  assign_discord_id match_id player_id player_discord_id msg db = (Ok r, db') ->
  let bind p :=
    set_steam_id (discord_to_steam_id db player_discord_id)
      (set_discord_id (Some player_discord_id) p) in
  let bound_rows := alter bind (Z.to_nat (pid - 1)) (players m) in
  1 <= pid <= Z.of_nat (length (players m))
  /\ db' = set_pending (modify_by_id (fun _ => r_match r) oid (pending_matches db)) db
  /\ header (r_match r) = header m
  /\ discord_messages_id_list (r_match r) = discord_messages_id_list m ++ [msg]
  /\ length (players (r_match r)) = length (players m)
  /\ exists m' p1 p2 p3,
       recompute_ratings db (set_players bound_rows m) = Ok (Some m', p1, p2, p3)
       /\ forall j p b, players m !! j = Some p -> bound_rows !! j = Some b ->
          exists c, players m' !! j = Some c
            /\ erase_deltas c = erase_deltas b
            /\ players (r_match r) !! j = Some (set_combined_delta (combined_delta p) c).
Proof.
  intros Hoid Hfind Hpid Hrun bind bound_rows.
  rewrite (assign_discord_id_run _ _ _ _ _ _ _ _ Hoid Hfind Hpid) in Hrun.
  destruct ((pid <? 1) || (pid >? Z.of_nat (length (players m)))) eqn:Hrange;
    [discriminate|].
  cbv zeta in Hrun. fold bind in Hrun. fold bound_rows in Hrun.
  destruct (recompute_ratings db _) as [[[[[m'|] p1] p2] p3]|e] eqn:Hrec;
    try discriminate.
  destruct (py_get (players m') _) as [bound|] eqn:Hbound; [|discriminate].
  injection Hrun as <- <-.
  split; [lia|].
  split; [simpl; by rewrite (modify_by_id_found _ _ _ _ Hfind)|].
  split; [reflexivity|]. split; [reflexivity|].
  pose proof Hrec as Hrec'.
  apply recompute_ratings_Ok in Hrec' as (_ & m1 & [= <-] & Hrows & _).
  simpl in Hrows. apply map_eq_Forall2 in Hrows.
  assert (Hsteam : steam_id bound = discord_to_steam_id db player_discord_id).
  { unfold py_get in Hbound.
    destruct (players m' !! Z.to_nat (pid - 1)) as [c|] eqn:Hc; [|discriminate].
    injection Hbound as <-.
    destruct (Forall2_lookup_l _ _ _ _ _ Hrows Hc) as (b & Hb & Hcb).
    apply erase_deltas_fields in Hcb as (-> & _ & _).
    subst bound_rows. apply lookup_alter_Some in Hb as [(_ & p & _ & ->)|[Hne _]];
      [reflexivity|done]. }
  split.
  { simpl. unfold assign_discord_id_changes. simpl.
    by rewrite patch_players_length, length_alter. }
  exists m', p1, p2, p3. split; [reflexivity|].
  intros j p b Hp Hb.
  destruct (Forall2_lookup_r _ _ _ _ _ Hrows Hb) as (c & Hc & Hcb).
  exists c. split; [exact Hc|]. split; [exact Hcb|].
  simpl. rewrite Hsteam. fold bind. fold bound_rows.
  erewrite patch_players_lookup; [|exact Hc|exact Hb].
  f_equal. apply erase_deltas_fields in Hcb as (_ & _ & Hcb).
  etransitivity; [exact Hcb|]. f_equal.
  subst bound_rows. apply lookup_alter_Some in Hb as [(_ & p0 & Hp0 & ->)|[_ Hb]].
  - rewrite Hp in Hp0. by injection Hp0 as <-.
  - rewrite Hp in Hb. by injection Hb as <-.
Qed.

(** ** Which errors are the service's own *)

Lemma py_only_Ok {A} (a : A) : py_only (Ok a).
Proof. intros e H. discriminate. Qed.

Lemma py_only_Err {A} (cls : string) : py_only (@Err A (PyException cls)).
Proof. intros e [= <-]. by exists cls. Qed.

Lemma py_only_cast {A B} (e : exn) : py_only (@Err A e) -> py_only (@Err B e).
Proof. intros H e' [= <-]. by apply (H e). Qed.

Lemma py_only_or_raise {A} (cls : string) (o : option A) :
  py_only (or_raise (PyException cls) o).
Proof. destruct o; [apply py_only_Ok|apply py_only_Err]. Qed.

Lemma py_only_rbind {A B} (r : Result A) (k : A -> Result B) :
  py_only r -> (forall a, py_only (k a)) -> py_only (rbind r k).
Proof.
  intros Hr Hk. destruct r as [a|e]; simpl; [apply Hk|].
  intros e' [= <-]. by apply (Hr e).
Qed.

Lemma py_only_mapR {A B} (f : A -> Result B) (l : list A) :
  (forall x, py_only (f x)) -> py_only (mapR f l).
Proof.
  intros Hf. induction l as [|x l IH]; simpl; [apply py_only_Ok|].
  apply py_only_rbind; [apply Hf|]. intros y.
  apply py_only_rbind; [exact IH|]. intros ys. apply py_only_Ok.
Qed.

Lemma py_only_foldR {A S} (f : S -> A -> Result S) (l : list A) (s : S) :
  (forall s x, py_only (f s x)) -> py_only (foldR f l s).
Proof.
  intros Hf. revert s. induction l as [|x l IH]; intros s; simpl; [apply py_only_Ok|].
  apply py_only_rbind; [apply Hf|exact IH].
Qed.

Lemma py_only_py_get {A} (l : list A) (i : nat) : py_only (py_get l i).
Proof. apply py_only_or_raise. Qed.

Lemma py_only_py_index {A} (l : list A) (i : Z) : py_only (py_index l i).
Proof.
  unfold py_index. destruct (0 <=? i); [apply py_only_py_get|].
  destruct (_ <=? i); [apply py_only_py_get|apply py_only_Err].
Qed.

Lemma py_only_py_set {A} (l : list A) (i : nat) (x : A) : py_only (py_set l i x).
Proof. unfold py_set. case_decide; [apply py_only_Ok|apply py_only_Err]. Qed.

Lemma py_only_posteriors (m : MatchModel) (pr : list StatModel) :
  py_only (posteriors m pr).
Proof.
  unfold posteriors. destruct (partition_teams (players m)) as [wo wi].
  assert (Hstates : forall d, py_only (team_states pr d)).
  { intros d. apply py_only_mapR. intros g. apply py_only_mapR. intros y.
    apply py_only_py_get. }
  assert (Hranks : forall d, py_only (team_placements d)).
  { intros d. apply py_only_mapR. intros g.
    destruct (snd g); [apply py_only_Err|apply py_only_Ok]. }
  assert (Hmerge : forall body states post,
             (forall t q y, py_only (body t q y)) ->
             py_only (merge_teams body states post)).
  { intros body states post Hbody. apply py_only_foldR. intros q it.
    by apply py_only_foldR. }
  apply py_only_rbind; [apply Hstates|]. intros states_wo.
  apply py_only_rbind; [apply Hstates|]. intros states_wi.
  apply py_only_rbind; [apply Hranks|]. intros ranks_wo.
  apply py_only_rbind; [apply Hranks|]. intros ranks_wi.
  apply py_only_rbind; [apply py_only_or_raise|]. intros new_wo.
  apply py_only_rbind; [apply py_only_or_raise|]. intros new_wi.
  apply py_only_rbind; apply Hmerge || (intros post1; apply Hmerge).
  - intros t q [k player]. unfold merge_wo_subs.
    apply py_only_rbind; [apply py_only_py_get|]. intros mp.
    destruct (is_sub mp); [apply py_only_Err|].
    apply py_only_rbind; [apply py_only_py_get|]. intros row.
    apply py_only_rbind; [apply py_only_py_get|]. intros r. apply py_only_py_set.
  - intros t q [k player]. unfold merge_with_sub_ins.
    apply py_only_rbind; [apply py_only_py_get|]. intros mp.
    destruct (is_sub mp); [|apply py_only_Ok].
    apply py_only_rbind; [apply py_only_py_get|]. intros row.
    apply py_only_rbind; [apply py_only_py_get|]. intros r. apply py_only_py_set.
Qed.

Lemma py_only_update_player_stats (o : option MatchModel) (pr : list StatModel)
    (f : DeltaField) :
  py_only (update_player_stats o pr f).
Proof.
  unfold update_player_stats. destruct o as [m|]; [|apply py_only_Err].
  destruct (num_teams m <=? 1)%nat; [apply py_only_Err|].
  apply py_only_rbind; [apply py_only_posteriors|]. intros post.
  apply py_only_rbind; [|intros out; apply py_only_Ok].
  apply py_only_mapR. intros [i p]. unfold apply_delta.
  assert (Hpost : py_only (post_get post i)).
  { unfold post_get. apply py_only_rbind; [apply py_only_py_get|]. intros o.
    apply py_only_or_raise. }
  apply py_only_rbind; [apply py_only_py_get|]. intros cur.
  apply py_only_rbind.
  - unfold computed_delta. destruct (discord_id p); [|apply py_only_Ok].
    apply py_only_rbind; [exact Hpost|]. intros post_i. apply py_only_or_raise.
  - intros d. apply py_only_rbind; [exact Hpost|]. intros post_i. apply py_only_Ok.
Qed.

Lemma py_only_get_players_ranking (db : DB) (m : MatchModel) (s c : bool) :
  py_only (get_players_ranking db m s c).
Proof.
  apply py_only_mapR. intros [i p]. unfold get_player_ranking. simpl.
  destruct (discord_id p) as [d|]; [|apply py_only_Ok].
  apply py_only_rbind.
  - unfold int64_key. apply py_only_rbind; [apply py_only_or_raise|]. intros k.
    destruct (fits_int64 k); [apply py_only_Ok|apply py_only_Err].
  - intros k. destruct (_ !! k); apply py_only_Ok.
Qed.

Lemma py_only_recompute_ratings (db : DB) (m : MatchModel) :
  py_only (recompute_ratings db m).
Proof.
  unfold recompute_ratings.
  apply py_only_rbind; [apply py_only_get_players_ranking|]. intros r1.
  apply py_only_rbind; [apply py_only_get_players_ranking|]. intros r2.
  apply py_only_rbind; [apply py_only_get_players_ranking|]. intros r3.
  apply py_only_rbind; [apply py_only_update_player_stats|]. intros u1.
  apply py_only_rbind; [apply py_only_update_player_stats|]. intros u2.
  apply py_only_rbind; [apply py_only_update_player_stats|]. intros u3.
  apply py_only_Ok.
Qed.

(** X14. How the three operations that take a slot number treat it, on a
    pending match.  A slot that is not an integer raises [ValueError], not a
    service error.  A slot out of range (1 to the number of rows for
    [assign_discord_id]; 0 to the number of rows less one for [assign_sub]; 1
    to the number of rows less one, at a substituted-out row, for
    [remove_sub]) raises [MatchServiceError] and nothing is written.  A slot
    in range never raises one of the service's own errors: what can still go
    wrong is a Python built-in exception of the recomputation. *)
Theorem slot_number_errors (db : DB) (match_id : string) (oid : nat) (m : MatchModel) :
  ObjectId_of_str match_id = Some oid ->
  find_by_id (pending_matches db) oid = Some m ->
  let n := Z.of_nat (length (players m)) in
  (forall slot d msg,
     match py_int slot with
     | None => assign_discord_id match_id slot d msg db = (Err (PyException "ValueError"), db)
     | Some i =>
         if decide (1 <= i <= n)
         then py_only (fst (assign_discord_id match_id slot d msg db))
         else assign_discord_id match_id slot d msg db
              = (Err (MatchServiceError
                        "Player ID out of range. Must be between 1 and number of players"),
                 db)
     end)
  /\ (forall slot d msg,
     match py_int slot with
     | None => assign_sub match_id slot d msg db = (Err (PyException "ValueError"), db)
     | Some i =>
         if decide (0 <= i < n)
         then py_only (fst (assign_sub match_id slot d msg db))
         else assign_sub match_id slot d msg db
              = (Err (MatchServiceError
                        "Sub in Player ID out of range. Must be between 0 and number of players - 1"),
                 db)
     end)
  /\ (forall slot msg,
     match py_int slot with
     | None => remove_sub match_id slot msg db = (Err (PyException "ValueError"), db)
     | Some i =>
         if decide (1 <= i < n
                    /\ from_option subbed_out false (players m !! Z.to_nat i) = true)
         then py_only (fst (remove_sub match_id slot msg db))
         else remove_sub match_id slot msg db
              = (Err (MatchServiceError
                        "Sub in Player ID out of range. Must be between 1 and number of players - 1"),
                 db)
     end).
Proof.
  intros Hoid Hfind n. subst n. split; [|split].
  - intros slot d msg. destruct (py_int slot) as [i|] eqn:Hslot.
    2:{ unfold assign_discord_id, _to_oid, find_pending.
        rewrite sbind_lift, Hoid. cbn [or_raise]. rewrite sbind_read, Hfind.
        cbn [or_raise]. by rewrite sbind_lift, Hslot. }
    rewrite (assign_discord_id_run _ _ _ _ _ _ _ _ Hoid Hfind Hslot).
    case_decide as Hi.
    + replace ((i <? 1) || (i >? Z.of_nat (length (players m)))) with false by lia.
      cbv zeta.
      pose proof (py_only_recompute_ratings db
                    (set_players
                       (alter (fun p => set_steam_id (discord_to_steam_id db d)
                                          (set_discord_id (Some d) p))
                              (Z.to_nat (i - 1)) (players m)) m)) as Hrec.
      destruct (recompute_ratings db _) as [[[[[m'|] p1] p2] p3]|e]; simpl.
      * pose proof (py_only_py_get (players m') (Z.to_nat (i - 1))) as Hget.
        destruct (py_get _ _); [apply py_only_Ok|exact (py_only_cast _ Hget)].
      * apply py_only_Err.
      * exact (py_only_cast _ Hrec).
    + by replace ((i <? 1) || (i >? Z.of_nat (length (players m)))) with true by lia.
  - intros slot d msg. destruct (py_int slot) as [i|] eqn:Hslot.
    2:{ unfold assign_sub, _to_oid, find_pending.
        rewrite sbind_lift, Hoid. cbn [or_raise]. rewrite sbind_read, Hfind.
        cbn [or_raise]. by rewrite sbind_lift, Hslot. }
    case_decide as Hi.
    + destruct (assign_sub_run db _ _ d msg _ _ _ Hoid Hfind Hslot Hi)
        as (origin & _ & ->).
      match goal with |- context [recompute_ratings db ?x] =>
        pose proof (py_only_recompute_ratings db x) as Hrec end.
      destruct (recompute_ratings db _) as [[[[[m'|] p1] p2] p3]|e]; simpl.
      * apply py_only_Ok.
      * apply py_only_Err.
      * exact (py_only_cast _ Hrec).
    + by apply (assign_sub_out_of_range _ _ _ _ _ _ _ _ Hoid Hfind Hslot).
  - intros slot msg. destruct (py_int slot) as [i|] eqn:Hslot.
    2:{ unfold remove_sub, _to_oid, find_pending.
        rewrite sbind_lift, Hoid. cbn [or_raise]. rewrite sbind_read, Hfind.
        cbn [or_raise]. by rewrite sbind_lift, Hslot. }
    rewrite (remove_sub_run _ _ _ _ _ _ _ Hoid Hfind Hslot).
    case_decide as Hi.
    + destruct Hi as [Hi ->].
      replace ((i <? 1) || (i >=? Z.of_nat (length (players m)))) with false by lia.
      cbn [orb negb].
      match goal with |- context [recompute_ratings db ?x] =>
        pose proof (py_only_recompute_ratings db x) as Hrec end.
      destruct (recompute_ratings db _) as [[[[[m'|] p1] p2] p3]|e]; simpl.
      * apply py_only_Ok.
      * apply py_only_Err.
      * exact (py_only_cast _ Hrec).
    + destruct ((i <? 1) || (i >=? Z.of_nat (length (players m)))) eqn:Hr; [done|].
      destruct (from_option subbed_out false (players m !! Z.to_nat i)) eqn:Hs; [|done].
      exfalso. apply Hi. split; [lia|reflexivity].
Qed.

(** ** The rating tables *)

Lemma append_inj (a x y : string) : String.append a x = String.append a y -> x = y.
Proof. induction a as [|c a IH]; simpl; [done|]. intros [= H]. by apply IH. Qed.


(** ** What an approval writes *)

Lemma upsert_stat_lookup (t t' : bool * bool * string) (k k' : Z) (doc : StatDoc)
    (db : DB) :
  default ∅ (stats (upsert_stat t k doc db) !! t') !! k'
  = if decide (t' = t /\ k' = k) then Some doc else default ∅ (stats db !! t') !! k'.
Proof.
  simpl. destruct (decide (t = t')) as [<-|Ht].
  - rewrite lookup_insert_eq. simpl. destruct (decide (k = k')) as [<-|Hk].
    + rewrite lookup_insert_eq. by rewrite decide_True.
    + rewrite lookup_insert_ne by done. rewrite decide_False; [done|]. by intros [_ ->].
  - rewrite lookup_insert_ne by done. rewrite decide_False; [done|]. by intros [-> _].
Qed.

Lemma frame_refl (K : bool * bool * string -> Z -> Prop) (D : string -> Prop) (db : DB) :
  frame K D db db.
Proof. by repeat split. Qed.

Lemma frame_trans (K : bool * bool * string -> Z -> Prop) (D : string -> Prop)
    (db1 db2 db3 : DB) :
  frame K D db1 db2 -> frame K D db2 db3 -> frame K D db1 db3.
Proof.
  intros (H1 & H2 & H3 & H4 & H5 & H6) (G1 & G2 & G3 & G4 & G5 & G6).
  repeat split; try congruence.
  - intros d Hd. by rewrite G5, H5.
  - intros t k Hk. by rewrite G6, H6.
Qed.

Lemma frame_weaken (K K' : bool * bool * string -> Z -> Prop) (D D' : string -> Prop)
    (db db' : DB) :
  (forall t k, K t k -> K' t k) -> (forall d, D d -> D' d) ->
  frame K D db db' -> frame K' D' db db'.
Proof.
  intros HK HD (H1 & H2 & H3 & H4 & H5 & H6). repeat split; try assumption.
  - intros d Hd. apply H5. intros ?. by apply Hd, HD.
  - intros t k Hk. apply H6. intros ?. by apply Hk, HK.
Qed.

Lemma frame_upsert_stat (K : bool * bool * string -> Z -> Prop) (D : string -> Prop)
    (t : bool * bool * string) (k : Z) (doc : StatDoc) (db : DB) :
  K t k -> frame K D db (upsert_stat t k doc db).
Proof.
  intros HK. repeat split. intros t' k' Hk'. rewrite upsert_stat_lookup.
  rewrite decide_False; [done|]. intros [-> ->]. by apply Hk'.
Qed.

Lemma frame_inc_subs_in (K : bool * bool * string -> Z -> Prop) (D : string -> Prop)
    (d : string) (db : DB) :
  D d -> frame K D db (inc_subs_in d db).
Proof.
  intros HD. repeat split. intros d' Hd'. simpl.
  rewrite lookup_insert_ne; [done|]. intros ->. by apply Hd'.
Qed.

Lemma frame_record_player (t1 t2 t3 : bool * bool * string) (k : Z) (d : string)
    (sub : bool) (doc1 doc2 doc3 : StatDoc) (db : DB) :
  frame (fun t k' => t ∈ [t1; t2; t3] /\ k' = k) (fun d' => sub = true /\ d' = d)
    db (record_player t1 t2 t3 k d sub doc1 doc2 doc3 db).
Proof.
  unfold record_player.
  assert (H : frame (fun t k' => t ∈ [t1; t2; t3] /\ k' = k)
                (fun d' => sub = true /\ d' = d) db
                (upsert_stat t3 k doc3 (upsert_stat t2 k doc2 (upsert_stat t1 k doc1 db)))).
  { eapply frame_trans; [eapply frame_trans|]; apply frame_upsert_stat;
      (split; [|reflexivity]); set_solver. }
  destruct sub; [|exact H].
  eapply frame_trans; [exact H|]. by apply frame_inc_subs_in.
Qed.

(** One row of the approval loop: the documents it builds and the state it
    leaves. *)
Lemma approve_player_Ok (fault : nat -> bool) (now : datetime) (m : MatchModel)
    (post sp cp : option (list StatModel)) (t1 t2 t3 : bool * bool * string)
    (i : nat) (player : PlayerModel) (s s' : Session) (u : unit) :
  approve_player fault now m post sp cp t1 t2 t3 (i, player) s = (Ok u, s') ->
  exists d k x1 x2 x3 doc1 doc2 doc3,
    discord_id player = Some d /\ py_int d = Some k
    /\ post_at post i = Ok x1 /\ post_at sp i = Ok x2 /\ post_at cp i = Ok x3
    /\ get_player_stats_db now m player x1 Fdelta = Ok doc1
    /\ get_player_stats_db now m player x2 Fseason_delta = Ok doc2
    /\ get_player_stats_db now m player x3 Fcombined_delta = Ok doc3
    /\ s_db s' = record_player t1 t2 t3 k d (is_sub player) doc1 doc2 doc3 (s_db s).
Proof.
  unfold approve_player. intros H.
  rewrite sbind_lift in H. destruct (post_at post i) as [x1|] eqn:Hx1; [|discriminate].
  rewrite sbind_lift in H.
  destruct (get_player_stats_db now m player x1 Fdelta) as [doc1|] eqn:Hd1;
    [|discriminate].
  rewrite sbind_lift in H. destruct (post_at sp i) as [x2|] eqn:Hx2; [|discriminate].
  rewrite sbind_lift in H.
  destruct (get_player_stats_db now m player x2 Fseason_delta) as [doc2|] eqn:Hd2;
    [|discriminate].
  rewrite sbind_lift in H. destruct (post_at cp i) as [x3|] eqn:Hx3; [|discriminate].
  rewrite sbind_lift in H.
  destruct (get_player_stats_db now m player x3 Fcombined_delta) as [doc3|] eqn:Hd3;
    [|discriminate].
  rewrite sbind_lift in H. destruct (discord_id player) as [d|] eqn:Hd; [|discriminate].
  cbn [or_raise] in H. rewrite sbind_lift in H.
  destruct (int64_key d) as [k|] eqn:Hk; [|discriminate].
  apply int64_key_Ok in Hk as [Hk _].
  exists d, k, x1, x2, x3, doc1, doc2, doc3. do 8 (split; [first [reflexivity|assumption]|]).
  unfold sbind, tx_write in H. unfold record_player.
  destruct (fault (s_writes s)); [discriminate|]. cbn [s_db s_writes] in H.
  destruct (fault (S (s_writes s))); [discriminate|]. cbn [s_db s_writes] in H.
  destruct (fault (S (S (s_writes s)))); [discriminate|]. cbn [s_db s_writes] in H.
  destruct (is_sub player); simpl in H.
  - destruct (fault _); [discriminate|]. by injection H as _ <-.
  - by injection H as _ <-.
Qed.

Lemma sfor_cons_Ok {S A} (x : A) (l : list A) (body : A -> St S unit) (s s' : S)
    (u : unit) :
  sfor (x :: l) body s = (Ok u, s') ->
  exists s1, body x s = (Ok tt, s1) /\ sfor l body s1 = (Ok u, s').
Proof.
  simpl. unfold sbind. destruct (body x s) as [[[]|e] s1]; [|discriminate].
  intros H. by exists s1.
Qed.

(** The approval loop over the rows [ps] writes rating rows of their
    identities and substitution counters of their substitutes only. *)
Lemma approve_loop_frame (fault : nat -> bool) (now : datetime) (m : MatchModel)
    (post sp cp : option (list StatModel)) (t1 t2 t3 : bool * bool * string)
    (ps : list PlayerModel) (n : nat) :
  changes (frame (fun t k => t ∈ [t1; t2; t3] /\ identity_of ps k) (sub_in_of ps))
    (sfor (enumerate_from n ps) (approve_player fault now m post sp cp t1 t2 t3)).
Proof.
  revert n. induction ps as [|p ps IH]; intros n s s' u H.
  - injection H as _ <-. apply frame_refl.
  - simpl enumerate_from in H. apply sfor_cons_Ok in H as (s1 & Hp & Hrest).
    apply approve_player_Ok in Hp
      as (d & k & x1 & x2 & x3 & doc1 & doc2 & doc3 & Hd & Hk & _ & _ & _ & _ & _ & _ & Hs1).
    apply (frame_trans _ _ _ (s_db s1)).
    + rewrite Hs1. eapply frame_weaken; [| |apply frame_record_player].
      * intros t k' [Ht ->]. split; [exact Ht|]. exists p, d.
        split; [apply elem_of_cons; by left|by split].
      * intros d' [Hsub ->]. exists p. split; [apply elem_of_cons; by left|by split].
    + eapply frame_weaken; [| |exact (IH _ _ _ _ Hrest)].
      * intros t k' [Ht (q & d' & Hq & Hd' & Hk')]. split; [exact Ht|].
        exists q, d'. split; [apply elem_of_cons; by right|by split].
      * intros d' (q & Hq & Hsub & Hd'). exists q.
        split; [apply elem_of_cons; by right|by split].
Qed.

(** The state that the writes of a committed approval leave. *)
Lemma approve_writes_Ok (fault : nat -> bool) (now : datetime) (oid : nat)
    (m : MatchModel) (post sp cp : option (list StatModel)) (db : DB) (v : nat)
    (s : Session) :
  approve_writes fault now oid m post sp cp (mkSession db 0) = (Ok v, s) ->
  exists s1,
    sfor (enumerate (players m))
      (approve_player fault now m post sp cp
         (get_stat_table (is_cloud m) (game_mode m) (game m) false false)
         (get_stat_table (is_cloud m) (game_mode m) (game m) true false)
         (get_stat_table (is_cloud m) (game_mode m) (game m) false true))
      (mkSession db 0) = (Ok tt, s1)
    /\ v = next_oid db
    /\ s_db s = mkDB (delete_by_id oid (pending_matches db))
                  (validated_matches db ++ [(next_oid db, m)]) (users db)
                  (subs_table (s_db s1)) (stats (s_db s1)) (S (next_oid db)).
Proof.
  unfold approve_writes. cbv zeta. intros H. unfold sbind at 1 in H.
  destruct (sfor _ _ _) as [[[]|e] s1] eqn:Hloop; [|discriminate].
  exists s1. split; [reflexivity|].
  apply approve_loop_frame in Hloop as (Hp & Hv & Hu & Hn & _ & _). simpl in *.
  unfold sbind, tx_write, sret in H.
  destruct (fault (s_writes s1)); [discriminate|].
  unfold insert_validated in H. cbn [s_db s_writes] in H.
  destruct (fault (S (s_writes s1))); [discriminate|].
  injection H as <- <-. simpl. rewrite Hn. split; [reflexivity|].
  unfold set_pending. simpl. by rewrite Hp, Hv, Hu.
Qed.

Lemma require_discord_ids_Ok (ps : list PlayerModel) (u : unit) :
  require_discord_ids ps = Ok u -> forall p, p ∈ ps -> discord_id p <> None.
Proof.
  unfold require_discord_ids. induction ps as [|q ps IH]; simpl; intros H p Hp.
  - by apply elem_of_nil in Hp.
  - destruct (discord_id q) as [d|] eqn:Hq; [|discriminate]. cbn [rbind] in H.
    apply elem_of_cons in Hp as [->|Hp]; [by rewrite Hq|by apply IH].
Qed.

(** A committed approval, in full. *)
Lemma approve_match_Ok (fault : nat -> bool) (now : datetime) (db db' : DB)
    (match_id approver : string) (oid : nat) (m : MatchModel) (r : Response) :
  ObjectId_of_str match_id = Some oid ->
  find_by_id (pending_matches db) oid = Some m ->
  approve_match fault now match_id approver db = (Ok r, db') ->
  (forall p, p ∈ players m -> discord_id p <> None)
  /\ exists m' post sp cp s1,
       recompute_ratings db m = Ok (Some m', post, sp, cp)
       /\ r = mkResponse (str_of_ObjectId (next_oid db)) (set_approval now approver m') None
       /\ sfor (enumerate (players m'))
            (approve_player fault now (set_approval now approver m') post sp cp
               (get_stat_table (is_cloud m) (game_mode m) (game m) false false)
               (get_stat_table (is_cloud m) (game_mode m) (game m) true false)
               (get_stat_table (is_cloud m) (game_mode m) (game m) false true))
            (mkSession db 0) = (Ok tt, s1)
       /\ db' = mkDB (delete_by_id oid (pending_matches db))
                  (validated_matches db ++ [(next_oid db, set_approval now approver m')])
                  (users db) (subs_table (s_db s1)) (stats (s_db s1)) (S (next_oid db)).
Proof.
  intros Hoid Hfind H. rewrite (approve_match_run _ _ _ _ _ _ _ Hoid Hfind) in H.
  destruct (require_discord_ids (players m)) as [u|] eqn:Hreq; [|discriminate].
  split; [by eapply require_discord_ids_Ok|].
  destruct (recompute_ratings db m) as [[[[[m'|] post] sp] cp]|e] eqn:Hrec;
    try discriminate.
  cbv zeta in H.
  destruct (approve_writes _ _ _ _ _ _ _ _) as [[v|e] s] eqn:Hw; [|discriminate].
  injection H as <- <-.
  apply approve_writes_Ok in Hw as (s1 & Hloop & -> & Hs).
  apply recompute_ratings_Ok in Hrec as (_ & m1 & [= <-] & _ & Hm1).
  assert (Hsame : is_cloud m' = is_cloud m /\ game_mode m' = game_mode m
                  /\ game m' = game m).
  { destruct m, m'. unfold erase_players, set_players in Hm1. simpl in *.
    by injection Hm1 as -> _ _ _ -> -> _ _ _ _ _ _ _ _ _. }
  destruct Hsame as (Hc & Hg & Hv). simpl in Hloop. rewrite Hc, Hg, Hv in Hloop.
  exists m', post, sp, cp, s1. split; [reflexivity|]. split; [reflexivity|].
  split; [exact Hloop|exact Hs].
Qed.

(** X15. A committed approval moves the match: the answer is the
    recomputed match stamped with the approval time and the approver, under
    the [_id] of the document inserted into the validated collection; the
    pending collection loses its first document with the [_id] of the match
    and nothing else; the user directory is not written.  It commits only
    when every row is bound to an identity. *)
Theorem approve_match_moves_match (fault : nat -> bool) (now : datetime) (db db' : DB)
    (match_id approver : string) (oid : nat) (m : MatchModel) (r : Response) :
  ObjectId_of_str match_id = Some oid ->
  find_by_id (pending_matches db) oid = Some m ->
  approve_match fault now match_id approver db = (Ok r, db') ->
  (forall p, p ∈ players m -> discord_id p <> None)
  /\ (exists m' post sp cp,
        recompute_ratings db m = Ok (Some m', post, sp, cp)
        /\ r_match r = set_approval now approver m')
  /\ approved_at (r_match r) = Some now
  /\ approver_discord_id (r_match r) = Some approver
  /\ r_match_id r = str_of_ObjectId (next_oid db)
  /\ pending_matches db' = delete_by_id oid (pending_matches db)
  /\ validated_matches db' = validated_matches db ++ [(next_oid db, r_match r)]
  /\ users db' = users db.
Proof.
  intros Hoid Hfind H.
  destruct (approve_match_Ok _ _ _ _ _ _ _ _ _ Hoid Hfind H)
    as (Hbound & m' & post & sp & cp & s1 & Hrec & -> & _ & ->).
  split; [exact Hbound|]. split; [by exists m', post, sp, cp|]. by repeat split.
Qed.

Lemma identity_of_erase (ps qs : list PlayerModel) (k : Z) :
  map erase_deltas ps = map erase_deltas qs -> identity_of ps k -> identity_of qs k.
Proof.
  intros H (p & d & Hp & Hd & Hk). apply map_eq_Forall2 in H.
  apply list_elem_of_lookup in Hp as [i Hi].
  destruct (Forall2_lookup_l _ _ _ _ _ H Hi) as (q & Hq & Hpq).
  exists q, d. split; [by eapply list_elem_of_lookup_2|].
  apply erase_deltas_fields in Hpq as (_ & Hid & _). by rewrite <- Hid.
Qed.

Lemma sub_in_of_erase (ps qs : list PlayerModel) (d : string) :
  map erase_deltas ps = map erase_deltas qs -> sub_in_of ps d -> sub_in_of qs d.
Proof.
  intros H (p & Hp & Hsub & Hd). apply map_eq_Forall2 in H.
  apply list_elem_of_lookup in Hp as [i Hi].
  destruct (Forall2_lookup_l _ _ _ _ _ H Hi) as (q & Hq & Hpq).
  exists q. split; [by eapply list_elem_of_lookup_2|].
  assert (is_sub p = is_sub q /\ discord_id p = discord_id q) as [Hs Hid].
  { destruct p, q. unfold erase_deltas in Hpq. simpl in *.
    by injection Hpq as _ _ _ _ _ _ -> _ _ -> _. }
  by rewrite <- Hs, <- Hid.
Qed.

(** X16. A committed approval writes, besides the two match collections,
    only rating rows of the identities of the match, in its lifetime,
    seasonal and combined tables, and substitution counters of its
    substitutes-in: every other rating row of every table and every other
    counter is as before. *)
Theorem approve_match_writes_own_rows (fault : nat -> bool) (now : datetime)
    (db db' : DB) (match_id approver : string) (oid : nat) (m : MatchModel)
    (r : Response) :
  ObjectId_of_str match_id = Some oid ->
  find_by_id (pending_matches db) oid = Some m ->
  approve_match fault now match_id approver db = (Ok r, db') ->
  (forall t k, ~ (t ∈ rating_tables m /\ identity_of (players m) k) ->
     default ∅ (stats db' !! t) !! k = default ∅ (stats db !! t) !! k)
  /\ (forall d, ~ sub_in_of (players m) d -> subs_table db' !! d = subs_table db !! d).
Proof.
  intros Hoid Hfind H.
  destruct (approve_match_Ok _ _ _ _ _ _ _ _ _ Hoid Hfind H)
    as (_ & m' & post & sp & cp & s1 & Hrec & -> & Hloop & ->).
  apply recompute_ratings_Ok in Hrec as (_ & m1 & [= <-] & Hrows & _).
  apply approve_loop_frame in Hloop as (_ & _ & _ & _ & Hsubs & Hstats).
  simpl in *. split.
  - intros t k Hk. apply Hstats. intros [Ht Hid]. apply Hk. split; [exact Ht|].
    by eapply identity_of_erase.
  - intros d Hd. apply Hsubs. intros Hsub. apply Hd. by eapply sub_in_of_erase.
Qed.

(** ** The rating runs do not read deltas *)











(** ** The rating rows that an approval stores *)








(** ** Which matches share a rating table *)

(** X18. Two calls of [get_stat_table] give the same table exactly when
    they agree on seasonal against lifetime, on whether the game is
    [civ6] (every other game goes to the civ7 database), on cloud against
    real time, and on the collection suffix, which is [combined] for a
    combined table and the game mode otherwise.  So the lifetime table of a
    match is its combined table exactly when its mode is [combined], and its
    seasonal table is neither. *)
Theorem get_stat_table_shared (cloud1 cloud2 : bool) (mode1 mode2 game1 game2 : string)
    (s1 s2 c1 c2 : bool) :
  get_stat_table cloud1 mode1 game1 s1 c1 = get_stat_table cloud2 mode2 game2 s2 c2
  <-> s1 = s2 /\ String.eqb game1 "civ6" = String.eqb game2 "civ6" /\ cloud1 = cloud2
      /\ (if c1 then "combined" else mode1) = (if c2 then "combined" else mode2).
Proof.
  unfold get_stat_table. split.
  - intros [= -> -> H]. split; [reflexivity|]. split; [reflexivity|].
    destruct cloud1, cloud2; try discriminate; split; try reflexivity;
      by apply append_inj in H.
  - by intros (-> & -> & -> & ->).
Qed.

(** ** The tokens of a new order *)

Lemma split_space_cons (s : string) : exists w ws, split_space s = w :: ws.
Proof.
  induction s as [|c s (w & ws & IH)]; simpl; [by eexists _, _|].
  destruct (Ascii.eqb c " "); [by eexists _, _|]. rewrite IH. by eexists _, _.
Qed.

(** X19. Splitting a new order at its spaces loses nothing: joining the
    tokens with single spaces gives the order back, no token contains a
    space, and there is one token more than there are spaces, so that a
    leading, trailing or doubled space makes an empty token. *)
Theorem split_space_join (s : string) :
  String.concat " " (split_space s) = s
  /\ Forall (fun w => spaces w = 0%nat) (split_space s)
  /\ length (split_space s) = S (spaces s).
Proof.
  induction s as [|c s (IHjoin & IHfree & IHlen)]; simpl.
  - split; [reflexivity|]. split; [|reflexivity]. by constructor.
  - destruct (split_space_cons s) as (w & ws & Hs). rewrite Hs in *.
    destruct (Ascii.eqb c " ") eqn:Hc.
    + apply Ascii.eqb_eq in Hc as ->. split; [|split].
      * simpl in *. by rewrite IHjoin.
      * constructor; [reflexivity|exact IHfree].
      * simpl in *. by rewrite IHlen.
    + split; [|split].
      * destruct ws as [|w' ws]; simpl in *; by rewrite <- IHjoin.
      * apply Forall_cons in IHfree as [Hw Hws]. constructor; [|exact Hws].
        simpl. by rewrite Hc.
      * simpl in *. exact IHlen.
Qed.

(** ** Ingestion *)

Lemma find_by_id_app_fresh (c : list (nat * MatchModel)) (oid : nat) (m : MatchModel) :
  (forall d, d ∈ c -> fst d <> oid) -> find_by_id (c ++ [(oid, m)]) oid = Some m.
Proof.
  unfold find_by_id. induction c as [|d c IH]; intros Hfresh; simpl.
  - by rewrite Nat.eqb_refl.
  - destruct (Nat.eqb_spec (fst d) oid) as [Heq|_].
    + exfalso. apply (Hfresh d); [apply elem_of_cons; by left|exact Heq].
    + apply IH. intros d' Hd'. apply Hfresh, elem_of_cons. by right.
Qed.

(** X20. An ingestion that answers without the [repeated] mark has stored
    a new pending match: the save parsed, no pending match had its
    fingerprint, and the answer, stored at the end of the pending collection
    under a new [_id], is the match that the three rating updates return for
    the parsed match with its rows bound through the directory: that match
    with the three deltas of every row recomputed and nothing else changed;
    it has at least two teams.  When the new [_id] is fresh and its text
    reads back, the match can be looked up under the reference that was
    returned. *)
Theorem create_from_save_fresh (now : datetime) (db db' : DB)
    (file_bytes reporter : string) (cloud : bool) (msg : string) (r : Response) :
  create_from_save now file_bytes reporter cloud msg db = (Ok r, db') ->
  r_repeated r = None ->
  exists parsed post season_post combined_post,
    let ingested :=
      match_id_to_discord db
        (new_match now parsed (fingerprint parsed) reporter cloud msg) in
    _parse_save file_bytes = Ok parsed
    /\ find_by_hash (pending_matches db) (fingerprint parsed) = None
    /\ recompute_ratings db ingested
       = Ok (Some (r_match r), post, season_post, combined_post)
    /\ r_match_id r = str_of_ObjectId (next_oid db)
    /\ db' = snd (insert_pending (r_match r) db)
    /\ erase_players (r_match r) = erase_players ingested
    /\ map erase_deltas (players (r_match r)) = map erase_deltas (players ingested)
    /\ (1 < num_teams (r_match r))%nat
    /\ ((forall d, d ∈ pending_matches db -> fst d <> next_oid db) ->
        ObjectId_of_str (str_of_ObjectId (next_oid db)) = Some (next_oid db) ->
        get (r_match_id r) db' = (Ok (mkResponse (r_match_id r) (r_match r) None), db')).
Proof.
  intros H Hfresh.
  destruct (_parse_save file_bytes) as [parsed|e] eqn:Hparse.
  2:{ unfold create_from_save in H. rewrite sbind_lift, Hparse in H. discriminate. }
  rewrite (create_from_save_run _ _ _ _ _ _ _ Hparse) in H.
  destruct (find_by_hash _ _) as [res|] eqn:Hhash.
  { injection H as <- <-. discriminate. }
  destruct (recompute_ratings db _) as [[[[[m'|] p1] p2] p3]|e] eqn:Hrec;
    try discriminate.
  injection H as <- <-.
  exists parsed, p1, p2, p3. cbv zeta. split; [reflexivity|]. split; [exact Hhash|].
  split; [exact Hrec|]. split; [reflexivity|]. split; [reflexivity|].
  apply recompute_ratings_Ok in Hrec as (Hteams & m1 & [= <-] & Hrows & Hrest).
  split; [exact Hrest|]. split; [exact Hrows|]. split.
  - simpl. unfold num_teams in *.
    replace (map team (players m')) with (map team (players (match_id_to_discord db
      (new_match now parsed (fingerprint parsed) reporter cloud msg)))); [exact Hteams|].
    transitivity (map team (map erase_deltas (players m'))).
    + rewrite Hrows, map_map. by apply map_ext.
    + rewrite map_map. by apply map_ext.
  - intros Hnew Hread. simpl. unfold get, _to_oid, find_pending.
    rewrite sbind_lift, Hread. cbn [or_raise]. rewrite sbind_read. simpl.
    by rewrite find_by_id_app_fresh.
Qed.

(** X21. What an ingestion can raise.  Bytes that start with neither
    [CIV6] nor [CIV7] are rejected with [ParseError] before anything is
    read; a parser that raises gives [ParseError] as well.  Every other
    failure of [create_from_save] is a Python built-in exception of the
    recomputation, never one of the service's own errors. *)
Theorem create_from_save_errors (now : datetime) (db : DB)
    (file_bytes reporter : string) (cloud : bool) (msg : string) :
  (String.prefix "CIV6" file_bytes = false -> String.prefix "CIV7" file_bytes = false ->
   create_from_save now file_bytes reporter cloud msg db = (Err ParseError, db))
  /\ (forall e, _parse_save file_bytes = Err e -> e = ParseError)
  /\ (forall e, fst (create_from_save now file_bytes reporter cloud msg db) = Err e ->
        (e = ParseError /\ _parse_save file_bytes = Err ParseError)
        \/ (exists parsed cls, _parse_save file_bytes = Ok parsed /\ e = PyException cls)).
Proof.
  assert (Hparse : forall e, _parse_save file_bytes = Err e -> e = ParseError).
  { unfold _parse_save. intros e.
    destruct (String.prefix "CIV6" file_bytes).
    - destruct (parse_civ6_save file_bytes); [discriminate|]. by intros [= <-].
    - destruct (String.prefix "CIV7" file_bytes).
      + destruct (parse_civ7_save file_bytes); [discriminate|]. by intros [= <-].
      + by intros [= <-]. }
  split; [|split; [exact Hparse|]].
  - intros H6 H7. unfold create_from_save, _parse_save.
    by rewrite sbind_lift, H6, H7.
  - intros e He. destruct (_parse_save file_bytes) as [parsed|e'] eqn:Hp.
    + right. rewrite (create_from_save_run _ _ _ _ _ _ _ Hp) in He.
      destruct (find_by_hash _ _); [discriminate|].
      match type of He with context [recompute_ratings db ?x] =>
        pose proof (py_only_recompute_ratings db x) as Hrec end.
      destruct (recompute_ratings db _) as [[[[[m'|] p1] p2] p3]|e'']; simpl in He.
      * discriminate.
      * injection He as <-. by exists parsed, "AttributeError".
      * injection He as <-. destruct (Hrec e'' eq_refl) as [cls ->]. by exists parsed, cls.
    + left. pose proof (Hparse _ eq_refl) as ->.
      unfold create_from_save in He. rewrite sbind_lift, Hp in He.
      injection He as <-. by split.
Qed.

(** ** The user directory *)

Lemma find_first {A} (f : A -> bool) (l : list A) (x : A) :
  List.find f l = Some x -> x ∈ l /\ f x = true.
Proof.
  intros H. apply List.find_some in H as [Hin Hf]. split; [|exact Hf].
  by apply list_elem_of_In.
Qed.

Lemma find_exists {A} (f : A -> bool) (l : list A) (x : A) :
  x ∈ l -> f x = true -> exists y, List.find f l = Some y.
Proof.
  intros Hin Hf. destruct (List.find f l) as [y|] eqn:Hfind; [by exists y|].
  apply list_elem_of_In in Hin. pose proof (List.find_none _ _ Hfind _ Hin). congruence.
Qed.

(** X22. The two lookups of the user directory are inverse to each other
    on an identity, respectively on a steam account, that the directory has
    once: the identity found for a steam account leads back to that account,
    and the account found for an identity leads back to that identity. *)
Theorem directory_round_trip (db : DB) (s d : string) :
  ((forall u1 u2, u1 ∈ users db -> u2 ∈ users db ->
      u_discord_id u1 = Some d -> u_discord_id u2 = Some d -> u1 = u2) ->
   steam_to_discord_id db s = Some d -> discord_to_steam_id db d = Some s)
  /\ ((forall u1 u2, u1 ∈ users db -> u2 ∈ users db ->
         u_steam_id u1 = Some s -> u_steam_id u2 = Some s -> u1 = u2) ->
      discord_to_steam_id db d = Some s -> steam_to_discord_id db s = Some d).
Proof.
  unfold steam_to_discord_id, discord_to_steam_id. split.
  - intros Huniq H.
    destruct (List.find _ (users db)) as [u|] eqn:Hu in H; [|discriminate].
    apply find_first in Hu as [Hin Hs]. apply bool_decide_eq_true in Hs.
    destruct (find_exists (fun u => bool_decide (u_discord_id u = Some d)) _ u Hin)
      as [u' Hu']; [by apply bool_decide_eq_true|].
    rewrite Hu'. apply find_first in Hu' as [Hin' Hd']. apply bool_decide_eq_true in Hd'.
    by rewrite (Huniq u' u Hin' Hin Hd' H).
  - intros Huniq H.
    destruct (List.find _ (users db)) as [u|] eqn:Hu in H; [|discriminate].
    apply find_first in Hu as [Hin Hd]. apply bool_decide_eq_true in Hd.
    destruct (find_exists (fun u => bool_decide (u_steam_id u = Some s)) _ u Hin)
      as [u' Hu']; [by apply bool_decide_eq_true|].
    rewrite Hu'. apply find_first in Hu' as [Hin' Hs']. apply bool_decide_eq_true in Hs'.
    by rewrite (Huniq u' u Hin' Hin Hs' H).
Qed.

(** ** When a rating update returns *)

Lemma mapR_Ok_all {A B} (f : A -> Result B) (l : list A) :
  (forall x, x ∈ l -> exists y, f x = Ok y) -> exists out, mapR f l = Ok out.
Proof.
  induction l as [|x l IH]; intros H; simpl; [by eexists|].
  destruct (H x) as [y ->]; [apply elem_of_cons; by left|].
  destruct IH as [ys ->]; [intros x' Hx'; apply H, elem_of_cons; by right|].
  by eexists.
Qed.

Lemma foldR_Ok_inv {A S} (I : S -> Prop) (f : S -> A -> Result S) (l : list A) (s0 : S) :
  I s0 ->
  (forall a, a ∈ l -> forall s, I s -> exists s', f s a = Ok s' /\ I s') ->
  exists s, foldR f l s0 = Ok s /\ I s.
Proof.
  revert s0. induction l as [|a l IH]; intros s0 H0 Hstep; simpl; [by exists s0|].
  destruct (Hstep a (proj2 (elem_of_cons _ _ _) (or_introl eq_refl)) s0 H0) as (s1 & -> & H1).
  simpl. apply IH; [exact H1|]. intros a' Ha'. apply Hstep, elem_of_cons. by right.
Qed.

Lemma team_states_succeeds (pr : list StatModel) (d : Groups) :
  (forall y, member_of d y -> (fst y < length pr)%nat) ->
  exists states, team_states pr d = Ok states.
Proof.
  intros Hd. unfold team_states. apply mapR_Ok_all. intros g Hg.
  apply mapR_Ok_all. intros y Hy. unfold py_get.
  destruct (lookup_lt_is_Some_2 pr (fst y)) as [x ->]; [|by eexists].
  apply Hd. by exists g.
Qed.

(** One merge loop returns when the rating step answered in shape and its
    body accepts the rows of the grouping. *)
Lemma merge_teams_succeeds (m : MatchModel) (pr : list StatModel) (d : Groups)
    (states : list (list StatModel)) (new_ts : list (list (pyfloat * pyfloat)))
    (body : nat -> list (option StatModel) -> nat * StatModel
            -> Result (list (option StatModel)))
    (post0 : list (option StatModel)) :
  indexed pr -> team_states pr d = Ok states ->
  Forall2 (fun team row => length row = length team) states new_ts ->
  (forall i p, member_of d (i, p) -> players m !! i = Some p) ->
  length post0 = length (players m) ->
  (forall t k player p r post,
      players m !! st_index player = Some p -> member_of d (st_index player, p) ->
      rating_at new_ts t k r -> length post = length (players m) ->
      exists post', body t post (k, player) = Ok post'
                    /\ length post' = length (players m)) ->
  exists post, merge_teams body states post0 = Ok post
               /\ length post = length (players m).
Proof.
  intros Hidx Hstates Hshape Hmem Hlen Hbody. unfold merge_teams.
  apply (foldR_Ok_inv (fun post => length post = length (players m))); [exact Hlen|].
  intros [t team] Ht post Hpost. apply elem_of_enumerate in Ht. simpl.
  apply (foldR_Ok_inv (fun post => length post = length (players m))); [exact Hpost|].
  intros [k player] Hk q Hq. apply elem_of_enumerate in Hk.
  destruct (proj2 (team_states_at_position pr d states t k Hstates) _ _ Ht Hk)
    as ([i p] & Hat & Hcur).
  simpl in Hcur. apply Hidx in Hcur as Hi.
  assert (Hm : member_of d (i, p)) by (apply member_of_at_position; by exists t, k).
  destruct (Forall2_lookup_l _ _ _ _ _ Hshape Ht) as (row & Hrow & Hrl).
  destruct (lookup_lt_is_Some_2 row k) as [r Hr];
    [rewrite Hrl; by eapply lookup_lt_Some|].
  apply (Hbody t k player p r q); [rewrite Hi; by apply Hmem|by rewrite Hi| |exact Hq].
  by exists row.
Qed.

Lemma posteriors_succeeds (m : MatchModel) (pr : list StatModel) :
  indexed pr -> length pr = length (players m) ->
  rate_in_shape pr (fst (partition_teams (players m))) ->
  rate_in_shape pr (snd (partition_teams (players m))) ->
  exists post, posteriors m pr = Ok post.
Proof.
  intros Hidx Hlen Hwo Hwi.
  destruct (partition_teams_spec (players m)) as (Hgo & Hgi & Ho & Hi).
  unfold posteriors. destruct (partition_teams (players m)) as [wo wi].
  simpl in *. unfold rate_in_shape in Hwo, Hwi.
  assert (Hmo : forall i p, member_of wo (i, p) -> players m !! i = Some p)
    by (intros i p Hm; by apply Ho in Hm as [? _]).
  assert (Hmi : forall i p, member_of wi (i, p) -> players m !! i = Some p)
    by (intros i p Hm; by apply Hi in Hm as [? _]).
  destruct (team_states_succeeds pr wo) as [states_wo Hswo].
  { intros [i p] Hm. simpl. rewrite Hlen. eapply lookup_lt_Some. by apply Hmo. }
  destruct (team_states_succeeds pr wi) as [states_wi Hswi].
  { intros [i p] Hm. simpl. rewrite Hlen. eapply lookup_lt_Some. by apply Hmi. }
  destruct (team_placements_well_grouped wo Hgo) as (ranks_wo & Hrwo & _).
  destruct (team_placements_well_grouped wi Hgi) as (ranks_wi & Hrwi & _).
  rewrite Hswo, Hrwo in Hwo. rewrite Hswi, Hrwi in Hwi.
  rewrite Hswo, Hswi, Hrwo, Hrwi. cbn [rbind].
  destruct (ts_rate (ratings_of states_wo) ranks_wo) as [new_wo|]; [|done].
  destruct (ts_rate (ratings_of states_wi) ranks_wi) as [new_wi|]; [|done].
  cbn [or_raise rbind].
  destruct (merge_teams_succeeds m pr wo states_wo new_wo (merge_wo_subs m new_wo)
              (map (fun _ => None) (players m)) Hidx Hswo Hwo Hmo)
    as (post1 & -> & Hl1); [by rewrite length_map| |].
  { intros t k player p r post Hp Hm (row & Hrow & Hr) Hpost.
    unfold merge_wo_subs, py_get. rewrite Hp. cbn [or_raise rbind].
    apply Ho in Hm as [_ ->]. rewrite Hrow. cbn [or_raise rbind]. rewrite Hr.
    cbn [or_raise rbind]. unfold py_set.
    rewrite decide_True by (rewrite Hpost; by eapply lookup_lt_Some).
    eexists. split; [reflexivity|]. by rewrite length_insert. }
  cbn [rbind].
  destruct (merge_teams_succeeds m pr wi states_wi new_wi (merge_with_sub_ins m new_wi)
              post1 Hidx Hswi Hwi Hmi Hl1) as (post & -> & _); [|by eexists].
  intros t k player p r post Hp Hm (row & Hrow & Hr) Hpost.
  unfold merge_with_sub_ins, py_get. rewrite Hp. cbn [or_raise rbind].
  destruct (is_sub p); [|by eexists].
  rewrite Hrow. cbn [or_raise rbind]. rewrite Hr. cbn [or_raise rbind]. unfold py_set.
  rewrite decide_True by (rewrite Hpost; by eapply lookup_lt_Some).
  eexists. split; [reflexivity|]. by rewrite length_insert.
Qed.

(** X23. A rating update of a match with at least two teams returns a
    match and posteriors whenever it is given one ranking per row, entry [i]
    with index [i], the rating step accepts the two groupings and answers in
    their shape, and [round] accepts the difference between the merged
    posterior mean and the prior mean of every row that is bound to an
    identity: nothing in the update's own loops raises, and the guard
    against a substitute in the run without substitutes is never taken. *)
Theorem update_player_stats_returns (m : MatchModel) (pr : list StatModel)
    (f : DeltaField) :
  (1 < num_teams m)%nat ->
  indexed pr -> length pr = length (players m) ->
  rate_in_shape pr (fst (partition_teams (players m))) ->
  rate_in_shape pr (snd (partition_teams (players m))) ->
  (forall post i p cur merged,
      posteriors m pr = Ok post -> players m !! i = Some p -> discord_id p <> None ->
      pr !! i = Some cur -> post !! i = Some (Some merged) ->
      is_Some (py_round (fsub (mu merged) (mu cur)))) ->
  exists m' post', update_player_stats (Some m) pr f = Ok (Some m', Some post').
Proof.
  intros Hteams Hidx Hlen Hwo Hwi Hround.
  destruct (posteriors_succeeds m pr Hidx Hlen Hwo Hwi) as [post Hpost].
  destruct (posteriors_rows m pr post Hidx Hpost)
    as (? & ? & ? & ? & ? & ? & _ & _ & _ & _ & _ & _ & _ & Hrows).
  unfold update_player_stats.
  replace (num_teams m <=? 1)%nat with false by (symmetry; apply Nat.leb_gt; lia).
  rewrite Hpost. cbn [rbind].
  destruct (mapR_Ok_all (apply_delta pr post f) (enumerate (players m))) as [out ->];
    [|by eexists _, _].
  intros [i p] Hip. apply elem_of_enumerate in Hip.
  destruct (Hrows i p Hip) as (cur & t & k & r & Hcur & Hpi & _).
  unfold apply_delta, py_get, computed_delta, post_get, py_get.
  rewrite Hcur, Hpi. cbn [or_raise rbind].
  destruct (discord_id p) as [d|] eqn:Hd; cbn [or_raise rbind]; [|by eexists].
  destruct (Hround post i p cur (posterior_stat cur r) Hpost Hip) as [z Hz];
    [by rewrite Hd|exact Hcur|exact Hpi|].
  rewrite Hz. cbn [or_raise rbind]. by eexists.
Qed.

(** ** How operations compose *)

(** X24. Appending correlation ids in two calls is appending them all in
    one: the ids are added at the end, in order, and nothing else of the
    match changes; appending no id leaves the pending collection as it
    is. *)
Theorem append_discord_message_id_list_composes (db : DB) (match_id : string)
    (oid : nat) (m : MatchModel) (ids1 ids2 : list string) :
  ObjectId_of_str match_id = Some oid ->
  find_by_id (pending_matches db) oid = Some m ->
  append_discord_message_id_list match_id ids1 db
  = (Ok (mkResponse (str_of_ObjectId oid)
           (set_discord_messages_id_list (discord_messages_id_list m ++ ids1) m) None),
     snd (append_discord_message_id_list match_id ids1 db))
  /\ append_discord_message_id_list match_id ids2
       (snd (append_discord_message_id_list match_id ids1 db))
     = append_discord_message_id_list match_id (ids1 ++ ids2) db
  /\ pending_matches (snd (append_discord_message_id_list match_id [] db))
     = pending_matches db.
Proof.
  intros Hoid Hfind.
  pose proof (append_discord_message_id_list_Ok db match_id ids1 oid m Hoid Hfind) as H1.
  cbv zeta in H1. split; [by rewrite H1|]. split.
  - rewrite H1. cbn [snd].
    rewrite (append_discord_message_id_list_Ok _ match_id ids2 oid
               (set_discord_messages_id_list (discord_messages_id_list m ++ ids1) m) Hoid)
      by (simpl; by rewrite find_modify_by_id, Hfind).
    rewrite (append_discord_message_id_list_Ok db match_id (ids1 ++ ids2) oid m Hoid Hfind).
    cbv zeta. simpl. rewrite modify_by_id_twice, app_assoc. reflexivity.
  - rewrite (append_discord_message_id_list_Ok db match_id [] oid m Hoid Hfind).
    simpl. rewrite app_nil_r. clear H1. unfold find_by_id in Hfind.
    induction (pending_matches db) as [|d c IH]; simpl in *; [done|].
    destruct (Nat.eqb (fst d) oid); simpl in Hfind.
    + injection Hfind as <-. by destruct d as [k []].
    + by rewrite IH.
Qed.

(** X25. A mutation can be read back: after a mutation operation answers,
    a lookup of the match it names returns that very answer. *)
Theorem mutation_then_get (c : Call) (db db' : DB) (match_id : string) (r : Response) :
  target c = Some match_id ->
  run c db = (Ok r, db') ->
  get match_id db' = (Ok r, db').
Proof.
  intros Hc Hrun. pose proof (run_outcome c db) as Hout. rewrite Hrun in Hout.
  cbn [fst snd] in Hout.
  destruct Hout as [_ Hok|match_id' oid m m' Hc' Hoid Hfind Hr -> _ _ _|m' Hc' _ _ _].
  - rewrite Hok in Hc by done. discriminate.
  - rewrite Hc in Hc'. injection Hc' as <-. injection Hr as ->.
    unfold get, _to_oid, find_pending. rewrite sbind_lift, Hoid. cbn [or_raise].
    rewrite sbind_read. simpl. by rewrite find_modify_by_id, Hfind.
  - rewrite Hc in Hc'. discriminate.
Qed.

(** ** Pending matches have two teams *)

Lemma modify_by_id_Forall (P : MatchModel -> Prop) (oid : nat) (m m' : MatchModel)
    (c : list (nat * MatchModel)) :
  find_by_id c oid = Some m -> (P m -> P m') ->
  Forall (fun d => P (snd d)) c ->
  Forall (fun d => P (snd d)) (modify_by_id (fun _ => m') oid c).
Proof.
  unfold find_by_id. intros Hfind Hm Hc.
  induction Hc as [|d c Hd Hc IH]; simpl in *; [constructor|].
  destruct (Nat.eqb (fst d) oid); simpl in Hfind.
  - injection Hfind as <-. constructor; [by apply Hm|exact Hc].
  - constructor; [exact Hd|by apply IH].
Qed.

(** X26. Every pending match has at least two teams, in every state that
    ingestion and the mutation operations reach from one where that holds
    (from no pending match, for instance): a rating update of a stored match
    never takes the branch of lines 151-153. *)
Theorem pending_matches_have_two_teams (init db : DB) :
  Forall (fun d => (1 < num_teams (snd d))%nat) (pending_matches init) ->
  reachable init db ->
  Forall (fun d => (1 < num_teams (snd d))%nat) (pending_matches db).
Proof.
  intros Hinit Hreach. induction Hreach as [|db c _ IH]; [exact Hinit|].
  destruct (run_outcome c db)
    as [-> _|match_id oid m m' _ _ Hfind _ -> _ _ Hteams|m' _ _ -> Hteams].
  - exact IH.
  - simpl. by apply (modify_by_id_Forall (fun m => (1 < num_teams m)%nat) oid m).
  - simpl. apply Forall_app. split; [exact IH|]. by repeat constructor.
Qed.

End Further.

(** * Worked examples

    The statements above at the states of [Example], and the inputs at which
    the stronger readings of some of them fail. *)
Module Worked.

Import Example.

Ltac by_evaluation := vm_compute; reflexivity.

(** ** Reorder *)

Lemma change_order_wrong_length_duel :
  change_order "0" "2 1 3" "m5" db1
  = (Err (MatchServiceError
            "New order length does not match number of players/teams (2)"), db1).
Proof.
  apply (change_order_wrong_length db1 "0" "2 1 3" "m5" 0%nat duel_match);
    [by_evaluation|by_evaluation|].
  vm_compute. lia.
Defined.

(** ** Substitutions *)

Lemma assign_sub_inserts_copy_duel :
  assign_sub "0" "0" "103" "m2" db1 = (Ok sub_answer, db2)
  /\ length (players (r_match sub_answer)) = 3%nat
  /\ exists marked row,
       players (r_match sub_answer) !! 0%nat = Some marked /\ is_sub marked = true
       /\ players (r_match sub_answer) !! 1%nat = Some row
       /\ civ row = "Rome" /\ team row = 0 /\ subbed_out row = true /\ is_sub row = false.
Proof.
  assert (Hrun : assign_sub "0" "0" "103" "m2" db1 = (Ok sub_answer, db2))
    by by_evaluation.
  split; [exact Hrun|].
  destruct (assign_sub_inserts_copy db1 db2 "0" "0" "103" "m2" 0%nat duel_match 0
              sub_answer)
    as (_ & _ & Hlen & origin & marked & row & Ho & Hm & Hr & Hsub & _ & Hciv & _
        & Hteam & _ & _ & Hout & Hin & _);
    [by_evaluation|by_evaluation|by_evaluation|exact Hrun|].
  split; [exact Hlen|]. exists marked, row.
  vm_compute in Ho. injection Ho as <-.
  split; [exact Hm|]. split; [exact Hsub|]. split; [exact Hr|].
  split; [exact Hciv|]. split; [exact Hteam|]. split; [exact Hout|exact Hin].
Defined.

Lemma remove_sub_zero_based_duel :
  (remove_sub "0" "1" "m4" db2 = (Ok unsub_answer, snd (remove_sub "0" "1" "m4" db2))
   /\ length (players (r_match unsub_answer)) = 2%nat)
  /\ remove_sub "0" "2" "m4" db2
     = (Err (MatchServiceError
               "Sub in Player ID out of range. Must be between 1 and number of players - 1"),
        db2).
Proof.
  split.
  - assert (Hrun : remove_sub "0" "1" "m4" db2
                   = (Ok unsub_answer, snd (remove_sub "0" "1" "m4" db2)))
      by by_evaluation.
    split; [exact Hrun|].
    destruct (remove_sub_zero_based db2 "0" "1" "m4" 0%nat sub_match 1) as [Hok _];
      [by_evaluation|by_evaluation|by_evaluation|].
    destruct (Hok _ _ Hrun) as (_ & _ & Hrows).
    apply (f_equal length) in Hrows. rewrite !length_map in Hrows. exact Hrows.
  - destruct (remove_sub_zero_based db2 "0" "2" "m4" 0%nat sub_match 2) as [_ Hno];
      [by_evaluation|by_evaluation|by_evaluation|].
    apply Hno. intros [_ (row & Hrow & Hout)].
    vm_compute in Hrow. injection Hrow as <-. discriminate.
Defined.

(** C6, as stated, fails: on the rows [ann] (substitute-in), 103
    (substituted out), [bob], the index 1 is accepted although the row at
    1-based position 1 is [ann], who is not substituted out, and the index
    2, the 1-based position of the substituted-out row, is rejected. *)
Lemma remove_sub_is_not_one_based :
  flags (stored db2) = [(true, false); (false, true); (false, false)]
  /\ flags <$> returned_rows (remove_sub "0" "1" "m4" db2)
     = Some [(false, false); (false, false)]
  /\ remove_sub "0" "2" "m4" db2
     = (Err (MatchServiceError
               "Sub in Player ID out of range. Must be between 1 and number of players - 1"),
        db2).
Proof.
  split; [by_evaluation|]. split; by_evaluation.
Qed.

Lemma assign_then_remove_sub_duel :
  assign_sub "0" "0" "103" "m2" db1 = (Ok sub_answer, db2)
  /\ remove_sub "0" "1" "m4" db2 = (Ok unsub_answer, snd (remove_sub "0" "1" "m4" db2))
  /\ length (players (r_match unsub_answer)) = length (players duel_match)
  /\ map erase_deltas (players (r_match unsub_answer))
     = map erase_deltas (players duel_match).
Proof.
  assert (H1 : assign_sub "0" "0" "103" "m2" db1 = (Ok sub_answer, db2))
    by by_evaluation.
  assert (H2 : remove_sub "0" "1" "m4" db2
               = (Ok unsub_answer, snd (remove_sub "0" "1" "m4" db2)))
    by by_evaluation.
  split; [exact H1|]. split; [exact H2|].
  destruct (assign_then_remove_sub db1 db2 (snd (remove_sub "0" "1" "m4" db2))
              "0" "0" "103" "m2" "1" "m4" 0%nat duel_match 0 sub_answer unsub_answer)
    as (Hlen & _ & _ & Hsame);
    [by_evaluation|by_evaluation|by_evaluation|by_evaluation|exact H1|exact H2|].
  split; [exact Hlen|]. eapply Hsame; by_evaluation.
Defined.

(** C7, as stated, fails at a slot that is a substitute-in row already:
    slot 0 of the match of [db2] has [is_sub] set; after a substitute is
    inserted there and the row it created is removed, [is_sub] of slot 0 is
    clear. *)
Lemma round_trip_clears_earlier_substitution :
  flags (stored db2) = [(true, false); (false, true); (false, false)]
  /\ flags <$> returned_rows (assign_sub "0" "0" "102" "m3" db2)
     = Some [(true, false); (false, true); (false, true); (false, false)]
  /\ flags <$> returned_rows
                 (remove_sub "0" "1" "m4" (snd (assign_sub "0" "0" "102" "m3" db2)))
     = Some [(false, false); (false, true); (false, false)].
Proof.
  split; [by_evaluation|]. split; by_evaluation.
Qed.

(** ** The rating update *)

Lemma update_player_stats_deltas_twice_subbed :
  update_player_stats (Some twice_subbed) priors Fdelta = Ok (Some updated, Some updated_post)
  /\ exists sub_in sub_out,
       players updated !! 0%nat = Some sub_in /\ min_points_for_subs <= delta sub_in
       /\ players updated !! 2%nat = Some sub_out /\ delta sub_out <= 0.
Proof.
  assert (Hrun : update_player_stats (Some twice_subbed) priors Fdelta
                 = Ok (Some updated, Some updated_post)) by by_evaluation.
  split; [exact Hrun|].
  destruct (update_player_stats_deltas twice_subbed updated priors updated_post Fdelta Hrun)
    as (post & _ & _ & Hrows).
  destruct (Hrows 0%nat _ eq_refl) as (p0 & _ & c0 & s0 & Hp0 & _ & _ & Hs0 & Hin & _).
  destruct (Hrows 2%nat _ eq_refl) as (p2 & _ & c2 & s2 & Hp2 & _ & _ & Hs2 & _ & Hout & _).
  exists p0, p2. injection Hs0 as <-. injection Hs2 as <-.
  split; [exact Hp0|]. split; [by apply Hin|]. split; [exact Hp2|by apply Hout].
Defined.

(** C2, as stated, fails on a row that is marked both substitute-in and
    substituted out (the second row of [twice_subbed], a state that two
    substitutions reach, see [db3]): the row is a substituted-out player
    with a bound identity, its computed delta is +10, and the stored delta
    is +10, a positive value, not [min(10, 0)]. *)
Lemma subbed_out_row_gains :
  flags (players twice_subbed)
  = [(true, false); (true, true); (false, true); (false, false)]
  /\ map discord_id (players twice_subbed)
     = [Some "101"; Some "103"; Some "102"; None]
  /\ map mu priors = [1250; 1250; 1250; 1250]
  /\ (match posteriors twice_subbed priors with
      | Ok post => Some (map (fmap mu) post)
      | Err _ => None
      end) = Some [Some 1260; Some 1260; Some 1260; Some 1240]
  /\ (match update_player_stats (Some twice_subbed) priors Fdelta with
      | Ok (Some m', Some _) => Some (map delta (players m'))
      | _ => None
      end) = Some [10; 10; 0; 0].
Proof.
  split; [by_evaluation|]. split; [by_evaluation|]. split; [by_evaluation|].
  split; by_evaluation.
Qed.

(** ** Binding an identity *)

(** C5. Binding the identity 102 to slot 2 of the duel in [db1] succeeds.
    The rating update that the call runs computes -10 for all three deltas of
    that row (what [recompute_ratings] returns for the match with the slot
    bound), and the answer and the stored record have [delta] and
    [season_delta] at -10 but [combined_delta] still at the 0 of the unbound
    row. *)
Lemma assign_discord_id_stale_combined_delta :
  deltas (stored db1) = [(10, Some 10, Some 10); (0, Some 0, Some 0)]
  /\ (find_by_id (pending_matches db1) 0%nat ≫= fun m =>
      deltas <$> recomputed db1
        (set_players (alter (fun p => set_steam_id None (set_discord_id (Some "102") p))
                        1%nat (players m)) m))
     = Some [(10, Some 10, Some 10); (-10, Some (-10), Some (-10))]
  /\ deltas <$> returned_rows (assign_discord_id "0" "2" "102" "m2" db1)
     = Some [(10, Some 10, Some 10); (-10, Some (-10), Some 0)]
  /\ deltas (stored (snd (assign_discord_id "0" "2" "102" "m2" db1)))
     = [(10, Some 10, Some 10); (-10, Some (-10), Some 0)].
Proof.
  split; [by_evaluation|]. split; [by_evaluation|]. split; by_evaluation.
Qed.

(** ** Ingestion *)

Lemma create_from_save_twice_duel :
  create_from_save 7 "CIV6 duel" "999" false "m1" db0 = (Ok created_answer, db1)
  /\ create_from_save 8 "CIV6 duel" "998" true "m9" db1
     = (Ok (mkResponse (r_match_id created_answer) (r_match created_answer) (Some true)),
        db1).
Proof.
  assert (Hrun : create_from_save 7 "CIV6 duel" "999" false "m1" db0
                 = (Ok created_answer, db1)) by by_evaluation.
  split; [exact Hrun|].
  destruct create_from_save_idempotent as (_ & _ & _ & _ & _ & Htwice).
  exact (Htwice _ _ _ _ _ _ _ _ Hrun 8 "998" true "m9").
Defined.

(** ** Matches with a single team *)

(** The two rows of [solo_match] play for the same team.  Its rating update
    does not return [(None, None)]: it raises [AttributeError] while it
    builds the report of line 152 (and sets no delta).  So the ingestion of
    the save with these two players, which no pending match has the
    fingerprint of, raises [AttributeError] and stores nothing; and so does
    the binding of an identity on such a match when it is stored, which
    leaves it as it was. *)
Lemma single_team_update_never_returns_solo :
  num_teams solo_match = 1%nat
  /\ update_player_stats (Some solo_match) [default_stat 0 101; default_stat 1 0] Fdelta
     = Err (PyException "AttributeError")
  /\ _parse_save "CIV7 solo" = Ok solo
  /\ map pp_team (p_players solo) = [0; 0]
  /\ create_from_save 7 "CIV7 solo" "999" false "m1" db0
     = (Err (PyException "AttributeError"), db0)
  /\ find_by_id (pending_matches db_solo) 0%nat = Some solo_match
  /\ assign_discord_id "0" "2" "102" "m2" db_solo
     = (Err (PyException "AttributeError"), db_solo).
Proof.
  assert (Hone : num_teams solo_match = 1%nat) by by_evaluation.
  destruct (single_team_update_never_returns db_solo solo_match) as [Hupdate _];
    [rewrite Hone; lia|].
  split; [exact Hone|]. split; [apply Hupdate|]. split; [by_evaluation|].
  split; [by_evaluation|]. split; [by_evaluation|]. split; by_evaluation.
Defined.

(** ** The approval transaction *)

Lemma approve_match_atomic_duel :
  (exists e, approve_match (fun k => Nat.eqb k 4) 9 "0" "777" db_bound = (Err e, db_bound))
  /\ approve_match (fun _ => false) 9 "0" "777" db1
     = (Err (MatchServiceError "Player bob has no linked Discord ID"), db1).
Proof.
  split.
  - destruct (approve_match_atomic (fun k => Nat.eqb k 4) 9 db_bound "0" "777" 0%nat
                bound_match) as (_ & _ & Hfault); [by_evaluation|by_evaluation|].
    apply Hfault. exists 4%nat. split; [vm_compute; lia|reflexivity].
  - destruct (approve_match_atomic (fun _ => false) 9 db1 "0" "777" 0%nat duel_match)
      as (_ & Hunbound & _); [by_evaluation|by_evaluation|].
    destruct Hunbound as (i & p & Hi & Hp & _ & Hrun).
    { destruct (players duel_match !! 1%nat) as [p|] eqn:Hp; [|discriminate].
      exists p. split; [by eapply list_elem_of_lookup_2|].
      vm_compute in Hp. by injection Hp as <-. }
    destruct i as [|[|i]]; vm_compute in Hi.
    + injection Hi as <-. discriminate Hp.
    + injection Hi as <-. exact Hrun.
    + discriminate Hi.
Defined.

(** ** The substitution flags *)

Lemma flags_exclusive_after_one_substitution :
  pending_flags_ok (pending_matches db2).
Proof.
  apply (flags_exclusive_without_sub_of_sub_out db0 db2).
  - constructor.
  - unfold db2, db1.
    apply reachable_plain_call; [|by_evaluation].
    apply reachable_plain_call; [|by_evaluation].
    apply reachable_plain_init.
Defined.

(** C10, as stated, fails: ingestion of the duel, a substitute at slot 0 and
    then a substitute at slot 1, the substituted-out row that the first
    substitution created, leave that row marked both [is_sub] and
    [subbed_out]. *)
Lemma both_flags_reachable :
  reachable db0 db3
  /\ flags (stored db3) = [(true, false); (true, true); (false, true); (false, false)]
  /\ ~ pending_flags_ok (pending_matches db3).
Proof.
  split; [unfold db3, db2, db1; repeat apply reachable_call; apply reachable_init|].
  split; [by_evaluation|].
  unfold pending_flags_ok, match_flags_ok. intros H.
  apply (bool_decide_pack _) in H. vm_compute in H. exact H.
Qed.

(** ** Further properties, on the same examples *)

Lemma indexed_priors : indexed priors.
Proof.
  intros i s H. do 4 (destruct i as [|i]; [by injection H as <-|]). discriminate H.
Qed.

Lemma update_player_stats_posterior_mean_twice_subbed :
  update_player_stats (Some twice_subbed) priors Fdelta = Ok (Some updated, Some updated_post)
  /\ length updated_post = length (players updated)
  /\ exists s p',
       updated_post !! 0%nat = Some s /\ players updated !! 0%nat = Some p'
       /\ mu s = fadd_int 1250 (delta p').
Proof.
  assert (Hrun : update_player_stats (Some twice_subbed) priors Fdelta
                 = Ok (Some updated, Some updated_post)) by by_evaluation.
  split; [exact Hrun|].
  destruct (update_player_stats_posterior_mean twice_subbed updated priors updated_post
              Fdelta Hrun) as (post & _ & Hlen & Hrows).
  split; [exact Hlen|].
  destruct (Hrows 0%nat _ eq_refl) as (cur & merged & p' & d & Hcur & _ & Hp' & Hd & Hmu & _).
  eexists _, p'. split; [reflexivity|]. split; [exact Hp'|].
  vm_compute in Hcur. injection Hcur as <-. injection Hd as <-. exact Hmu.
Defined.

Lemma update_player_stats_touches_one_field_twice_subbed :
  update_player_stats (Some twice_subbed) priors Fdelta = Ok (Some updated, Some updated_post)
  /\ length (players updated) = length (players twice_subbed)
  /\ erase_players updated = erase_players twice_subbed.
Proof.
  assert (Hrun : update_player_stats (Some twice_subbed) priors Fdelta
                 = Ok (Some updated, Some updated_post)) by by_evaluation.
  split; [exact Hrun|].
  destruct (update_player_stats_touches_one_field twice_subbed updated priors Fdelta
              (Some updated_post) Hrun) as (Hlen & Hrest & _).
  by split.
Defined.

Lemma recompute_ratings_within_policy_twice_subbed :
  recompute_ratings db0 twice_subbed
  = Ok (Some rated_match, fst (fst rated_posts), snd (fst rated_posts), snd rated_posts)
  /\ exists sub_in,
       players rated_match !! 0%nat = Some sub_in
       /\ min_points_for_subs <= delta sub_in.
Proof.
  assert (Hrun : recompute_ratings db0 twice_subbed
                 = Ok (Some rated_match, fst (fst rated_posts), snd (fst rated_posts),
                       snd rated_posts)) by by_evaluation.
  split; [exact Hrun|].
  destruct (recompute_ratings_within_policy db0 twice_subbed rated_match _ _ _ Hrun)
    as (_ & Hrows).
  destruct (Hrows 0%nat _ eq_refl) as (p & d & sd & cd & Hp & _ & Hd & _ & _ & (Hsub & _) & _).
  eexists. split; [reflexivity|]. rewrite Hd. apply Hsub.
  vm_compute in Hp. by injection Hp as <-.
Defined.

Lemma partition_teams_by_flags_twice_subbed :
  is_ok (team_placements (fst (partition_teams (players twice_subbed)))) = true
  /\ well_grouped (snd (partition_teams (players twice_subbed))).
Proof.
  destruct (partition_teams_by_flags (players twice_subbed))
    as (_ & _ & _ & Hwi & Hok & _).
  by split.
Defined.

Lemma get_players_ranking_rows_twice_subbed :
  get_players_ranking db0 twice_subbed false false = Ok priors
  /\ length priors = length (players twice_subbed) /\ indexed priors
  /\ get_players_ranking db0 beyond_int64 false false = Err (PyException "OverflowError").
Proof.
  assert (Hrun : get_players_ranking db0 twice_subbed false false = Ok priors)
    by by_evaluation.
  split; [exact Hrun|].
  destruct (get_players_ranking_rows db0 twice_subbed false false) as [Hok _].
  destruct (Hok priors Hrun) as (Hlen & Hidx & _). split; [exact Hlen|].
  split; [exact Hidx|].
  destruct (get_players_ranking_rows db0 beyond_int64 false false) as (_ & Herr & _).
  destruct (get_players_ranking db0 beyond_int64 false false) as [pr|e] eqn:Hread;
    [vm_compute in Hread; discriminate Hread|].
  destruct (Herr e eq_refl) as (i & p & d & Hp & Hd & _ & He).
  destruct i as [|[|i]]; vm_compute in Hp.
  - injection Hp as <-. injection Hd as <-. vm_compute in He. destruct He as [_ He].
    exfalso. apply He. split; [discriminate|reflexivity].
  - injection Hp as <-. injection Hd as <-. vm_compute in He. by destruct He as [-> _].
  - discriminate Hp.
Defined.

Lemma posteriors_by_run_twice_subbed :
  posteriors twice_subbed priors = Ok merged_post
  /\ length merged_post = length (players twice_subbed).
Proof.
  assert (Hrun : posteriors twice_subbed priors = Ok merged_post) by by_evaluation.
  split; [exact Hrun|].
  destruct (posteriors_by_run twice_subbed priors merged_post indexed_priors Hrun)
    as (? & ? & ? & ? & ? & ? & _ & _ & _ & _ & _ & _ & Hlen & _).
  exact Hlen.
Defined.

Lemma failed_call_writes_nothing_duel :
  snd (run (ChangeOrder "0" "2 1 3" "m5") db1) = db1.
Proof.
  apply (proj1 (failed_call_writes_nothing db1) (ChangeOrder "0" "2 1 3" "m5")
           (MatchServiceError
              "New order length does not match number of players/teams (2)")).
  by_evaluation.
Defined.

Lemma unknown_match_is_rejected_duel :
  get "zz" db1 = (Err InvalidIDError, db1) /\ get "5" db1 = (Err NotFoundError, db1).
Proof.
  split.
  - destruct (proj1 (unknown_match_is_rejected db1 "zz")) as (_ & Hget & _);
      [by_evaluation|exact Hget].
  - destruct (proj2 (unknown_match_is_rejected db1 "5") 5%nat) as (_ & Hget & _);
      [by_evaluation|by_evaluation|exact Hget].
Defined.

Lemma delete_pending_match_removes_duel :
  exists before after,
    delete_pending_match "0" db1
    = (Ok (mkResponse (str_of_ObjectId 0) duel_match None),
       set_pending (before ++ after) db1).
Proof.
  destruct (delete_pending_match_removes db1 "0" 0%nat duel_match)
    as (before & after & _ & _ & Hrun & _); [by_evaluation|by_evaluation|].
  by exists before, after.
Defined.

Lemma trigger_quit_toggles_duel :
  map quit <$> returned_rows (trigger_quit "0" "101" "m6" db1) = Some [true; false]
  /\ map quit (stored (snd (trigger_quit "0" "101" "m7"
                              (snd (trigger_quit "0" "101" "m6" db1)))))
     = [false; false].
Proof.
  destruct (trigger_quit_toggles db1 "0" "101" "m6" 0%nat duel_match)
    as (Hrun & _ & _ & Htwice); [by_evaluation|by_evaluation|].
  split; [rewrite Hrun; by_evaluation|]. rewrite (Htwice "m7"). by_evaluation.
Defined.

Lemma change_order_stores_recomputed_duel :
  change_order "0" "2 1" "m5" db1
  = (Ok reorder_answer, snd (change_order "0" "2 1" "m5" db1))
  /\ length (split_space "2 1") = num_teams duel_match.
Proof.
  assert (Hrun : change_order "0" "2 1" "m5" db1
                 = (Ok reorder_answer, snd (change_order "0" "2 1" "m5" db1)))
    by by_evaluation.
  split; [exact Hrun|].
  destruct (change_order_stores_recomputed db1 (snd (change_order "0" "2 1" "m5" db1))
              "0" "2 1" "m5" 0%nat duel_match reorder_answer) as [Hlen _];
    [by_evaluation|by_evaluation|exact Hrun|exact Hlen].
Defined.

Lemma assign_discord_id_binds_duel :
  assign_discord_id "0" "2" "102" "m2" db1 = (Ok bound_answer, db_bound)
  /\ 1 <= 2 <= Z.of_nat (length (players duel_match))
  /\ discord_messages_id_list (r_match bound_answer)
     = discord_messages_id_list duel_match ++ ["m2"].
Proof.
  assert (Hrun : assign_discord_id "0" "2" "102" "m2" db1 = (Ok bound_answer, db_bound))
    by by_evaluation.
  split; [exact Hrun|].
  destruct (assign_discord_id_binds db1 db_bound "0" "2" "102" "m2" 0%nat duel_match 2
              bound_answer) as (Hrange & _ & _ & Hids & _);
    [by_evaluation|by_evaluation|by_evaluation|exact Hrun|].
  by split.
Defined.

Lemma slot_number_errors_duel :
  remove_sub "0" "x" "m4" db1 = (Err (PyException "ValueError"), db1).
Proof.
  destruct (slot_number_errors db1 "0" 0%nat duel_match) as (_ & _ & H);
    [by_evaluation|by_evaluation|].
  exact (H "x" "m4").
Defined.

Lemma approve_match_moves_match_duel :
  fst (approve_match (fun _ => false) 9 "0" "777" db_bound) = Ok approved_answer
  /\ approved_at (r_match approved_answer) = Some 9
  /\ pending_matches db_approved = delete_by_id 0%nat (pending_matches db_bound)
  /\ users db_approved = users db_bound.
Proof.
  assert (Hfst : fst (approve_match (fun _ => false) 9 "0" "777" db_bound)
                 = Ok approved_answer) by by_evaluation.
  split; [exact Hfst|]. unfold db_approved.
  destruct (approve_match (fun _ => false) 9 "0" "777" db_bound) as [r' db'] eqn:Hrun.
  cbn [fst snd] in *. subst r'.
  destruct (approve_match_moves_match (fun _ => false) 9 db_bound db' "0" "777"
              0%nat bound_match approved_answer)
    as (_ & _ & Hat & _ & _ & Hpending & _ & Husers);
    [by_evaluation|by_evaluation|exact Hrun|].
  split; [exact Hat|]. by split.
Defined.

Lemma approve_match_writes_own_rows_duel :
  subs_table db_approved !! "101" = subs_table db_bound !! "101".
Proof.
  assert (Hfst : fst (approve_match (fun _ => false) 9 "0" "777" db_bound)
                 = Ok approved_answer) by by_evaluation.
  unfold db_approved.
  destruct (approve_match (fun _ => false) 9 "0" "777" db_bound) as [r' db'] eqn:Hrun.
  cbn [fst snd] in *. subst r'.
  destruct (approve_match_writes_own_rows (fun _ => false) 9 db_bound db' "0" "777"
              0%nat bound_match approved_answer) as [_ Hsubs];
    [by_evaluation|by_evaluation|exact Hrun|].
  apply Hsubs. intros (p & Hp & Hsub & _).
  apply list_elem_of_In in Hp. vm_compute in Hp.
  destruct Hp as [<-|[<-|[]]]; discriminate Hsub.
Defined.


Lemma get_stat_table_shared_duel :
  get_stat_table false "Duel" "civ6" false false
  <> get_stat_table false "Duel" "civ6" true false.
Proof.
  intros H. apply get_stat_table_shared in H as [H _]. discriminate H.
Defined.

Lemma create_from_save_fresh_duel :
  create_from_save 7 "CIV6 duel" "999" false "m1" db0 = (Ok created_answer, db1)
  /\ get (r_match_id created_answer) db1
     = (Ok (mkResponse (r_match_id created_answer) (r_match created_answer) None), db1).
Proof.
  assert (Hrun : create_from_save 7 "CIV6 duel" "999" false "m1" db0
                 = (Ok created_answer, db1)) by by_evaluation.
  split; [exact Hrun|].
  destruct (create_from_save_fresh 7 db0 db1 "CIV6 duel" "999" false "m1" created_answer
              Hrun) as (parsed & post & season_post & combined_post & Hfresh);
    [by_evaluation|].
  cbv zeta in Hfresh. destruct Hfresh as (_ & _ & _ & _ & _ & _ & _ & _ & Hget).
  apply Hget; [|by_evaluation]. intros d Hd. by apply elem_of_nil in Hd.
Defined.

Lemma create_from_save_errors_unknown_format :
  create_from_save 7 "PNG" "999" false "m1" db0 = (Err ParseError, db0).
Proof.
  apply (proj1 (create_from_save_errors 7 db0 "PNG" "999" false "m1")); by_evaluation.
Defined.

Lemma directory_round_trip_ann : discord_to_steam_id db0 "101" = Some "s1".
Proof.
  apply (proj1 (directory_round_trip db0 "s1" "101")); [|by_evaluation].
  intros u1 u2 H1 H2 Hd1 Hd2. apply list_elem_of_In in H1, H2.
  vm_compute in H1, H2.
  destruct H1 as [<-|[<-|[]]], H2 as [<-|[<-|[]]];
    first [reflexivity|discriminate Hd1|discriminate Hd2].
Defined.

Lemma update_player_stats_returns_twice_subbed :
  exists m' post',
    update_player_stats (Some twice_subbed) priors Fdelta = Ok (Some m', Some post').
Proof.
  apply update_player_stats_returns.
  - vm_compute. lia.
  - exact indexed_priors.
  - reflexivity.
  - vm_compute. repeat constructor.
  - vm_compute. repeat constructor.
  - intros post i p cur merged _ _ _ _ _. by eexists.
Defined.

Lemma append_discord_message_id_list_composes_duel :
  append_discord_message_id_list "0" ["b"]
    (snd (append_discord_message_id_list "0" ["a"] db1))
  = append_discord_message_id_list "0" ["a"; "b"] db1.
Proof.
  destruct (append_discord_message_id_list_composes db1 "0" 0%nat duel_match ["a"] ["b"])
    as (_ & H & _); [by_evaluation|by_evaluation|].
  exact H.
Defined.

Lemma mutation_then_get_duel : get "0" db2 = (Ok sub_answer, db2).
Proof.
  apply (mutation_then_get (AssignSub "0" "0" "103" "m2") db1 db2 "0" sub_answer);
    [reflexivity|by_evaluation].
Defined.

Lemma pending_matches_have_two_teams_after_substitution :
  Forall (fun d => (1 < num_teams (snd d))%nat) (pending_matches db2).
Proof.
  apply (pending_matches_have_two_teams db0 db2); [constructor|].
  unfold db2, db1. repeat apply reachable_call. apply reachable_init.
Defined.

End Worked.
